(** * The face-spoofing detector's browser client

    The repository ships three successive scripts for one page (camera or
    upload, POST to the detection service, render the answer, keep a list
    of recent detections):

    - the original script, [src/common.js] lines 1-106 (module [Original]);
    - [frontend/app-fixed.js], [src/common.js] lines 107-248 (module [Fixed]);
    - [frontend/app.js] for GitHub Pages and Render, [src/unnamed/part_000]
      (module [Pages]).

    Each handler is embedded as a computation over the page state.  What the
    browser and the network answer (the camera permission, the HTTP response,
    the encoded frame, the clock) is an argument of the handler. *)

From Stdlib Require Import ZArith QArith Qabs Qround List String Ascii Bool Lia.
From Stdlib Require Import DecimalString.
From Equations Require Import Equations.
Import ListNotations.

#[local] Set Warnings "-register-all".


(** ** JavaScript values and the coercions the scripts rely on *)

Module Js.

Local Open Scope string_scope.

(** A value as [JSON.parse] builds it, plus [undefined] (what reading a
    missing property gives).  An object lists its own properties.  A
    number is a finite binary64 value, held as the rational it is (a
    numeral out of the range of binary64, which [JSON.parse] reads as an
    infinity, is not modelled); a text is held as its UTF-8 bytes. *)
Inductive value : Type :=
| Undefined
| Null
| Bool (b : bool)
| Num (q : Q)
| Str (s : string)
| Obj (props : list (string * value))
| Arr (items : list value).

(** The result of an arithmetic expression: [NaN], a finite number or an
    infinity. *)
Inductive number : Type :=
| NaN
| Fin (q : Q)
| Inf (negative : bool).

(** What the scripts leave to the engine: the text of a number that is not
    an integer of magnitude up to 2^53, the numeric reading of a string,
    and the upper case of a text that holds non-ASCII characters. *)
Record Engine : Type := {
  fractionToString : Q -> string;
  StringToNumber : string -> number;
  unicodeToUpperCase : string -> string
}.

Definition quote : ascii := ascii_of_nat 34.
Definition nl : string := String (ascii_of_nat 10) EmptyString.
Definition dq : string := String quote EmptyString.

Definition show_Z (z : Z) : string := NilZero.string_of_int (Z.to_int z).

Definition is_integer (q : Q) : bool :=
  (Qnum q mod Z.pos (Qden q) =? 0)%Z.

(** [Number::toString]: an integer of magnitude up to 2^53 is written
    with all its digits; any other number (a fraction, a larger integer,
    which is written with its shortest digits or an exponent) is formatted
    by the engine. *)
Definition Number_toString (E : Engine) (q : Q) : string :=
  if is_integer q && (Z.abs (Qfloor q) <=? 2 ^ 53)%Z
  then show_Z (Qfloor q)
  else fractionToString E q.

Definition number_toString (E : Engine) (n : number) : string :=
  match n with
  | NaN => "NaN"
  | Fin q => Number_toString E q
  | Inf false => "Infinity"
  | Inf true => "-Infinity"
  end.

Fixpoint join (sep : string) (l : list string) : string :=
  match l with
  | [] => ""
  | [s] => s
  | s :: rest => s ++ sep ++ join sep rest
  end.

Fixpoint all_some {A : Type} (l : list (option A)) : option (list A) :=
  match l with
  | [] => Some []
  | Some a :: rest => option_map (cons a) (all_some rest)
  | None :: _ => None
  end.

(** Whether an object has an own property of that name. *)
Definition has_key (k : string) (props : list (string * value)) : bool :=
  existsb (fun kv => fst kv =? k) props.

(** [String(v)], also what a template literal applies to [${v}] and what
    [v.toString()] returns for a [v] that is neither [null] nor
    [undefined]; [None] is a TypeError.  A parsed object has no callable
    property of its own, so an own [toString] hides the inherited method
    and the conversion throws; without one it is [[object Object]].  An
    array is the texts of its items joined by commas. *)
Fixpoint ToString (E : Engine) (v : value) : option string :=
  match v with
  | Undefined => Some "undefined"
  | Null => Some "null"
  | Bool true => Some "true"
  | Bool false => Some "false"
  | Num q => Some (Number_toString E q)
  | Str s => Some s
  | Obj props =>
      if has_key "toString" props then None else Some "[object Object]"
  | Arr items =>
      option_map (join ",")
        (all_some (map (fun x => match x with
                                 | Undefined | Null => Some ""
                                 | _ => ToString E x
                                 end) items))
  end.

(** [Number(v)], applied by [*] to its operands; [None] is the TypeError
    of an object or an array that has no text. *)
Definition ToNumber (E : Engine) (v : value) : option number :=
  match v with
  | Undefined => Some NaN
  | Null => Some (Fin 0)
  | Bool true => Some (Fin 1)
  | Bool false => Some (Fin 0)
  | Num q => Some (Fin q)
  | Str s => Some (StringToNumber E s)
  | Obj _ | Arr _ => option_map (StringToNumber E) (ToString E v)
  end.

(** 2^e for any integer [e]. *)
Definition pow2 (e : Z) : Q :=
  if (0 <=? e)%Z then inject_Z (2 ^ e) else 1 # Z.to_pos (2 ^ (- e)).

(** For a positive [a], the [e] with 2^e <= a < 2^(e+1). *)
Definition floor_log2 (a : Q) : Z :=
  let k := (Z.log2 (Qnum a) - Z.log2 (Z.pos (Qden a)))%Z in
  if Qle_bool (pow2 k) a then k else (k - 1)%Z.

(** The nearest integer, a tie going to the even one. *)
Definition round_half_even (q : Q) : Z :=
  let f := Qfloor q in
  match ((q - inject_Z f) ?= (1 # 2))%Q with
  | Lt => f
  | Gt => (f + 1)%Z
  | Eq => if Z.even f then f else (f + 1)%Z
  end.

(** The binary64 number nearest to a real result (round to nearest, ties
    to even): 53 significant bits, steps of 2^-1074 at the small end,
    an infinity from 2^1024 on.  The sign of a zero is not kept: no script
    can tell one zero from the other. *)
Definition binary64 (q : Q) : number :=
  if Qeq_bool q 0 then Fin 0
  else
    let a := Qabs q in
    let e := Z.max (floor_log2 a - 52) (-1074) in
    let r := (inject_Z (round_half_even (a / pow2 e)) * pow2 e)%Q in
    if Qle_bool (pow2 1024) r then Inf (negb (Qle_bool 0 q))
    else Fin (if Qle_bool 0 q then r else (- r)%Q).

(** [a * b] on numbers. *)
Definition mul (a b : number) : number :=
  match a, b with
  | NaN, _ | _, NaN => NaN
  | Fin x, Fin y => binary64 (x * y)%Q
  | Inf s, Fin y | Fin y, Inf s =>
      if Qeq_bool y 0 then NaN else Inf (xorb s (negb (Qle_bool 0 y)))
  | Inf s, Inf t => Inf (xorb s t)
  end.

(** [Math.round]: the nearest integer, a tie going up. *)
Definition round_half_up (q : Q) : Z := Qfloor (q + (1 # 2))%Q.

Definition Math_round (n : number) : number :=
  match n with
  | Fin q => Fin (inject_Z (round_half_up q))
  | _ => n
  end.

(** [x.toFixed(1)]: for a finite [x] below 10^21 in magnitude the sign,
    then the nearest multiple of one tenth of the magnitude (a tie going
    up) with one digit after the point; otherwise [String(x)]. *)
Definition toFixed1 (E : Engine) (n : number) : string :=
  match n with
  | Fin x =>
      if Qle_bool (inject_Z (10 ^ 21)) (Qabs x) then Number_toString E x
      else
        let n := Qfloor (Qabs x * 10 + (1 # 2))%Q in
        (if Qle_bool 0 x then "" else "-")
          ++ show_Z (n / 10) ++ "." ++ show_Z (n mod 10)
  | _ => number_toString E n
  end.

Definition truthy (v : value) : bool :=
  match v with
  | Undefined | Null => false
  | Bool b => b
  | Num q => negb (Qeq_bool q 0)
  | Str s => negb (s =? "")
  | Obj _ | Arr _ => true
  end.

(** [a || b] and [a ?? b]. *)
Definition or_else (a b : value) : value := if truthy a then a else b.

Definition nullish (a b : value) : value :=
  match a with
  | Undefined | Null => b
  | _ => a
  end.

Definition is_number (v : value) : bool :=
  match v with
  | Num _ => true
  | _ => false
  end.

Fixpoint lookup (k : string) (props : list (string * value)) : value :=
  match props with
  | [] => Undefined
  | (k', v) :: rest => if k' =? k then v else lookup k rest
  end.

(** [v.k] for one of the keys the scripts read; [None] is the TypeError of
    reading a property of [null] or [undefined]. *)
Definition get (v : value) (k : string) : option value :=
  match v with
  | Undefined | Null => None
  | Obj props => Some (lookup k props)
  | _ => Some Undefined
  end.

Definition upper_char (c : ascii) : ascii :=
  let n := nat_of_ascii c in
  if (97 <=? n)%nat && (n <=? 122)%nat then ascii_of_nat (n - 32) else c.

Fixpoint ascii_upper (s : string) : string :=
  match s with
  | EmptyString => EmptyString
  | String c rest => String (upper_char c) (ascii_upper rest)
  end.

Fixpoint is_ascii_text (s : string) : bool :=
  match s with
  | EmptyString => true
  | String c rest => (nat_of_ascii c <? 128)%nat && is_ascii_text rest
  end.

(** [s.toUpperCase()]: in an ASCII text the letters a-z are mapped and
    every other character is kept; a text with other characters is mapped
    by the engine's Unicode tables. *)
Definition toUpperCase (E : Engine) (s : string) : string :=
  if is_ascii_text s then ascii_upper s else unicodeToUpperCase E s.

(** [v.toUpperCase()]: only a string has the method; [None] is the
    TypeError on anything else. *)
Definition call_toUpperCase (E : Engine) (v : value) : option string :=
  match v with
  | Str s => Some (toUpperCase E s)
  | _ => None
  end.

Definition escape_char (c : ascii) : string :=
  if (c =? "&")%char then "&amp;"
  else if (c =? "<")%char then "&lt;"
  else if (c =? ">")%char then "&gt;"
  else if (c =? quote)%char then "&quot;"
  else if (c =? "'")%char then "&#39;"
  else String c EmptyString.

(** The replacement of [escapeHtml] on a text: each of the five characters
    by its entity. *)
Fixpoint escape (s : string) : string :=
  match s with
  | EmptyString => EmptyString
  | String c rest => escape_char c ++ escape rest
  end.

(** [escapeHtml(s)]: [String(s)] with each of the five characters replaced
    by its entity; [None] when [String(s)] throws. *)
Definition escapeHtml (E : Engine) (s : value) : option string :=
  option_map escape (ToString E s).

Definition hex_digit (n : nat) : ascii :=
  if (n <? 10)%nat then ascii_of_nat (48 + n) else ascii_of_nat (87 + n).

(** One character of a quoted JSON string. *)
Definition quote_json_char (c : ascii) : string :=
  let n := nat_of_ascii c in
  if (c =? quote)%char then "\" ++ dq
  else if (c =? "\")%char then "\\"
  else if (n =? 8)%nat then "\b"
  else if (n =? 9)%nat then "\t"
  else if (n =? 10)%nat then "\n"
  else if (n =? 12)%nat then "\f"
  else if (n =? 13)%nat then "\r"
  else if (n <? 32)%nat
       then "\u00" ++ String (hex_digit (n / 16))
                        (String (hex_digit (n mod 16)) EmptyString)
  else String c EmptyString.

Fixpoint quote_json_chars (s : string) : string :=
  match s with
  | EmptyString => EmptyString
  | String c rest => quote_json_char c ++ quote_json_chars rest
  end.

Definition quote_json (s : string) : string :=
  dq ++ quote_json_chars s ++ dq.

(** [JSON.stringify(v)] with no indentation: a property whose value is
    [undefined] is left out, an [undefined] item is written [null]. *)
Fixpoint JSON_stringify (E : Engine) (v : value) : string :=
  match v with
  | Undefined | Null => "null"
  | Bool true => "true"
  | Bool false => "false"
  | Num q => Number_toString E q
  | Str s => quote_json s
  | Arr items => "[" ++ join "," (map (JSON_stringify E) items) ++ "]"
  | Obj props =>
      "{" ++ join ","
               ((fix members (l : list (string * value)) : list string :=
                   match l with
                   | [] => []
                   | (_, Undefined) :: rest => members rest
                   | (k, x) :: rest =>
                       (quote_json k ++ ":" ++ JSON_stringify E x)
                         :: members rest
                   end) props)
          ++ "}"
  end.

(** The part of a path after its last slash: [p.split('/').pop()]. *)
Fixpoint last_segment (p : string) : string :=
  match p with
  | EmptyString => EmptyString
  | String c rest =>
      if (c =? "/")%char then last_segment rest
      else if existsb (Ascii.eqb "/") (list_ascii_of_string rest)
           then last_segment rest
           else p
  end.

End Js.

(** ** The page, the network and the effects of a handler *)

Module Dom.

Import Js.
Local Open Scope string_scope.

Definition Blob : Type := string.
Definition MediaStream : Type := nat.

(** The body of a request: the original script posts a JSON text, the two
    later ones a multipart form. *)
Inductive payload : Type :=
| TextBody (text : string)
| FormData (field : string) (file : Blob) (filename : string).

(** What a handler does besides writing to the page, in the order it does
    it. *)
Inductive event : Type :=
| Alert (message : string)
| ConsoleError (label : string)
| GetUserMedia
| DrawImage (width height : Z)
| Fetch (method url : string) (body : option payload)
| ReadText
| ReadJson.

(** An element of the recent list: an image, an element filled through
    [innerHTML], or an element built with [appendChild]. *)
Inductive node : Type :=
| Img (src : string) (attrs : list (string * string))
| Html (style : list (string * string)) (innerHTML : string)
| Box (style : list (string * string)) (children : list node).

(** The last assignment to an element: [innerText] (shown as it is) or
    [innerHTML] (parsed as markup). *)
Inductive content : Type :=
| InnerText (s : string)
| InnerHTML (s : string).

Record Page : Type := {
  video_srcObject : option MediaStream;
  startBtn_disabled : bool;
  previewImg_src : string;
  resultBox : content;
  modelStatus : content;
  recentList : list node;
  trace : list event
}.

(** An HTTP response: its status and the two readings of its body,
    [text()] and [json()] ([None] when the body is not valid JSON).  A
    handler takes one reading at most; a body that cannot be read to its
    end is not modelled. *)
Record Response : Type := {
  status : Z;
  body_text : string;
  body_json : option value
}.

Definition ok (r : Response) : bool :=
  (200 <=? status r)%Z && (status r <=? 299)%Z.

(** [fetch] rejects (the host cannot be reached) or resolves, and the body
    of a response is read to its end.  A request or a reading that never
    settles is outside these outcomes: the scripts set no timeout, so a
    handler waiting for one stays where it is, which no statement below
    speaks of. *)
Inductive fetch_outcome : Type :=
| NetworkError
| Answer (r : Response).

(** [getUserMedia] resolves with a stream or rejects; [navigator.mediaDevices]
    being absent throws in the same [try]. *)
Inductive media_outcome : Type :=
| Granted (s : MediaStream)
| Refused.

Definition set_srcObject (v : option MediaStream) (p : Page) : Page :=
  {| video_srcObject := v; startBtn_disabled := startBtn_disabled p;
     previewImg_src := previewImg_src p; resultBox := resultBox p;
     modelStatus := modelStatus p; recentList := recentList p;
     trace := trace p |}.

Definition set_disabled (b : bool) (p : Page) : Page :=
  {| video_srcObject := video_srcObject p; startBtn_disabled := b;
     previewImg_src := previewImg_src p; resultBox := resultBox p;
     modelStatus := modelStatus p; recentList := recentList p;
     trace := trace p |}.

Definition set_preview (s : string) (p : Page) : Page :=
  {| video_srcObject := video_srcObject p;
     startBtn_disabled := startBtn_disabled p;
     previewImg_src := s; resultBox := resultBox p;
     modelStatus := modelStatus p; recentList := recentList p;
     trace := trace p |}.

Definition set_resultBox (c : content) (p : Page) : Page :=
  {| video_srcObject := video_srcObject p;
     startBtn_disabled := startBtn_disabled p;
     previewImg_src := previewImg_src p; resultBox := c;
     modelStatus := modelStatus p; recentList := recentList p;
     trace := trace p |}.

Definition set_modelStatus (c : content) (p : Page) : Page :=
  {| video_srcObject := video_srcObject p;
     startBtn_disabled := startBtn_disabled p;
     previewImg_src := previewImg_src p; resultBox := resultBox p;
     modelStatus := c; recentList := recentList p;
     trace := trace p |}.

Definition set_recentList (l : list node) (p : Page) : Page :=
  {| video_srcObject := video_srcObject p;
     startBtn_disabled := startBtn_disabled p;
     previewImg_src := previewImg_src p; resultBox := resultBox p;
     modelStatus := modelStatus p; recentList := l;
     trace := trace p |}.

Definition log (e : event) (p : Page) : Page :=
  {| video_srcObject := video_srcObject p;
     startBtn_disabled := startBtn_disabled p;
     previewImg_src := previewImg_src p; resultBox := resultBox p;
     modelStatus := modelStatus p; recentList := recentList p;
     trace := (trace p ++ [e])%list |}.

(** A handler's body: it reads and writes the page, and either returns or
    throws ([None]); what it wrote before throwing stays written. *)
Definition M (A : Type) : Type := Page -> option A * Page.

Definition ret {A : Type} (a : A) : M A := fun p => (Some a, p).

Definition throw {A : Type} : M A := fun p => (None, p).

Definition bind {A B : Type} (m : M A) (k : A -> M B) : M B :=
  fun p =>
    match m p with
    | (Some a, p') => k a p'
    | (None, p') => (None, p')
    end.

Definition lift {A : Type} (o : option A) : M A :=
  match o with
  | Some a => ret a
  | None => throw
  end.

Definition read : M Page := fun p => (Some p, p).

Definition write (f : Page -> Page) : M unit := fun p => (Some tt, f p).

Definition emit (e : event) : M unit := write (log e).

(** [try { body } catch { handler }]. *)
Definition try_catch (body handler : M unit) : M unit :=
  fun p =>
    match body p with
    | (Some _, p') => (Some tt, p')
    | (None, p') => handler p'
    end.

(** The page a handler leaves, and whether it returned without throwing. *)
Definition run (m : M unit) (p : Page) : Page := snd (m p).

Definition returns (m : M unit) (p : Page) : bool :=
  match fst (m p) with
  | Some _ => true
  | None => false
  end.

Definition await_fetch (net : fetch_outcome) : M Response :=
  match net with
  | NetworkError => throw
  | Answer r => ret r
  end.

Definition await_media (o : media_outcome) : M MediaStream :=
  match o with
  | Granted s => ret s
  | Refused => throw
  end.

(** [while (recentList.children.length > 10)
       recentList.removeChild(recentList.lastChild)]. *)
Equations? keep_last_10 (l : list node) : list node by wf (List.length l) lt :=
  keep_last_10 l with le_lt_dec (List.length l) 10 => {
    | left _ := l;
    | right _ := keep_last_10 (removelast l) }.
Proof. rewrite removelast_firstn_len, length_firstn. lia. Qed.

Definition is_alert (e : event) : bool :=
  match e with
  | Alert _ => true
  | _ => false
  end.

Definition is_fetch (e : event) : bool :=
  match e with
  | Fetch _ _ _ => true
  | _ => false
  end.

Definition is_capture (e : event) : bool :=
  match e with
  | DrawImage _ _ => true
  | _ => false
  end.

Definition is_json_read (e : event) : bool :=
  match e with
  | ReadJson => true
  | _ => false
  end.

Definition is_text_read (e : event) : bool :=
  match e with
  | ReadText => true
  | _ => false
  end.

Definition count (f : event -> bool) (t : list event) : nat :=
  List.length (filter f t).

End Dom.

Declare Scope handler_scope.
Delimit Scope handler_scope with handler.
Notation "x <- m ;; k" := (Dom.bind m (fun x => k))
  (at level 61, m at next level, right associativity) : handler_scope.
Notation "m ;; k" := (Dom.bind m (fun _ => k))
  (at level 61, right associativity) : handler_scope.

(** ** The original script ([src/common.js], lines 1-106) *)

Module Original.

Import Js Dom.
Local Open Scope string_scope.
Local Open Scope handler_scope.

Section WithEngine.

Variable E : Engine.

Definition PING_URL : string := "http://127.0.0.1:5000/api/ping".
Definition DETECT_URL : string := "http://127.0.0.1:5000/api/detect".
Definition LOGS_URL : string := "http://127.0.0.1:5000/api/logs?limit=10".
Definition UPLOADS_URL : string := "http://127.0.0.1:5000/uploads/".

(** The bullet of the recent entry's markup, U+2022 in UTF-8. *)
Definition bullet : string :=
  String (ascii_of_nat 226)
    (String (ascii_of_nat 128) (String (ascii_of_nat 162) EmptyString)).

(** [pingModel()], lines 11-19.  The template literal converts each of its
    two values with [String] as it comes to it. *)
Definition pingModel (net : fetch_outcome) : M unit :=
  try_catch
    (emit (Fetch "GET" PING_URL None) ;;
     r <- await_fetch net ;;
     emit ReadJson ;;
     j <- lift (body_json r) ;;
     model_name <- lift (get j "model_name") ;;
     name <- lift (ToString E (or_else model_name (Str "none"))) ;;
     model_loaded <- lift (get j "model_loaded") ;;
     loaded <- lift (ToString E model_loaded) ;;
     write (set_modelStatus
              (InnerText (name ++ " (loaded=" ++ loaded ++ ")"))))
    (write (set_modelStatus (InnerText "backend unreachable"))).

(** [startBtn.onclick], lines 23-31. *)
Definition startBtn_onclick (o : media_outcome) : M unit :=
  try_catch
    (emit GetUserMedia ;;
     stream <- await_media o ;;
     write (set_srcObject (Some stream)) ;;
     write (set_disabled true))
    (emit (Alert "Camera access denied or unavailable.")).

(** The thumbnail of a recent entry, lines 83-85: the uploaded file when
    the item names one, the preview otherwise; [None] is the TypeError of
    calling [split] on what is not a string. *)
Definition thumbnail (image_path : value) (preview : string) : option string :=
  if truthy image_path then
    match image_path with
    | Str path => Some (UPLOADS_URL ++ last_segment path)
    | _ => None
    end
  else Some preview.

(** The markup of one recent entry's text, lines 89-92, from the texts of
    its values. *)
Definition info_markup (label attack_type timestamp : string)
    (conf : number) (processing_time_ms : string) : string :=
  nl ++ "    <div style=" ++ dq ++ "font-weight:700" ++ dq ++ ">" ++ label
     ++ " " ++ bullet ++ " " ++ attack_type ++ "</div>"
  ++ nl ++ "    <div style=" ++ dq ++ "color:#777;font-size:12px" ++ dq ++ ">"
     ++ timestamp ++ "</div>"
  ++ nl ++ "    <div style=" ++ dq ++ "font-size:12px;color:#777" ++ dq
     ++ ">conf " ++ number_toString E conf ++ "% " ++ bullet ++ " "
     ++ processing_time_ms ++ " ms</div>".

(** The element [d] of [appendRecent], lines 80-95. *)
Definition recent_entry (src label attack_type timestamp : string)
    (conf : number) (processing_time_ms : string) : node :=
  Box [] [Img src [("className", "img-thumb")];
          Html [] (info_markup label attack_type timestamp conf
                               processing_time_ms)].

(** [appendRecent(item)], lines 78-97.  The template literal of lines
    89-92 evaluates and converts its values from left to right; any of the
    conversions can throw. *)
Definition appendRecent (item : value) : M unit :=
  image_path <- lift (get item "image_path") ;;
  p <- read ;;
  src <- lift (thumbnail image_path (previewImg_src p)) ;;
  prediction <- lift (get item "prediction") ;;
  label <- lift (call_toUpperCase E prediction) ;;
  attack_type <- lift (get item "attack_type") ;;
  attack_type <- lift (ToString E attack_type) ;;
  timestamp <- lift (get item "timestamp") ;;
  timestamp <- lift (ToString E timestamp) ;;
  confidence <- lift (get item "confidence") ;;
  confidence <- lift (ToNumber E confidence) ;;
  let conf := Math_round (mul confidence (Fin 100)) in
  processing_time_ms <- lift (get item "processing_time_ms") ;;
  processing_time_ms <- lift (ToString E processing_time_ms) ;;
  let d := recent_entry src label attack_type timestamp conf
                        processing_time_ms in
  write (fun p => set_recentList (d :: recentList p) p).

(** The markup of a rendered result, lines 67-70, from the texts of its
    values. *)
Definition result_markup (label attack_type : string) (conf : number)
    (time : string) : string :=
  nl ++ "      <div><strong>Result:</strong> " ++ label ++ " ("
     ++ attack_type ++ ")</div>"
  ++ nl ++ "      <div><strong>Confidence:</strong> "
     ++ number_toString E conf ++ "%</div>"
  ++ nl ++ "      <div><strong>Time:</strong> " ++ time ++ " ms</div>".

(** [autoDetect(src, sourceType)], lines 59-75. *)
Definition autoDetect (src sourceType : string) (net : fetch_outcome)
  : M unit :=
  try_catch
    (emit (Fetch "POST" DETECT_URL
                 (Some (TextBody
                          (JSON_stringify E
                             (Obj [("image", Str src);
                                   ("source", Str sourceType)]))))) ;;
     resp <- await_fetch net ;;
     emit ReadJson ;;
     data <- lift (body_json resp) ;;
     prediction <- lift (get data "prediction") ;;
     label <- lift (call_toUpperCase E prediction) ;;
     attack_type <- lift (get data "attack_type") ;;
     attack_type <- lift (ToString E attack_type) ;;
     confidence <- lift (get data "confidence") ;;
     confidence <- lift (ToNumber E confidence) ;;
     let conf := Math_round (mul confidence (Fin 100)) in
     processing_time_ms <- lift (get data "processing_time_ms") ;;
     processing_time_ms <- lift (ToString E processing_time_ms) ;;
     write (set_resultBox
              (InnerHTML (result_markup label attack_type conf
                                        processing_time_ms))) ;;
     appendRecent data)
    (write (set_resultBox (InnerHTML "Detection failed. Is backend running?"))).

(** [snapBtn.onclick], lines 34-43.  [width] and [height] are the video's
    dimensions and [data] what [canvas.toDataURL] yields. *)
Definition snapBtn_onclick (width height : Z) (data : string)
    (net : fetch_outcome) : M unit :=
  emit (DrawImage width height) ;;
  write (set_preview data) ;;
  write (set_resultBox (InnerHTML "Analyzing...")) ;;
  autoDetect data "camera" net.

(** [uploadInput.onchange], lines 47-56: [readAsDataURL] throws when no
    file was chosen; [data] is what the reader yields. *)
Definition uploadInput_onchange (file : option Blob) (data : string)
    (net : fetch_outcome) : M unit :=
  match file with
  | None => throw
  | Some _ =>
      write (set_preview data) ;;
      write (set_resultBox (InnerHTML "Analyzing...")) ;;
      autoDetect data "upload" net
  end.

Fixpoint forEach (f : value -> M unit) (items : list value) : M unit :=
  match items with
  | [] => ret tt
  | x :: rest => f x ;; forEach f rest
  end.

(** The loader of the recent logs, lines 100-106. *)
Definition loadRecent (net : fetch_outcome) : M unit :=
  try_catch
    (emit (Fetch "GET" LOGS_URL None) ;;
     logs <- await_fetch net ;;
     emit ReadJson ;;
     j <- lift (body_json logs) ;;
     rows <- lift (get j "rows") ;;
     match rows with
     | Arr items => forEach appendRecent items
     | _ => throw
     end)
    (ret tt).

(** What the script runs when the page loads: the ping (line 20) and the
    loader of the logs.  The two are started one after the other and write
    different parts of the page; the model runs the first to its end before
    the second. *)
Definition onload (ping logs : fetch_outcome) : M unit :=
  pingModel ping ;; loadRecent logs.

End WithEngine.

End Original.

(** ** [frontend/app-fixed.js] ([src/common.js], lines 107-248) *)

Module Fixed.

Import Js Dom.
Local Open Scope string_scope.
Local Open Scope handler_scope.

(** The argument of [appendRecent]. *)
Record Item : Type := {
  label : string;
  confidence : Q;
  timestamp : string
}.

Section WithEngine.

Variable E : Engine.

Definition BACKEND_BASE : string := "http://127.0.0.1:5000".

Definition DETECT_ENDPOINT : string := BACKEND_BASE ++ "/api/detect".

(** [startBtn.onclick], lines 125-135. *)
Definition startBtn_onclick (o : media_outcome) : M unit :=
  try_catch
    (emit GetUserMedia ;;
     stream <- await_media o ;;
     write (set_srcObject (Some stream)) ;;
     write (set_disabled true) ;;
     write (set_resultBox (InnerText "Camera started.")))
    (emit (Alert ("Camera access denied or unavailable. "
                  ++ "Check permissions or use HTTPS/localhost.")) ;;
     emit (ConsoleError "")).

(** The markup of one recent entry's text, lines 232-236.  The label
    and the timestamp of an item are texts, on which [escapeHtml] cannot
    throw and is [escape]. *)
Definition info_markup (item : Item) : string :=
  nl ++ "    <div style=" ++ dq ++ "font-weight:700" ++ dq ++ ">"
     ++ escape (toUpperCase E (label item)) ++ "</div>"
  ++ nl ++ "    <div style=" ++ dq ++ "font-size:12px;color:#777" ++ dq ++ ">"
     ++ escape (timestamp item) ++ "</div>"
  ++ nl ++ "    <div style=" ++ dq ++ "font-size:12px;color:#777" ++ dq
     ++ ">conf " ++ toFixed1 E (mul (Fin (confidence item)) (Fin 100))
     ++ "%</div>"
  ++ nl ++ "  ".

(** The element [d] of [appendRecent], lines 218-239. *)
Definition recent_entry (item : Item) (imgSrc : string) : node :=
  let img := Img imgSrc [("width", "80"); ("height", "60");
                         ("objectFit", "cover"); ("borderRadius", "6px")] in
  Box [("display", "flex"); ("alignItems", "center");
       ("gap", "8px"); ("marginBottom", "5px")]
      [img; Html [] (info_markup item)].

(** [appendRecent(item, imgSrc)], lines 217-244. *)
Definition appendRecent (item : Item) (imgSrc : string) : M unit :=
  let d := recent_entry item imgSrc in
  write (fun p => set_recentList (d :: recentList p) p) ;;
  write (fun p => set_recentList (keep_last_10 (recentList p)) p).

(** The markup of a rendered result, lines 198-202, from the label and
    from the texts [String(confidence)] and [String(timeMs)]: three texts,
    each passed through [escapeHtml]. *)
Definition result_markup (label confidence timeMs : string) : string :=
  nl ++ "      <div><strong>Prediction:</strong> "
     ++ escape (toUpperCase E label) ++ "</div>"
  ++ nl ++ "      <div><strong>Confidence:</strong> "
     ++ escape confidence ++ "</div>"
  ++ nl ++ "      <div><strong>Processing time:</strong> "
     ++ escape timeMs ++ " ms</div>"
  ++ nl ++ "    ".

(** The markup shown for a non-success status, line 180; [text] is the
    body. *)
Definition server_error_markup (status : Z) (text : string) : string :=
  "<span style=" ++ dq ++ "color:red" ++ dq ++ ">Server error "
  ++ show_Z status ++ ":</span><pre style=" ++ dq ++ "white-space:pre-wrap"
  ++ dq ++ ">" ++ escape text ++ "</pre>".

(** The markup shown for an [error] field, line 189; [escaped] is what
    [escapeHtml(result.error)] returned. *)
Definition error_markup (escaped : string) : string :=
  "<span style=" ++ dq ++ "color:red" ++ dq ++ ">" ++ escaped ++ "</span>".

(** [sendToBackend(fileBlob)], lines 165-214; [now] is what
    [new Date().toLocaleString()] yields. *)
Definition sendToBackend (fileBlob : Blob) (now : string)
    (net : fetch_outcome) : M unit :=
  try_catch
    (emit (Fetch "POST" DETECT_ENDPOINT
                 (Some (FormData "image" fileBlob "image.jpg"))) ;;
     resp <- await_fetch net ;;
     if negb (ok resp) then
       emit ReadText ;;
       emit (ConsoleError "Server error body:") ;;
       write (set_resultBox
                (InnerHTML (server_error_markup (status resp)
                                                (body_text resp))))
     else
       emit ReadJson ;;
       result <- lift (body_json resp) ;;
       error <- lift (get result "error") ;;
       if truthy error then
         escaped <- lift (escapeHtml E error) ;;
         write (set_resultBox (InnerHTML (error_markup escaped)))
       else
         prediction <- lift (get result "prediction") ;;
         label' <- lift (get result "label") ;;
         label <- lift (ToString E (or_else (or_else prediction label')
                                            (Str "unknown"))) ;;
         c <- lift (get result "confidence") ;;
         let confidence :=
           match c with
           | Num q => Str (toFixed1 E (mul (Fin q) (Fin 100)) ++ "%")
           | _ => or_else c (Str "N/A")
           end in
         processing_time_ms <- lift (get result "processing_time_ms") ;;
         processing_time <- lift (get result "processing_time") ;;
         let timeMs :=
           nullish (nullish processing_time_ms processing_time) (Str "N/A") in
         confidence <- lift (ToString E confidence) ;;
         timeMs <- lift (ToString E timeMs) ;;
         write (set_resultBox
                  (InnerHTML (result_markup label confidence timeMs))) ;;
         p <- read ;;
         appendRecent
           {| label := label;
              confidence := match c with Num q => q | _ => 0 end;
              timestamp := now |}
           (previewImg_src p))
    (emit (ConsoleError "Network / parse error:") ;;
     write (set_resultBox
              (InnerText ("Detection failed. Is backend running? "
                          ++ "See console for details.")))).

(** [snapBtn.onclick], lines 138-152.  [width] and [height] are the video's
    dimensions, [blob] what [canvas.toBlob] yields and [url] what
    [URL.createObjectURL] names it. *)
Definition snapBtn_onclick (width height : Z) (blob : Blob) (url now : string)
    (net : fetch_outcome) : M unit :=
  p <- read ;;
  match video_srcObject p with
  | None => write (set_resultBox (InnerText "Start the camera first."))
  | Some _ =>
      emit (DrawImage (if (width =? 0)%Z then 640%Z else width)
                      (if (height =? 0)%Z then 480%Z else height)) ;;
      write (set_preview url) ;;
      write (set_resultBox (InnerText "Analyzing...")) ;;
      sendToBackend blob now net
  end.

(** [uploadInput.onchange], lines 156-162. *)
Definition uploadInput_onchange (file : option Blob) (url now : string)
    (net : fetch_outcome) : M unit :=
  match file with
  | None => ret tt
  | Some f =>
      write (set_preview url) ;;
      write (set_resultBox (InnerText "Analyzing...")) ;;
      sendToBackend f now net
  end.

End WithEngine.

End Fixed.

(** ** [frontend/app.js] for GitHub Pages and Render ([src/unnamed/part_000]) *)

Module Pages.

Import Js Dom.
Local Open Scope string_scope.
Local Open Scope handler_scope.

Section WithEngine.

Variable E : Engine.

Definition BACKEND_BASE : string :=
  "https://face-spoofing-attack-detector-for-facial.onrender.com".

Definition DETECT_ENDPOINT : string := BACKEND_BASE ++ "/api/detect".

(** [startBtn.onclick], lines 17-27. *)
Definition startBtn_onclick (o : media_outcome) : M unit :=
  try_catch
    (emit GetUserMedia ;;
     stream <- await_media o ;;
     write (set_srcObject (Some stream)) ;;
     write (set_disabled true) ;;
     write (set_resultBox (InnerText "Camera started.")))
    (emit (Alert "Camera access denied. Use HTTPS or allow permission.") ;;
     emit (ConsoleError "")).

(** The markup of one recent entry, lines 103-109. *)
Definition recent_markup (label : string) (conf : number) (imgSrc : string)
  : string :=
  nl ++ "    <img src=" ++ dq ++ imgSrc ++ dq ++ " width=" ++ dq ++ "80" ++ dq
     ++ " style=" ++ dq ++ "border-radius:6px" ++ dq ++ "/>"
  ++ nl ++ "    <div>"
  ++ nl ++ "      <div><b>" ++ label ++ "</b></div>"
  ++ nl ++ "      <div style=" ++ dq ++ "font-size:12px" ++ dq ++ ">"
     ++ number_toString E conf ++ "%</div>"
  ++ nl ++ "    </div>"
  ++ nl ++ "  ".

(** The element [d] of [appendRecent], lines 99-109. *)
Definition recent_entry (label : string) (conf : number) (imgSrc : string)
  : node :=
  Html [("display", "flex"); ("gap", "8px")] (recent_markup label conf imgSrc).

(** [appendRecent(label, conf, imgSrc)], lines 98-113. *)
Definition appendRecent (label : string) (conf : number) (imgSrc : string)
  : M unit :=
  let d := recent_entry label conf imgSrc in
  write (fun p => set_recentList (d :: recentList p) p) ;;
  write (fun p => set_recentList (keep_last_10 (recentList p)) p).

(** The markup of a rendered result, lines 83-87; [time] is the text of
    the processing time. *)
Definition result_markup (label : string) (conf : number) (time : string)
  : string :=
  nl ++ "      <div><b>Prediction:</b> " ++ label ++ "</div>"
  ++ nl ++ "      <div><b>Confidence:</b> " ++ number_toString E conf
     ++ "%</div>"
  ++ nl ++ "      <div><b>Time:</b> " ++ time ++ " ms</div>"
  ++ nl ++ "    ".

(** The markup shown for a non-success status, line 73; [text] is the
    body, a text, on which [escapeHtml] is [escape]. *)
Definition error_markup (text : string) : string :=
  "<span style=" ++ dq ++ "color:red" ++ dq ++ ">Server error:</span><pre>"
  ++ escape text ++ "</pre>".

(** [sendToBackend(blob)], lines 61-95. *)
Definition sendToBackend (blob : Blob) (net : fetch_outcome) : M unit :=
  try_catch
    (emit (Fetch "POST" DETECT_ENDPOINT
                 (Some (FormData "image" blob "image.jpg"))) ;;
     resp <- await_fetch net ;;
     if negb (ok resp) then
       emit ReadText ;;
       write (set_resultBox (InnerHTML (error_markup (body_text resp))))
     else
       emit ReadJson ;;
       result <- lift (body_json resp) ;;
       prediction <- lift (get result "prediction") ;;
       label <- lift (call_toUpperCase E (or_else prediction (Str "unknown"))) ;;
       confidence <- lift (get result "confidence") ;;
       confidence <- lift (ToNumber E (or_else confidence (Num 0))) ;;
       let conf := Math_round (mul confidence (Fin 100)) in
       processing_time_ms <- lift (get result "processing_time_ms") ;;
       let time := nullish processing_time_ms (Str "N/A") in
       time <- lift (ToString E time) ;;
       write (set_resultBox (InnerHTML (result_markup label conf time))) ;;
       p <- read ;;
       appendRecent label conf (previewImg_src p))
    (emit (ConsoleError "") ;;
     write (set_resultBox (InnerText "Network error. Backend unreachable."))).

(** [snapBtn.onclick], lines 30-46.  [width] and [height] are the video's
    dimensions, [blob] what [canvas.toBlob] yields and [url] what
    [URL.createObjectURL] names it. *)
Definition snapBtn_onclick (width height : Z) (blob : Blob) (url : string)
    (net : fetch_outcome) : M unit :=
  p <- read ;;
  match video_srcObject p with
  | None => write (set_resultBox (InnerText "Start the camera first."))
  | Some _ =>
      emit (DrawImage (if (width =? 0)%Z then 640%Z else width)
                      (if (height =? 0)%Z then 480%Z else height)) ;;
      write (set_preview url) ;;
      write (set_resultBox (InnerText "Analyzing...")) ;;
      sendToBackend blob net
  end.

(** [uploadInput.onchange], lines 51-58. *)
Definition uploadInput_onchange (file : option Blob) (url : string)
    (net : fetch_outcome) : M unit :=
  match file with
  | None => ret tt
  | Some f =>
      write (set_preview url) ;;
      write (set_resultBox (InnerText "Analyzing...")) ;;
      sendToBackend f net
  end.

End WithEngine.

End Pages.

(** ** Sample inputs for the closed statements *)

Module Samples.

Import Js Dom.
Local Open Scope string_scope.

(** The digits after the point of [num / den], for [0 <= num < den]: at
    most [n] of them, fewer when the expansion ends. *)
Fixpoint fraction_digits (n : nat) (num den : Z) : string :=
  match n with
  | O => ""
  | S n' =>
      if (num =? 0)%Z then ""
      else show_Z (num * 10 / den)
             ++ fraction_digits n' ((num * 10) mod den) den
  end.

(** A number by its decimal expansion, cut after seventeen digits.  It
    stands for the engine's formatting in the JSON text of the sample
    bodies only: the closed statements below print whole numbers. *)
Definition decimal (q : Q) : string :=
  let num := Z.abs (Qnum q) in
  let den := Z.pos (Qden q) in
  (if Qle_bool 0 q then "" else "-")
    ++ show_Z (num / den) ++ "." ++ fraction_digits 17 (num mod den) den.

(** The engine of the closed statements below.  They convert no string to
    a number and put no text with non-ASCII characters in upper case, so
    [StringToNumber] and [unicodeToUpperCase] are never called. *)
Definition engine : Engine :=
  {| fractionToString := decimal;
     StringToNumber := fun _ => NaN;
     unicodeToUpperCase := fun s => s |}.

(** The number [JSON.parse] reads a numeral as: the binary64 value nearest
    to it (the samples hold no numeral out of range). *)
Definition numeral (q : Q) : value :=
  match binary64 q with
  | Fin x => Num (Qred x)
  | _ => Undefined
  end.

(** The page before any handler ran: no stream, an empty recent list. *)
Definition fresh : Page :=
  {| video_srcObject := None;
     startBtn_disabled := false;
     previewImg_src := "";
     resultBox := InnerText "";
     modelStatus := InnerText "";
     recentList := [];
     trace := [] |}.

(** A response whose body is the JSON text of [v]. *)
Definition json_response (status : Z) (v : value) : Response :=
  {| status := status;
     body_text := JSON_stringify engine v;
     body_json := Some v |}.

Definition json_200 (props : list (string * value)) : Response :=
  json_response 200 (Obj props).

(** A row of the logs and a detection as the service documents them. *)
Definition row : value :=
  Obj [("prediction", Str "real"); ("attack_type", Str "none");
       ("confidence", numeral (9 # 10)); ("processing_time_ms", Num 42);
       ("timestamp", Str "2026-01-01 10:00:00")].

Definition ten_rows : Response :=
  json_200 [("rows", Arr (repeat row 10))].

(** The plain-text body of a failing server. *)
Definition internal_server_error : Response :=
  {| status := 500; body_text := "Internal Server Error";
     body_json := None |}.

End Samples.

(** ** Names for what the statements below speak of *)

Import Js Dom.
Local Open Scope string_scope.

(** [v.k] where the read cannot throw. *)
Definition field (v : value) (k : string) : value :=
  match get v k with
  | Some x => x
  | None => Undefined
  end.

(** A value whose properties can be read: anything but [null] and
    [undefined]. *)
Definition readable (v : value) : bool :=
  match v with
  | Undefined | Null => false
  | _ => true
  end.

(** Run a handler symbolically: unfold the plumbing of [M], nothing else. *)
Ltac handler_simpl :=
  cbv beta iota zeta
      delta [run returns try_catch bind emit write lift read ret throw
             await_fetch await_media negb fst snd].

(** Rewrite with the facts known about the response, one read at a time. *)
Ltac handler_rewrite H := rewrite H; handler_simpl.

(** The request [sendToBackend] of [app-fixed.js] sends, and what its
    [catch] shows. *)
Definition Fixed_request (blob : Blob) : event :=
  Fetch "POST" Fixed.DETECT_ENDPOINT (Some (FormData "image" blob "image.jpg")).

Definition Fixed_failed : content :=
  InnerText "Detection failed. Is backend running? See console for details.".

(** The values of lines 194-196 read off a readable [result]: the one
    [label] is the text of, [confidence] and [timeMs]. *)
Definition Fixed_label_value (result : value) : value :=
  or_else (or_else (field result "prediction") (field result "label"))
          (Str "unknown").

Definition Fixed_confidence (E : Engine) (result : value) : value :=
  match field result "confidence" with
  | Num q => Str (toFixed1 E (mul (Fin q) (Fin 100)) ++ "%")
  | _ => or_else (field result "confidence") (Str "N/A")
  end.

Definition Fixed_timeMs (result : value) : value :=
  nullish (nullish (field result "processing_time_ms")
                   (field result "processing_time")) (Str "N/A").

(** The three texts of the rendered result of [app-fixed.js]: [label],
    [String(confidence)] and [String(timeMs)]; [None] when one of the
    conversions throws. *)
Definition Fixed_rendering (E : Engine) (result : value)
  : option (string * string * string) :=
  match ToString E (Fixed_label_value result) with
  | None => None
  | Some label =>
      match ToString E (Fixed_confidence E result) with
      | None => None
      | Some confidence =>
          match ToString E (Fixed_timeMs result) with
          | None => None
          | Some timeMs => Some (label, confidence, timeMs)
          end
      end
  end.

(** The item of lines 204-208. *)
Definition Fixed_item (label : string) (result : value) (now : string)
  : Fixed.Item :=
  {| Fixed.label := label;
     Fixed.confidence :=
       match field result "confidence" with Num q => q | _ => 0 end;
     Fixed.timestamp := now |}.

(** What [sendToBackend] of [app.js] computes from a readable result, lines
    79-87: the label, the rounded percentage and the text of the time;
    [None] when one of the conversions throws. *)
Definition Pages_rendering (E : Engine) (result : value)
  : option (string * number * string) :=
  match call_toUpperCase E (or_else (field result "prediction")
                                    (Str "unknown")) with
  | None => None
  | Some label =>
      match ToNumber E (or_else (field result "confidence") (Num 0)) with
      | None => None
      | Some confidence =>
          match ToString E (nullish (field result "processing_time_ms")
                                    (Str "N/A")) with
          | None => None
          | Some time =>
              Some (label, Math_round (mul confidence (Fin 100)), time)
          end
      end
  end.

(** The request [autoDetect] sends, and what its [catch] shows. *)
Definition Original_request (E : Engine) (src sourceType : string) : event :=
  Fetch "POST" Original.DETECT_URL
        (Some (TextBody (JSON_stringify E (Obj [("image", Str src);
                                                ("source", Str sourceType)])))).

Definition Original_failed : content :=
  InnerHTML "Detection failed. Is backend running?".

(** What the template of lines 67-70 computes from a readable [data]: the
    label, the text of the attack type, the rounded percentage and the text
    of the time; [None] when one of the conversions throws. *)
Definition Original_rendering (E : Engine) (data : value)
  : option (string * string * number * string) :=
  match call_toUpperCase E (field data "prediction") with
  | None => None
  | Some label =>
      match ToString E (field data "attack_type") with
      | None => None
      | Some attack_type =>
          match ToNumber E (field data "confidence") with
          | None => None
          | Some confidence =>
              match ToString E (field data "processing_time_ms") with
              | None => None
              | Some time =>
                  Some (label, attack_type,
                        Math_round (mul confidence (Fin 100)), time)
              end
          end
      end
  end.

(** The entry [appendRecent(item)] of the original script builds on a page
    whose preview is [preview]; [None] when it throws: on an item that is
    [null], on a truthy image path that is not a string, on a prediction
    that is not a string, on a value that has no text. *)
Definition Original_row_entry (E : Engine) (preview : string) (item : value)
  : option node :=
  if readable item then
    match Original.thumbnail (field item "image_path") preview with
    | None => None
    | Some src =>
        match call_toUpperCase E (field item "prediction") with
        | None => None
        | Some label =>
            match ToString E (field item "attack_type") with
            | None => None
            | Some attack_type =>
                match ToString E (field item "timestamp") with
                | None => None
                | Some timestamp =>
                    match ToNumber E (field item "confidence") with
                    | None => None
                    | Some confidence =>
                        match ToString E (field item "processing_time_ms") with
                        | None => None
                        | Some time =>
                            Some (Original.recent_entry E src label
                                    attack_type timestamp
                                    (Math_round (mul confidence (Fin 100)))
                                    time)
                        end
                    end
                end
            end
        end
    end
  else None.

(** The line [pingModel] shows for a readable body, line 15; [None] when
    one of the two conversions throws. *)
Definition Original_status_line (E : Engine) (j : value) : option string :=
  match ToString E (or_else (field j "model_name") (Str "none")) with
  | None => None
  | Some name =>
      match ToString E (field j "model_loaded") with
      | None => None
      | Some loaded => Some (name ++ " (loaded=" ++ loaded ++ ")")
      end
  end.

(** The three scripts, for the statements that hold of each of them. *)
Inductive script : Type :=
| original
| app_fixed
| app_pages.

(** [startBtn.onclick] of a script. *)
Definition startBtn_onclick_of (s : script) (o : media_outcome) : M unit :=
  match s with
  | original => Original.startBtn_onclick o
  | app_fixed => Fixed.startBtn_onclick o
  | app_pages => Pages.startBtn_onclick o
  end.

(** A GET to the ping endpoint. *)
Definition is_ping (e : event) : bool :=
  match e with
  | Fetch method url None => (method =? "GET") && (url =? Original.PING_URL)
  | _ => false
  end.

(** The characters that open or close a tag or an attribute value. *)
Definition is_markup_char (c : ascii) : bool :=
  (c =? "<")%char || (c =? ">")%char || (c =? quote)%char || (c =? "'")%char.

(** How many of them a string holds. *)
Fixpoint markup_chars (s : string) : nat :=
  match s with
  | EmptyString => 0
  | String c rest =>
      ((if is_markup_char c then 1 else 0) + markup_chars rest)%nat
  end.

(** A detection whose prediction holds a tag. *)
Definition tagged_prediction : Response :=
  Samples.json_200 [("prediction", Str "<img src=x onerror=alert(1)>");
                    ("confidence", Samples.numeral (9 # 10));
                    ("processing_time_ms", Num 42)].

(** The binary64 number nearest to 0.873, the confidence of the
    specification's example. *)
Definition confidence_873 : Q := 3931642474694443 # 4503599627370496.

(** The binary64 number nearest to 0.285, and a detection with that
    confidence. *)
Definition confidence_285 : Q := 5134103575202365 # 18014398509481984.

Definition real_285 : Response :=
  Samples.json_200 [("prediction", Str "real");
                    ("confidence", Samples.numeral (285 # 1000))].

(** The response of the specification's example. *)
Definition spoof_873 : Response :=
  Samples.json_200 [("confidence", Samples.numeral (873 # 1000));
                    ("prediction", Str "spoof");
                    ("processing_time_ms", Num 42)].

(** ** Names for the further statements *)

(** A character [escapeHtml] keeps, and a text made of such characters. *)
Definition kept_char (c : ascii) : bool :=
  negb ((c =? "&")%char || (c =? "<")%char || (c =? ">")%char
        || (c =? quote)%char || (c =? "'")%char).

Fixpoint plain (s : string) : bool :=
  match s with
  | EmptyString => true
  | String c rest => kept_char c && plain rest
  end.

Fixpoint starts_with (pre s : string) : bool :=
  match pre, s with
  | EmptyString, _ => true
  | String a pre', String b s' => (a =? b)%char && starts_with pre' s'
  | String _ _, EmptyString => false
  end.

(** Whether a text goes on as one of the five entities does after its
    ampersand, and whether every ampersand of a text starts an entity. *)
Definition entity_follows (s : string) : bool :=
  starts_with "amp;" s || starts_with "lt;" s || starts_with "gt;" s || starts_with "quot;" s
  || starts_with "#39;" s.

Fixpoint ampersands_start_entities (s : string) : bool :=
  match s with
  | EmptyString => true
  | String c rest =>
      (if (c =? "&")%char then entity_follows rest else true)
      && ampersands_start_entities rest
  end.

(** Reading the five entities back; [skip] characters are passed over
    first.  The scripts have no such function: it is the inverse that shows
    escaping loses nothing. *)
Fixpoint unescape_from (skip : nat) (s : string) : string :=
  match s with
  | EmptyString => EmptyString
  | String c rest =>
      match skip with
      | S k => unescape_from k rest
      | O =>
          if (c =? "&")%char then
            if starts_with "amp;" rest then String "&" (unescape_from 4 rest)
            else if starts_with "lt;" rest then String "<" (unescape_from 3 rest)
            else if starts_with "gt;" rest then String ">" (unescape_from 3 rest)
            else if starts_with "quot;" rest
                 then String quote (unescape_from 5 rest)
            else if starts_with "#39;" rest then String "'" (unescape_from 4 rest)
            else String c (unescape_from 0 rest)
          else String c (unescape_from 0 rest)
      end
  end.

Definition has_slash (s : string) : bool :=
  existsb (Ascii.eqb "/") (list_ascii_of_string s).

(** The request [sendToBackend] of [app.js] sends, and what its [catch]
    shows. *)
Definition Pages_request (blob : Blob) : event :=
  Fetch "POST" Pages.DETECT_ENDPOINT (Some (FormData "image" blob "image.jpg")).

Definition Pages_failed : content :=
  InnerText "Network error. Backend unreachable.".

(** A page after some more events. *)
Definition logged (t : list event) (p : Page) : Page :=
  fold_left (fun q e => log e q) t p.

(** An event that is neither a request, nor a drawn frame, nor an alert. *)
Definition quiet (e : event) : bool :=
  negb (is_fetch e || is_capture e || is_alert e).

(** What the user does, with what the browser and the network answer: a
    click on the start button, a click on the snap button ([frame] is
    the encoded canvas, [preview] the URL the preview gets), the choice of
    a file ([preview] as before; [now] is the clock).  The browser is taken
    to encode and to read what it is given: [toBlob] yields a blob, not
    [null], and the reader of the original script loads the chosen file. *)
Inductive action : Type :=
| ClickStart (o : media_outcome)
| ClickSnap (width height : Z) (frame preview now : string)
            (net : fetch_outcome)
| ChooseFile (file : option Blob) (preview now : string)
             (net : fetch_outcome).

Definition handle (s : script) (E : Engine) (a : action) : M unit :=
  match s, a with
  | original, ClickStart o => Original.startBtn_onclick o
  | original, ClickSnap width height frame _ _ net =>
      Original.snapBtn_onclick E width height frame net
  | original, ChooseFile file preview _ net =>
      Original.uploadInput_onchange E file preview net
  | app_fixed, ClickStart o => Fixed.startBtn_onclick o
  | app_fixed, ClickSnap width height frame preview now net =>
      Fixed.snapBtn_onclick E width height frame preview now net
  | app_fixed, ChooseFile file preview now net =>
      Fixed.uploadInput_onchange E file preview now net
  | app_pages, ClickStart o => Pages.startBtn_onclick o
  | app_pages, ClickSnap width height frame preview _ net =>
      Pages.snapBtn_onclick E width height frame preview net
  | app_pages, ChooseFile file preview _ net =>
      Pages.uploadInput_onchange E file preview net
  end.

(** A session: the actions are handled one after the other, each handler
    running to its end before the next action (requests that overlap are
    not modelled).  An exception that escapes a handler ends that handler
    only. *)
Definition session (s : script) (E : Engine) (actions : list action)
    (p : Page) : Page :=
  fold_left (fun q a => run (handle s E a) q) actions p.

(** An action that does not grant the camera. *)
Definition grants_nothing (a : action) : bool :=
  match a with
  | ClickStart (Granted _) => false
  | _ => true
  end.

(** The stream an action is granted, and the stream granted last in a
    sequence of actions ([v] when none is). *)
Definition granted (a : action) : option MediaStream :=
  match a with
  | ClickStart (Granted stream) => Some stream
  | _ => None
  end.

Definition last_granted (actions : list action) (v : option MediaStream)
  : option MediaStream :=
  fold_left (fun v a => match granted a with
                        | Some stream => Some stream
                        | None => v
                        end) actions v.

(** A session without a camera: the start is refused, then a snap and an
    upload. *)
Definition refused_session : list action :=
  [ClickStart Refused;
   ClickSnap 640 480 "jpeg" "blob:1" "10:00:00" NetworkError;
   ChooseFile (Some "png") "blob:2" "10:00:01" (Answer spoof_873)].

(** Twelve uploads, each answered with a result. *)
Definition twelve_uploads : list action :=
  repeat (ChooseFile (Some "png") "blob:1" "10:00:00" (Answer spoof_873)) 12.

(** An action that hands an image to the page: a snap, or the choice of a
    file. *)
Definition sends_image (a : action) : bool :=
  match a with
  | ClickSnap _ _ _ _ _ _ => true
  | ChooseFile (Some _) _ _ _ => true
  | _ => false
  end.


Definition numeric_image_path : value :=
  Obj [("prediction", Str "real"); ("image_path", Num 7)].

Definition worded_confidence : value :=
  Obj [("prediction", Str "real"); ("confidence", Str "high")].

(** Whether [toFixed(1)] writes a number itself, as digits with a sign
    and a point or as the name of an infinity or of [NaN], rather than hand
    it to the engine as it does for a finite number of magnitude 10^21 or
    more. *)
Definition written_by_toFixed (n : number) : bool :=
  match n with
  | Fin x => negb (Qle_bool (inject_Z (10 ^ 21)) (Qabs x))
  | _ => true
  end.

(** A frame drawn on a canvas without width or without height. *)
Definition empty_frame (e : event) : bool :=
  match e with
  | DrawImage width height => ((width =? 0)%Z || (height =? 0)%Z)%bool
  | _ => false
  end.

(** A session with a camera: the start is granted, then a snap of a video
    that reports no size yet. *)
Definition granted_session : list action :=
  [ClickStart (Granted 1%nat);
   ClickSnap 0 0 "jpeg" "blob:1" "10:00:00" NetworkError].


(** Successive insertions into the recent list of [app.js] and of
    [app-fixed.js]. *)
Definition Pages_insertions (E : Engine)
    (l : list (string * number * string)) (p : Page) : Page :=
  fold_left (fun q '(label, conf, imgSrc) =>
               run (Pages.appendRecent E label conf imgSrc) q) l p.

Definition Fixed_insertions (E : Engine) (l : list (Fixed.Item * string))
    (p : Page) : Page :=
  fold_left (fun q '(item, imgSrc) =>
               run (Fixed.appendRecent E item imgSrc) q) l p.

(** A row whose attack type has no text: [String] throws on an object
    with a key [toString]. *)
Definition unprintable_row : value :=
  Obj [("prediction", Str "real");
       ("attack_type", Obj [("toString", Num 1)]);
       ("confidence", Num (1 # 2))].

(** The entries of the rows up to the first one [appendRecent] throws
    on. *)
Fixpoint shown_rows (E : Engine) (preview : string) (rows : list value)
  : list node :=
  match rows with
  | [] => []
  | item :: rest =>
      match Original_row_entry E preview item with
      | Some d => d :: shown_rows E preview rest
      | None => []
      end
  end.

(** Whether a content is the text shown while a detection is awaited. *)
Definition analyzing (c : content) : bool :=
  match c with
  | InnerText s | InnerHTML s => s =? "Analyzing..."
  end.

(** The markup characters an assignment brings into the document: none
    through [innerText]. *)
Definition content_markup (c : content) : nat :=
  match c with
  | InnerHTML m => markup_chars m
  | InnerText _ => 0%nat
  end.

(** ** The bounded recent list *)

Lemma keep_last_10_firstn (l : list node) : keep_last_10 l = firstn 10 l.
Proof.
  funelim (keep_last_10 l).
  - symmetry. apply firstn_all2. assumption.
  - match goal with IH : keep_last_10 _ = firstn _ _ |- _ => rewrite IH end.
    apply firstn_removelast. assumption.
Qed.

Lemma keep_last_10_bounded (l : list node) :
  (List.length (keep_last_10 l) <= 10)%nat.
Proof. rewrite keep_last_10_firstn, length_firstn. lia. Qed.

Lemma keep_last_10_small (l : list node) :
  (List.length l <= 10)%nat -> keep_last_10 l = l.
Proof. intros H. rewrite keep_last_10_firstn. apply firstn_all2, H. Qed.

(** Prepending to a full list and trimming drops exactly the last entry. *)
Lemma keep_last_10_evicts_oldest (d : node) (l : list node) :
  List.length l = 10%nat -> keep_last_10 (d :: l) = d :: removelast l.
Proof.
  intros H. rewrite keep_last_10_firstn, removelast_firstn_len, H.
  reflexivity.
Qed.

Lemma Pages_appendRecent_list (E : Engine) label conf imgSrc (p : Page) :
  recentList (run (Pages.appendRecent E label conf imgSrc) p)
  = firstn 10 (Pages.recent_entry E label conf imgSrc :: recentList p).
Proof. rewrite <- keep_last_10_firstn. reflexivity. Qed.

Lemma Fixed_appendRecent_list (E : Engine) item imgSrc (p : Page) :
  recentList (run (Fixed.appendRecent E item imgSrc) p)
  = firstn 10 (Fixed.recent_entry E item imgSrc :: recentList p).
Proof. rewrite <- keep_last_10_firstn. reflexivity. Qed.

(** In [app-fixed.js] and in [app.js] the list holds at most ten entries
    after any [appendRecent], whatever it held before. *)
Lemma later_scripts_bound_the_list (E : Engine) (p : Page) :
  (forall label conf imgSrc,
      (List.length (recentList (run (Pages.appendRecent E label conf imgSrc) p))
       <= 10)%nat)
  /\ (forall item imgSrc,
      (List.length (recentList (run (Fixed.appendRecent E item imgSrc) p))
       <= 10)%nat).
Proof.
  split; intros.
  - rewrite Pages_appendRecent_list, length_firstn. lia.
  - rewrite Fixed_appendRecent_list, length_firstn. lia.
Qed.

(** So the bound is an invariant of any sequence of insertions, in either
    script. *)
Lemma Pages_insertions_bounded (E : Engine)
    (insertions : list (string * number * string)) (p : Page) :
  (List.length (recentList p) <= 10)%nat ->
  (List.length
     (recentList
        (fold_left (fun q '(label, conf, imgSrc) =>
                      run (Pages.appendRecent E label conf imgSrc) q)
                   insertions p)) <= 10)%nat.
Proof.
  revert p. induction insertions as [|[[label conf] imgSrc] rest IH];
    intros p H; cbn [fold_left]; [assumption|].
  apply IH. apply (later_scripts_bound_the_list E p).
Qed.

Lemma Fixed_insertions_bounded (E : Engine)
    (insertions : list (Fixed.Item * string)) (p : Page) :
  (List.length (recentList p) <= 10)%nat ->
  (List.length
     (recentList
        (fold_left (fun q '(item, imgSrc) =>
                      run (Fixed.appendRecent E item imgSrc) q)
                   insertions p)) <= 10)%nat.
Proof.
  revert p. induction insertions as [|[item imgSrc] rest IH];
    intros p H; cbn [fold_left]; [assumption|].
  apply IH. apply (later_scripts_bound_the_list E p).
Qed.

(** ** Reading a handler path by path *)

Lemma get_readable (v : value) (k : string) :
  readable v = true -> get v k = Some (field v k).
Proof. destruct v; simpl; intros H; try discriminate; reflexivity. Qed.

Lemma get_unreadable (v : value) (k : string) :
  readable v = false -> get v k = None.
Proof. destruct v; simpl; intros H; try discriminate; reflexivity. Qed.

(** *** [app.js] *)

Lemma Pages_send_unreachable (E : Engine) blob (p : Page) :
  Pages.sendToBackend E blob NetworkError p
  = (Some tt,
     set_resultBox (InnerText "Network error. Backend unreachable.")
       (log (ConsoleError "")
          (log (Fetch "POST" Pages.DETECT_ENDPOINT
                      (Some (FormData "image" blob "image.jpg"))) p))).
Proof. reflexivity. Qed.

Lemma Pages_send_status (E : Engine) blob r (p : Page) :
  ok r = false ->
  Pages.sendToBackend E blob (Answer r) p
  = (Some tt,
     set_resultBox (InnerHTML (Pages.error_markup (body_text r)))
       (log ReadText
          (log (Fetch "POST" Pages.DETECT_ENDPOINT
                      (Some (FormData "image" blob "image.jpg"))) p))).
Proof.
  intros H. unfold Pages.sendToBackend. handler_simpl.
  handler_rewrite H. reflexivity.
Qed.

Lemma Pages_send_not_json (E : Engine) blob r (p : Page) :
  ok r = true -> body_json r = None ->
  Pages.sendToBackend E blob (Answer r) p
  = (Some tt,
     set_resultBox (InnerText "Network error. Backend unreachable.")
       (log (ConsoleError "")
          (log ReadJson
             (log (Fetch "POST" Pages.DETECT_ENDPOINT
                         (Some (FormData "image" blob "image.jpg"))) p)))).
Proof.
  intros H J. unfold Pages.sendToBackend. handler_simpl.
  handler_rewrite H. handler_rewrite J. reflexivity.
Qed.

Lemma Pages_send_rendered (E : Engine) blob r result label conf time
    (p : Page) :
  ok r = true -> body_json r = Some result -> readable result = true ->
  Pages_rendering E result = Some (label, conf, time) ->
  Pages.sendToBackend E blob (Answer r) p
  = (Some tt,
     run (Pages.appendRecent E label conf (previewImg_src p))
       (set_resultBox (InnerHTML (Pages.result_markup E label conf time))
          (log ReadJson
             (log (Fetch "POST" Pages.DETECT_ENDPOINT
                         (Some (FormData "image" blob "image.jpg"))) p)))).
Proof.
  intros H J R. unfold Pages.sendToBackend. handler_simpl.
  handler_rewrite H. handler_rewrite J.
  rewrite !(get_readable result) by assumption. handler_simpl.
  unfold Pages_rendering.
  destruct (call_toUpperCase E _); [|discriminate]. handler_simpl.
  destruct (ToNumber E _); [|discriminate]. handler_simpl.
  destruct (ToString E _); [|discriminate]. handler_simpl.
  intros P. injection P as <- <- <-. reflexivity.
Qed.

Lemma Pages_send_type_error (E : Engine) blob r result (p : Page) :
  ok r = true -> body_json r = Some result ->
  (readable result = false \/ Pages_rendering E result = None) ->
  Pages.sendToBackend E blob (Answer r) p
  = (Some tt,
     set_resultBox (InnerText "Network error. Backend unreachable.")
       (log (ConsoleError "")
          (log ReadJson
             (log (Fetch "POST" Pages.DETECT_ENDPOINT
                         (Some (FormData "image" blob "image.jpg"))) p)))).
Proof.
  intros H J T. unfold Pages.sendToBackend. handler_simpl.
  handler_rewrite H. handler_rewrite J.
  destruct (readable result) eqn:R.
  - destruct T as [T | T]; [discriminate|].
    rewrite !(get_readable result) by assumption. handler_simpl.
    revert T. unfold Pages_rendering.
    destruct (call_toUpperCase E _); [|reflexivity]. handler_simpl.
    destruct (ToNumber E _); [|reflexivity]. handler_simpl.
    destruct (ToString E _); [|reflexivity]. discriminate.
  - rewrite (get_unreadable result) by assumption. reflexivity.
Qed.

(** *** [app-fixed.js] *)

Lemma Fixed_send_unreachable (E : Engine) blob now (p : Page) :
  Fixed.sendToBackend E blob now NetworkError p
  = (Some tt,
     set_resultBox Fixed_failed
       (log (ConsoleError "Network / parse error:")
          (log (Fixed_request blob) p))).
Proof. reflexivity. Qed.

Lemma Fixed_send_status (E : Engine) blob now r (p : Page) :
  ok r = false ->
  Fixed.sendToBackend E blob now (Answer r) p
  = (Some tt,
     set_resultBox
       (InnerHTML (Fixed.server_error_markup (status r) (body_text r)))
       (log (ConsoleError "Server error body:")
          (log ReadText (log (Fixed_request blob) p)))).
Proof.
  intros H. unfold Fixed.sendToBackend. handler_simpl.
  handler_rewrite H. reflexivity.
Qed.

Lemma Fixed_send_not_json (E : Engine) blob now r (p : Page) :
  ok r = true -> body_json r = None ->
  Fixed.sendToBackend E blob now (Answer r) p
  = (Some tt,
     set_resultBox Fixed_failed
       (log (ConsoleError "Network / parse error:")
          (log ReadJson (log (Fixed_request blob) p)))).
Proof.
  intros H J. unfold Fixed.sendToBackend. handler_simpl.
  handler_rewrite H. handler_rewrite J. reflexivity.
Qed.

Lemma Fixed_send_type_error (E : Engine) blob now r result (p : Page) :
  ok r = true -> body_json r = Some result -> readable result = false ->
  Fixed.sendToBackend E blob now (Answer r) p
  = (Some tt,
     set_resultBox Fixed_failed
       (log (ConsoleError "Network / parse error:")
          (log ReadJson (log (Fixed_request blob) p)))).
Proof.
  intros H J R. unfold Fixed.sendToBackend. handler_simpl.
  handler_rewrite H. handler_rewrite J.
  rewrite (get_unreadable result) by assumption. reflexivity.
Qed.

Lemma Fixed_send_error_field (E : Engine) blob now r result escaped
    (p : Page) :
  ok r = true -> body_json r = Some result -> readable result = true ->
  truthy (field result "error") = true ->
  escapeHtml E (field result "error") = Some escaped ->
  Fixed.sendToBackend E blob now (Answer r) p
  = (Some tt,
     set_resultBox (InnerHTML (Fixed.error_markup escaped))
       (log ReadJson (log (Fixed_request blob) p))).
Proof.
  intros H J R T S. unfold Fixed.sendToBackend. handler_simpl.
  handler_rewrite H. handler_rewrite J.
  rewrite !(get_readable result) by assumption. handler_simpl.
  handler_rewrite T. handler_rewrite S. reflexivity.
Qed.

Lemma Fixed_send_error_throws (E : Engine) blob now r result (p : Page) :
  ok r = true -> body_json r = Some result -> readable result = true ->
  truthy (field result "error") = true ->
  escapeHtml E (field result "error") = None ->
  Fixed.sendToBackend E blob now (Answer r) p
  = (Some tt,
     set_resultBox Fixed_failed
       (log (ConsoleError "Network / parse error:")
          (log ReadJson (log (Fixed_request blob) p)))).
Proof.
  intros H J R T S. unfold Fixed.sendToBackend. handler_simpl.
  handler_rewrite H. handler_rewrite J.
  rewrite !(get_readable result) by assumption. handler_simpl.
  handler_rewrite T. handler_rewrite S. reflexivity.
Qed.

Lemma Fixed_send_rendered (E : Engine) blob now r result label confidence
    timeMs (p : Page) :
  ok r = true -> body_json r = Some result -> readable result = true ->
  truthy (field result "error") = false ->
  Fixed_rendering E result = Some (label, confidence, timeMs) ->
  Fixed.sendToBackend E blob now (Answer r) p
  = (Some tt,
     run (Fixed.appendRecent E (Fixed_item label result now)
            (previewImg_src p))
       (set_resultBox
          (InnerHTML (Fixed.result_markup E label confidence timeMs))
          (log ReadJson (log (Fixed_request blob) p)))).
Proof.
  intros H J R T. unfold Fixed.sendToBackend. handler_simpl.
  handler_rewrite H. handler_rewrite J.
  rewrite !(get_readable result) by assumption. handler_simpl.
  handler_rewrite T.
  unfold Fixed_rendering, Fixed_label_value, Fixed_confidence, Fixed_timeMs.
  destruct (ToString E (or_else (or_else _ _) _)); [|discriminate].
  handler_simpl.
  destruct (ToString E match field result "confidence" with
                       | Num q => _
                       | _ => _
                       end); [|discriminate].
  handler_simpl.
  destruct (ToString E (nullish _ _)); [|discriminate]. handler_simpl.
  intros P. injection P as <- <- <-. reflexivity.
Qed.

Lemma Fixed_send_render_throws (E : Engine) blob now r result (p : Page) :
  ok r = true -> body_json r = Some result -> readable result = true ->
  truthy (field result "error") = false ->
  Fixed_rendering E result = None ->
  Fixed.sendToBackend E blob now (Answer r) p
  = (Some tt,
     set_resultBox Fixed_failed
       (log (ConsoleError "Network / parse error:")
          (log ReadJson (log (Fixed_request blob) p)))).
Proof.
  intros H J R T. unfold Fixed.sendToBackend. handler_simpl.
  handler_rewrite H. handler_rewrite J.
  rewrite !(get_readable result) by assumption. handler_simpl.
  handler_rewrite T.
  unfold Fixed_rendering, Fixed_label_value, Fixed_confidence, Fixed_timeMs.
  destruct (ToString E (or_else (or_else _ _) _)); [|reflexivity].
  handler_simpl.
  destruct (ToString E match field result "confidence" with
                       | Num q => _
                       | _ => _
                       end); [|reflexivity].
  handler_simpl.
  destruct (ToString E (nullish _ _)); [|reflexivity]. discriminate.
Qed.

(** *** The original script *)

Lemma Original_detect_unreachable (E : Engine) src sourceType (p : Page) :
  Original.autoDetect E src sourceType NetworkError p
  = (Some tt,
     set_resultBox Original_failed (log (Original_request E src sourceType) p)).
Proof. reflexivity. Qed.

Lemma Original_detect_not_json (E : Engine) src sourceType r (p : Page) :
  body_json r = None ->
  Original.autoDetect E src sourceType (Answer r) p
  = (Some tt,
     set_resultBox Original_failed
       (log ReadJson (log (Original_request E src sourceType) p))).
Proof.
  intros J. unfold Original.autoDetect. handler_simpl.
  handler_rewrite J. reflexivity.
Qed.

Lemma Original_detect_type_error (E : Engine) src sourceType r data
    (p : Page) :
  body_json r = Some data ->
  (readable data = false \/ Original_rendering E data = None) ->
  Original.autoDetect E src sourceType (Answer r) p
  = (Some tt,
     set_resultBox Original_failed
       (log ReadJson (log (Original_request E src sourceType) p))).
Proof.
  intros J T. unfold Original.autoDetect. handler_simpl.
  handler_rewrite J.
  destruct (readable data) eqn:R.
  - destruct T as [T | T]; [discriminate|].
    rewrite !(get_readable data) by assumption. handler_simpl.
    revert T. unfold Original_rendering.
    destruct (call_toUpperCase E _); [|reflexivity]. handler_simpl.
    destruct (ToString E (field data "attack_type")); [|reflexivity].
    handler_simpl.
    destruct (ToNumber E _); [|reflexivity]. handler_simpl.
    destruct (ToString E (field data "processing_time_ms")); [|reflexivity].
    discriminate.
  - rewrite (get_unreadable data) by assumption. reflexivity.
Qed.

Lemma Original_appendRecent_prepends (E : Engine) item d (p : Page) :
  Original_row_entry E (previewImg_src p) item = Some d ->
  Original.appendRecent E item p
  = (Some tt, set_recentList (d :: recentList p) p).
Proof.
  unfold Original_row_entry, Original.appendRecent. handler_simpl.
  destruct (readable item) eqn:R; [|discriminate].
  rewrite !(get_readable item) by assumption. handler_simpl.
  destruct (Original.thumbnail _ _); [|discriminate]. handler_simpl.
  destruct (call_toUpperCase E _); [|discriminate]. handler_simpl.
  destruct (ToString E (field item "attack_type")); [|discriminate].
  handler_simpl.
  destruct (ToString E (field item "timestamp")); [|discriminate].
  handler_simpl.
  destruct (ToNumber E _); [|discriminate]. handler_simpl.
  destruct (ToString E (field item "processing_time_ms")); [|discriminate].
  handler_simpl.
  intros D. injection D as <-. reflexivity.
Qed.

Lemma Original_appendRecent_throws (E : Engine) item (p : Page) :
  Original_row_entry E (previewImg_src p) item = None ->
  Original.appendRecent E item p = (None, p).
Proof.
  unfold Original_row_entry, Original.appendRecent. handler_simpl.
  destruct (readable item) eqn:R.
  - rewrite !(get_readable item) by assumption. handler_simpl.
    destruct (Original.thumbnail _ _); [|reflexivity]. handler_simpl.
    destruct (call_toUpperCase E _); [|reflexivity]. handler_simpl.
    destruct (ToString E (field item "attack_type")); [|reflexivity].
    handler_simpl.
    destruct (ToString E (field item "timestamp")); [|reflexivity].
    handler_simpl.
    destruct (ToNumber E _); [|reflexivity]. handler_simpl.
    destruct (ToString E (field item "processing_time_ms")); [|reflexivity].
    discriminate.
  - rewrite (get_unreadable item) by assumption. reflexivity.
Qed.

Lemma Original_detect_rendered (E : Engine) src sourceType r data label
    attack_type conf time d (p : Page) :
  body_json r = Some data -> readable data = true ->
  Original_rendering E data = Some (label, attack_type, conf, time) ->
  Original_row_entry E (previewImg_src p) data = Some d ->
  Original.autoDetect E src sourceType (Answer r) p
  = (Some tt,
     set_recentList (d :: recentList p)
       (set_resultBox
          (InnerHTML (Original.result_markup E label attack_type conf time))
          (log ReadJson (log (Original_request E src sourceType) p)))).
Proof.
  intros J R P D. unfold Original.autoDetect. handler_simpl.
  handler_rewrite J.
  rewrite !(get_readable data) by assumption. handler_simpl.
  revert P. unfold Original_rendering.
  destruct (call_toUpperCase E _); [|discriminate]. handler_simpl.
  destruct (ToString E (field data "attack_type")); [|discriminate].
  handler_simpl.
  destruct (ToNumber E _); [|discriminate]. handler_simpl.
  destruct (ToString E (field data "processing_time_ms")); [|discriminate].
  handler_simpl.
  intros P. injection P as <- <- <- <-.
  rewrite (Original_appendRecent_prepends E data d) by exact D.
  reflexivity.
Qed.

Lemma Original_detect_entry_throws (E : Engine) src sourceType r data label
    attack_type conf time (p : Page) :
  body_json r = Some data -> readable data = true ->
  Original_rendering E data = Some (label, attack_type, conf, time) ->
  Original_row_entry E (previewImg_src p) data = None ->
  Original.autoDetect E src sourceType (Answer r) p
  = (Some tt,
     set_resultBox Original_failed
       (set_resultBox
          (InnerHTML (Original.result_markup E label attack_type conf time))
          (log ReadJson (log (Original_request E src sourceType) p)))).
Proof.
  intros J R P D. unfold Original.autoDetect. handler_simpl.
  handler_rewrite J.
  rewrite !(get_readable data) by assumption. handler_simpl.
  revert P. unfold Original_rendering.
  destruct (call_toUpperCase E _); [|discriminate]. handler_simpl.
  destruct (ToString E (field data "attack_type")); [|discriminate].
  handler_simpl.
  destruct (ToNumber E _); [|discriminate]. handler_simpl.
  destruct (ToString E (field data "processing_time_ms")); [|discriminate].
  handler_simpl.
  intros P. injection P as <- <- <- <-.
  rewrite Original_appendRecent_throws by exact D.
  reflexivity.
Qed.

(** ** Escaping *)

Lemma markup_chars_app (a b : string) :
  markup_chars (a ++ b) = (markup_chars a + markup_chars b)%nat.
Proof.
  induction a as [|c a IH]; simpl; [reflexivity|]. rewrite IH. lia.
Qed.

(** What [escapeHtml] returns holds none of them. *)
Lemma escape_has_no_markup (s : string) : markup_chars (escape s) = 0%nat.
Proof.
  induction s as [|c s IH]; simpl; [reflexivity|].
  rewrite markup_chars_app, IH. unfold escape_char, is_markup_char.
  destruct (Ascii.eqb c "&"); [reflexivity|].
  destruct (Ascii.eqb c "<") eqn:A; [reflexivity|].
  destruct (Ascii.eqb c ">") eqn:B; [reflexivity|].
  destruct (Ascii.eqb c quote) eqn:C; [reflexivity|].
  destruct (Ascii.eqb c "'") eqn:D; [reflexivity|].
  simpl. unfold is_markup_char. rewrite A, B, C, D. reflexivity.
Qed.

Lemma escapeHtml_has_no_markup (E : Engine) (v : value) (s : string) :
  escapeHtml E v = Some s -> markup_chars s = 0%nat.
Proof.
  unfold escapeHtml. destruct (ToString E v); [|discriminate].
  intros H. injection H as <-. apply escape_has_no_markup.
Qed.

Lemma show_Z_has_no_markup (z : Z) : markup_chars (show_Z z) = 0%nat.
Proof.
  assert (U : forall u, markup_chars (NilEmpty.string_of_uint u) = 0%nat)
    by (induction u; simpl; auto).
  unfold show_Z, NilZero.string_of_int, NilZero.string_of_uint.
  destruct (Z.to_int z) as [u|u]; destruct u; simpl; rewrite ?U; reflexivity.
Qed.

(** In [app-fixed.js] the markup of a rendered result, of a surfaced error
    field and of a failed request is the template's own, whatever the
    response holds. *)
Lemma Fixed_result_markup_is_fixed (E : Engine) label confidence timeMs :
  markup_chars (Fixed.result_markup E label confidence timeMs) = 24%nat.
Proof.
  unfold Fixed.result_markup.
  rewrite !markup_chars_app, !escape_has_no_markup. reflexivity.
Qed.

Lemma Fixed_error_markup_is_fixed (E : Engine) error escaped :
  escapeHtml E error = Some escaped ->
  markup_chars (Fixed.error_markup escaped) = 6%nat.
Proof.
  intros H. unfold Fixed.error_markup.
  rewrite !markup_chars_app, (escapeHtml_has_no_markup E error escaped H).
  reflexivity.
Qed.

Lemma Fixed_server_error_markup_is_fixed status text :
  markup_chars (Fixed.server_error_markup status text) = 12%nat.
Proof.
  unfold Fixed.server_error_markup.
  rewrite !markup_chars_app, !escape_has_no_markup, show_Z_has_no_markup.
  reflexivity.
Qed.


(** ** What every run of a detection has in common *)

Lemma count_log (f : event -> bool) (e : event) (p : Page) :
  count f (trace (log e p)) = (count f (trace p) + (if f e then 1 else 0))%nat.
Proof.
  unfold count. cbn. rewrite filter_app, length_app. cbn.
  destruct (f e); reflexivity.
Qed.

Lemma trace_logged (t : list event) (p : Page) :
  trace (logged t p) = (trace p ++ t)%list.
Proof.
  revert p. unfold logged. induction t as [|e t IH]; intros p; cbn [fold_left].
  - rewrite app_nil_r. reflexivity.
  - rewrite IH. cbn [trace log]. rewrite <- app_assoc. reflexivity.
Qed.

Lemma quiet_filter (f : event -> bool) (t : list event) :
  (forall e, quiet e = true -> f e = false) ->
  forallb quiet t = true -> filter f t = [].
Proof.
  intros Q. induction t as [|e t IH]; cbn; [reflexivity|].
  intros H. apply andb_prop in H. destruct H as [He Ht].
  rewrite (Q e He). apply IH, Ht.
Qed.

Lemma quiet_not_fetch (e : event) : quiet e = true -> is_fetch e = false.
Proof. destruct e; cbn; congruence. Qed.

Lemma quiet_not_capture (e : event) : quiet e = true -> is_capture e = false.
Proof. destruct e; cbn; congruence. Qed.

Lemma quiet_not_alert (e : event) : quiet e = true -> is_alert e = false.
Proof. destruct e; cbn; congruence. Qed.

Lemma quiet_not_empty_frame (e : event) :
  quiet e = true -> empty_frame e = false.
Proof. destruct e; cbn; congruence. Qed.

(** The shape of the page [sendToBackend] of [app.js] leaves: the request
    and some quiet events logged, the result box written, and the recent
    list either kept or given one entry and trimmed. *)
Lemma Pages_send_shape (E : Engine) blob net (p : Page) :
  exists c l t,
    Pages.sendToBackend E blob net p
    = (Some tt,
       set_recentList l
         (set_resultBox c (logged t (log (Pages_request blob) p))))
    /\ forallb quiet t = true
    /\ (l = recentList p \/ exists d, l = firstn 10 (d :: recentList p))
    /\ analyzing c = false.
Proof.
  destruct net as [|r].
  { exists Pages_failed, (recentList p), [ConsoleError ""].
    repeat split. left. reflexivity. }
  destruct (ok r) eqn:H.
  - destruct (body_json r) as [result|] eqn:J.
    + destruct (readable result) eqn:R.
      * destruct (Pages_rendering E result) as [[[label conf] time]|] eqn:P.
        -- rewrite (Pages_send_rendered E blob r result label conf time)
             by assumption.
           eexists (InnerHTML _), (keep_last_10 (_ :: recentList p)),
             [ReadJson].
           split; [reflexivity|]. split; [reflexivity|].
           split; [right; eexists; apply keep_last_10_firstn | reflexivity].
        -- rewrite (Pages_send_type_error E blob r result) by auto.
           exists Pages_failed, (recentList p), [ReadJson; ConsoleError ""].
           repeat split. left. reflexivity.
      * rewrite (Pages_send_type_error E blob r result) by auto.
        exists Pages_failed, (recentList p), [ReadJson; ConsoleError ""].
        repeat split. left. reflexivity.
    + rewrite Pages_send_not_json by assumption.
      exists Pages_failed, (recentList p), [ReadJson; ConsoleError ""].
      repeat split. left. reflexivity.
  - rewrite Pages_send_status by assumption.
    eexists (InnerHTML _), (recentList p), [ReadText].
    repeat split. left. reflexivity.
Qed.

Lemma Fixed_send_shape (E : Engine) blob now net (p : Page) :
  exists c l t,
    Fixed.sendToBackend E blob now net p
    = (Some tt,
       set_recentList l
         (set_resultBox c (logged t (log (Fixed_request blob) p))))
    /\ forallb quiet t = true
    /\ (l = recentList p \/ exists d, l = firstn 10 (d :: recentList p))
    /\ analyzing c = false
    /\ (content_markup c = 0 \/ content_markup c = 6 \/ content_markup c = 12
        \/ content_markup c = 24)%nat.
Proof.
  destruct net as [|r].
  { exists Fixed_failed, (recentList p), [ConsoleError "Network / parse error:"].
    repeat split; auto. }
  destruct (ok r) eqn:H.
  - destruct (body_json r) as [result|] eqn:J.
    + destruct (readable result) eqn:R.
      * destruct (truthy (field result "error")) eqn:T.
        -- destruct (escapeHtml E (field result "error")) as [escaped|] eqn:S.
           ++ rewrite (Fixed_send_error_field E blob now r result escaped)
                by assumption.
              eexists (InnerHTML _), (recentList p), [ReadJson].
              repeat split; auto. cbn [content_markup].
              rewrite (Fixed_error_markup_is_fixed E _ _ S). auto.
           ++ rewrite (Fixed_send_error_throws E blob now r result)
                by assumption.
              exists Fixed_failed, (recentList p),
                [ReadJson; ConsoleError "Network / parse error:"].
              repeat split; auto.
        -- destruct (Fixed_rendering E result) as [[[label c] t]|] eqn:P.
           ++ rewrite (Fixed_send_rendered E blob now r result label c t)
                by assumption.
              eexists (InnerHTML _), (keep_last_10 (_ :: recentList p)),
                [ReadJson].
              split; [reflexivity|]. split; [reflexivity|].
              split; [right; eexists; apply keep_last_10_firstn|].
              split; [reflexivity|]. cbn [content_markup].
              rewrite Fixed_result_markup_is_fixed. auto.
           ++ rewrite (Fixed_send_render_throws E blob now r result)
                by assumption.
              exists Fixed_failed, (recentList p),
                [ReadJson; ConsoleError "Network / parse error:"].
              repeat split; auto.
      * rewrite (Fixed_send_type_error E blob now r result) by assumption.
        exists Fixed_failed, (recentList p),
          [ReadJson; ConsoleError "Network / parse error:"].
        repeat split; auto.
    + rewrite Fixed_send_not_json by assumption.
      exists Fixed_failed, (recentList p),
        [ReadJson; ConsoleError "Network / parse error:"].
      repeat split; auto.
  - rewrite Fixed_send_status by assumption.
    eexists (InnerHTML _), (recentList p),
      [ReadText; ConsoleError "Server error body:"].
    repeat split; auto. cbn [content_markup].
    rewrite Fixed_server_error_markup_is_fixed. auto.
Qed.

Lemma Original_detect_shape (E : Engine) src sourceType net (p : Page) :
  exists c l t,
    Original.autoDetect E src sourceType net p
    = (Some tt,
       set_recentList l
         (set_resultBox c
            (logged t (log (Original_request E src sourceType) p))))
    /\ forallb quiet t = true
    /\ (l = recentList p \/ exists d, l = d :: recentList p)
    /\ analyzing c = false.
Proof.
  destruct net as [|r].
  { exists Original_failed, (recentList p), []. repeat split; auto. }
  destruct (body_json r) as [data|] eqn:J.
  - destruct (readable data) eqn:R.
    + destruct (Original_rendering E data) as [[[[label a] conf] time]|] eqn:P.
      * destruct (Original_row_entry E (previewImg_src p) data) as [d|] eqn:D.
        -- rewrite (Original_detect_rendered E src sourceType r data label a
                      conf time d) by assumption.
           eexists (InnerHTML _), (_ :: recentList p), [ReadJson].
           split; [reflexivity|]. split; [reflexivity|].
           split; [right; eexists; reflexivity | reflexivity].
        -- rewrite (Original_detect_entry_throws E src sourceType r data
                      label a conf time) by assumption.
           exists Original_failed, (recentList p), [ReadJson].
           repeat split; auto.
      * rewrite (Original_detect_type_error E src sourceType r data) by auto.
        exists Original_failed, (recentList p), [ReadJson].
        repeat split; auto.
    + rewrite (Original_detect_type_error E src sourceType r data) by auto.
      exists Original_failed, (recentList p), [ReadJson]. repeat split; auto.
  - rewrite Original_detect_not_json by assumption.
    exists Original_failed, (recentList p), [ReadJson]. repeat split; auto.
Qed.

(** ** The camera button *)

(** C7.  In each of the three scripts, when the camera is refused or
    unavailable the click handler returns without throwing, shows exactly
    one alert and leaves [startBtn.disabled] (and the video's stream) as it
    found them; and whatever [getUserMedia] answers, the handler changes
    [startBtn.disabled] only when a stream was granted, in which case the
    button is disabled and the stream bound to the video. *)
Theorem refused_camera_alerts_once (s : script) (p : Page) :
  returns (startBtn_onclick_of s Refused) p = true
  /\ count is_alert (trace (run (startBtn_onclick_of s Refused) p))
     = S (count is_alert (trace p))
  /\ startBtn_disabled (run (startBtn_onclick_of s Refused) p)
     = startBtn_disabled p
  /\ video_srcObject (run (startBtn_onclick_of s Refused) p)
     = video_srcObject p
  /\ forall o : media_outcome,
       startBtn_disabled (run (startBtn_onclick_of s o) p)
       <> startBtn_disabled p ->
       exists stream,
         o = Granted stream
         /\ startBtn_disabled (run (startBtn_onclick_of s o) p) = true
         /\ video_srcObject (run (startBtn_onclick_of s o) p) = Some stream.
Proof.
  assert (A : forall t e, count is_alert (t ++ [e]) =
                          (count is_alert t + count is_alert [e])%nat).
  { intros t e. unfold count. rewrite filter_app, length_app. reflexivity. }
  destruct s; cbn -[count].
  all: repeat split; try reflexivity.
  all: try (rewrite ?A; cbn; lia).
  all: intros [stream|] H; cbn in *; try congruence.
  all: exists stream; repeat split; reflexivity.
Qed.

Lemma refused_camera_alerts_once_witness :
  returns (Pages.startBtn_onclick Refused) Samples.fresh = true
  /\ count is_alert (trace (run (Pages.startBtn_onclick Refused) Samples.fresh))
     = 1%nat
  /\ startBtn_disabled (run (Pages.startBtn_onclick Refused) Samples.fresh)
     = false.
Proof.
  destruct (refused_camera_alerts_once app_pages Samples.fresh)
    as [R [A [D _]]].
  exact (conj R (conj A D)).
Defined.

(** A granted camera disables the button: the other half of C7, on a page
    whose button is still enabled. *)
Lemma granted_camera_disables (s : script) (stream : MediaStream) (p : Page) :
  startBtn_disabled (run (startBtn_onclick_of s (Granted stream)) p) = true
  /\ video_srcObject (run (startBtn_onclick_of s (Granted stream)) p)
     = Some stream
  /\ count is_alert (trace (run (startBtn_onclick_of s (Granted stream)) p))
     = count is_alert (trace p).
Proof.
  destruct s; cbn -[count]; repeat split; unfold count;
    rewrite filter_app, length_app; cbn; lia.
Qed.

(** ** The status probe of the original script *)

(** [appendRecent] of the original script writes the recent list only. *)
Lemma Original_appendRecent_frame (E : Engine) (item : value) (p : Page) :
  exists l, snd (Original.appendRecent E item p) = set_recentList l p.
Proof.
  destruct (Original_row_entry E (previewImg_src p) item) as [d|] eqn:D.
  - rewrite (Original_appendRecent_prepends E item d) by assumption.
    eexists. reflexivity.
  - rewrite Original_appendRecent_throws by assumption.
    exists (recentList p). destruct p; reflexivity.
Qed.

Lemma Original_forEach_frame (E : Engine) (items : list value) (p : Page) :
  exists l,
    snd (Original.forEach (Original.appendRecent E) items p)
    = set_recentList l p.
Proof.
  revert p. induction items as [|x rest IH]; intros p.
  - exists (recentList p). destruct p; reflexivity.
  - cbn [Original.forEach]. unfold bind.
    destruct (Original_appendRecent_frame E x p) as [l Hl].
    destruct (Original.appendRecent E x p) as [[[]|] p1]; cbn [snd] in *;
      subst p1.
    + destruct (IH (set_recentList l p)) as [l' Hl']. rewrite Hl'.
      exists l'. reflexivity.
    + exists l. reflexivity.
Qed.

(** The loader of the logs sends one GET to the logs endpoint, reads the
    body as JSON when one arrives, and writes the recent list only. *)
Lemma Original_loadRecent_frame (E : Engine) (net : fetch_outcome) (p : Page) :
  exists l t,
    run (Original.loadRecent E net) p
    = set_recentList l (fold_left (fun q e => log e q) t p)
    /\ (t = [Fetch "GET" Original.LOGS_URL None]
        \/ t = [Fetch "GET" Original.LOGS_URL None; ReadJson]).
Proof.
  unfold Original.loadRecent. destruct net as [|r].
  - exists (recentList p), [Fetch "GET" Original.LOGS_URL None].
    split; [reflexivity | left; reflexivity].
  - handler_simpl. destruct (body_json r) as [j|].
    + destruct (get j "rows") as [rows|].
      * destruct rows;
          try (exists (recentList p),
                 [Fetch "GET" Original.LOGS_URL None; ReadJson];
               split; [reflexivity | right; reflexivity]).
        match goal with
        | |- context [Original.forEach ?f ?l ?q] =>
            destruct (Original_forEach_frame E l q) as [l' Hl'];
            destruct (Original.forEach f l q) as [[[]|] q'] eqn:F
        end; cbn [snd] in Hl'; subst;
          exists l', [Fetch "GET" Original.LOGS_URL None; ReadJson];
          (split; [reflexivity | right; reflexivity]).
      * exists (recentList p), [Fetch "GET" Original.LOGS_URL None; ReadJson].
        split; [reflexivity | right; reflexivity].
    + exists (recentList p), [Fetch "GET" Original.LOGS_URL None; ReadJson].
      split; [reflexivity | right; reflexivity].
Qed.

(** What [pingModel] leaves on the page, case by case. *)
Lemma Original_ping_unreachable (E : Engine) (p : Page) :
  Original.pingModel E NetworkError p
  = (Some tt,
     set_modelStatus (InnerText "backend unreachable")
       (log (Fetch "GET" Original.PING_URL None) p)).
Proof. reflexivity. Qed.

Lemma Original_ping_unreadable (E : Engine) (r : Response) (p : Page) :
  (body_json r = None
   \/ exists j,
        body_json r = Some j
        /\ (readable j = false \/ Original_status_line E j = None)) ->
  Original.pingModel E (Answer r) p
  = (Some tt,
     set_modelStatus (InnerText "backend unreachable")
       (log ReadJson (log (Fetch "GET" Original.PING_URL None) p))).
Proof.
  intros [J | [j [J T]]]; unfold Original.pingModel; handler_simpl;
    handler_rewrite J; [reflexivity|].
  destruct (readable j) eqn:R.
  - destruct T as [T | T]; [discriminate|].
    rewrite !(get_readable j) by assumption. handler_simpl.
    revert T. unfold Original_status_line.
    destruct (ToString E (or_else _ _)); [|reflexivity]. handler_simpl.
    destruct (ToString E (field j "model_loaded")); [|reflexivity].
    discriminate.
  - rewrite (get_unreadable j) by assumption. reflexivity.
Qed.

Lemma Original_ping_answered (E : Engine) (r : Response) (j : value)
    (line : string) (p : Page) :
  body_json r = Some j -> readable j = true ->
  Original_status_line E j = Some line ->
  Original.pingModel E (Answer r) p
  = (Some tt,
     set_modelStatus (InnerText line)
       (log ReadJson (log (Fetch "GET" Original.PING_URL None) p))).
Proof.
  intros J R. unfold Original.pingModel. handler_simpl. handler_rewrite J.
  rewrite !(get_readable j) by assumption. handler_simpl.
  unfold Original_status_line.
  destruct (ToString E (or_else _ _)); [|discriminate]. handler_simpl.
  destruct (ToString E (field j "model_loaded")); [|discriminate].
  handler_simpl. intros L. injection L as <-. reflexivity.
Qed.

Lemma Original_ping_returns (E : Engine) (net : fetch_outcome) (p : Page) :
  exists c t,
    Original.pingModel E net p
    = (Some tt,
       set_modelStatus c
         (fold_left (fun q e => log e q) t
            (log (Fetch "GET" Original.PING_URL None) p)))
    /\ (t = [] \/ t = [ReadJson]).
Proof.
  destruct net as [|r].
  - eexists _, []. split; [apply Original_ping_unreachable | auto].
  - destruct (body_json r) as [j|] eqn:J.
    + destruct (readable j) eqn:R.
      * destruct (Original_status_line E j) as [line|] eqn:L.
        -- eexists _, [ReadJson].
           split; [apply (Original_ping_answered E r j line); assumption
                  | auto].
        -- eexists _, [ReadJson].
           split; [apply Original_ping_unreadable; eauto | auto].
      * eexists _, [ReadJson].
        split; [apply Original_ping_unreadable; eauto | auto].
    + eexists _, [ReadJson].
      split; [apply Original_ping_unreadable; auto | auto].
Qed.

(** [pingModel] always sends exactly one request, the GET to the ping
    endpoint. *)
Lemma Original_ping_once (E : Engine) (net : fetch_outcome) (p : Page) :
  count is_ping (trace (run (Original.pingModel E net) p))
  = S (count is_ping (trace p))
  /\ count is_fetch (trace (run (Original.pingModel E net) p))
     = S (count is_fetch (trace p)).
Proof.
  destruct (Original_ping_returns E net p) as [c [t [H T]]].
  unfold run. rewrite H. cbn [snd].
  destruct T as [-> | ->]; cbn [fold_left trace set_modelStatus];
    rewrite !count_log; cbn; lia.
Qed.

(** Loading the page runs [pingModel] and then the loader of the logs,
    which leaves the status line and sends no ping. *)
Lemma Original_onload_after_ping (E : Engine) (ping logs : fetch_outcome)
    (p : Page) :
  modelStatus (run (Original.onload E ping logs) p)
  = modelStatus (run (Original.pingModel E ping) p)
  /\ count is_ping (trace (run (Original.onload E ping logs) p))
     = count is_ping (trace (run (Original.pingModel E ping) p)).
Proof.
  assert (P : forall q, exists u, Original.pingModel E ping q = (Some tt, u)).
  { intros q. destruct (Original_ping_returns E ping q) as [c [t [H _]]].
    eexists. exact H. }
  destruct (P p) as [u Hu].
  unfold Original.onload, run, bind. rewrite Hu. cbn [snd].
  destruct (Original_loadRecent_frame E logs u) as [l [t [H Ht]]].
  unfold run in H. rewrite H.
  destruct Ht as [-> | ->]; cbn [fold_left]; split; try reflexivity;
    cbn [trace set_recentList]; rewrite ?count_log; cbn; lia.
Qed.

(** C9, as the code has it.  Loading the page of the original script sends
    exactly one GET to the ping endpoint, whatever the network answers (so
    the probe is never repeated).  [pingModel] does not look at the status:
    whenever the body is JSON other than [null] and its two values have a
    text, the status line is the model name (or [none]) and the loaded flag
    as the body gives them, so for an object with a name and a flag it
    shows both.  When the request fails at the network, the body is not
    JSON or it is [null], or one of the two values has no text (an object
    with a key [toString]), the status line is the fixed text
    [backend unreachable]. *)
Theorem ping_once_then_status (E : Engine) (ping logs : fetch_outcome)
    (p : Page) :
  count is_ping (trace (run (Original.onload E ping logs) p))
  = S (count is_ping (trace p))
  /\ (forall r j name loaded,
        ping = Answer r -> body_json r = Some j -> readable j = true ->
        ToString E (or_else (field j "model_name") (Str "none")) = Some name ->
        ToString E (field j "model_loaded") = Some loaded ->
        modelStatus (run (Original.onload E ping logs) p)
        = InnerText (name ++ " (loaded=" ++ loaded ++ ")"))
  /\ (forall r props name loaded,
        ping = Answer r -> body_json r = Some (Obj props) ->
        lookup "model_name" props = Str name -> name <> "" ->
        lookup "model_loaded" props = Bool loaded ->
        modelStatus (run (Original.onload E ping logs) p)
        = InnerText (name ++ " (loaded="
                          ++ (if loaded then "true" else "false") ++ ")"))
  /\ (ping = NetworkError
      \/ (exists r, ping = Answer r
                    /\ (body_json r = None \/ body_json r = Some Null))
      \/ (exists r j,
            ping = Answer r /\ body_json r = Some j
            /\ (ToString E (or_else (field j "model_name") (Str "none"))
                = None
                \/ ToString E (field j "model_loaded") = None)) ->
      modelStatus (run (Original.onload E ping logs) p)
      = InnerText "backend unreachable").
Proof.
  destruct (Original_onload_after_ping E ping logs p) as [S C].
  rewrite S, C. split; [apply Original_ping_once|]. split; [|split].
  - intros r j name loaded -> J R N L. unfold run.
    rewrite (Original_ping_answered E r j (name ++ " (loaded=" ++ loaded ++ ")"))
      by (auto; unfold Original_status_line; rewrite N, L; reflexivity).
    reflexivity.
  - intros r props name loaded -> J N NE L. unfold run.
    rewrite (Original_ping_answered E r (Obj props)
               (name ++ " (loaded=" ++ (if loaded then "true" else "false")
                     ++ ")")).
    + reflexivity.
    + exact J.
    + reflexivity.
    + unfold Original_status_line. cbn [field get]. rewrite N, L.
      unfold or_else. cbn [truthy].
      destruct (String.eqb_spec name ""); [contradiction|].
      cbn [negb ToString]. destruct loaded; reflexivity.
  - intros [-> | [[r [-> [J | J]]] | [r [j [-> [J T]]]]]]; unfold run.
    + rewrite Original_ping_unreachable. reflexivity.
    + rewrite Original_ping_unreadable by auto. reflexivity.
    + rewrite Original_ping_unreadable by (right; exists Null; auto).
      reflexivity.
    + rewrite Original_ping_unreadable; [reflexivity|].
      right. exists j. split; [exact J|]. right.
      unfold Original_status_line.
      destruct T as [-> | T]; [reflexivity|].
      rewrite T. destruct (ToString E (or_else _ _)); reflexivity.
Qed.

Lemma ping_once_then_status_witness :
  count is_ping
    (trace (run (Original.onload Samples.engine
                   (Answer (Samples.json_200
                              [("model_name", Str "cnn");
                               ("model_loaded", Bool true)]))
                   (Answer Samples.ten_rows)) Samples.fresh)) = 1%nat
  /\ modelStatus
       (run (Original.onload Samples.engine
               (Answer (Samples.json_200
                          [("model_name", Str "cnn");
                           ("model_loaded", Bool true)]))
               (Answer Samples.ten_rows)) Samples.fresh)
     = InnerText "cnn (loaded=true)"
  /\ modelStatus
       (run (Original.onload Samples.engine NetworkError NetworkError)
            Samples.fresh)
     = InnerText "backend unreachable"
  /\ modelStatus
       (run (Original.onload Samples.engine
               (Answer (Samples.json_200
                          [("model_name", Obj [("toString", Num 1)]);
                           ("model_loaded", Bool true)]))
               NetworkError) Samples.fresh)
     = InnerText "backend unreachable".
Proof.
  split; [|split; [|split]].
  - apply (ping_once_then_status Samples.engine
             (Answer (Samples.json_200
                        [("model_name", Str "cnn");
                         ("model_loaded", Bool true)]))
             (Answer Samples.ten_rows) Samples.fresh).
  - apply (ping_once_then_status Samples.engine
             (Answer (Samples.json_200
                        [("model_name", Str "cnn");
                         ("model_loaded", Bool true)]))
             (Answer Samples.ten_rows) Samples.fresh)
      with (r := Samples.json_200 [("model_name", Str "cnn");
                                   ("model_loaded", Bool true)])
           (props := [("model_name", Str "cnn"); ("model_loaded", Bool true)])
           (name := "cnn") (loaded := true);
      try reflexivity.
    discriminate.
  - apply (ping_once_then_status Samples.engine NetworkError NetworkError
             Samples.fresh).
    left. reflexivity.
  - apply (ping_once_then_status Samples.engine
             (Answer (Samples.json_200
                        [("model_name", Obj [("toString", Num 1)]);
                         ("model_loaded", Bool true)]))
             NetworkError Samples.fresh).
    right. right. eexists _, _.
    split; [reflexivity|]. split; [reflexivity|]. left. reflexivity.
Defined.

(** C9 as stated fails on a failure the server reports itself: a 500 whose
    body is a JSON error message is shown like a success, with neither a
    name nor a flag, and not as [backend unreachable]. *)
Lemma ping_once_then_status_counterexample :
  ok (Samples.json_response 500 (Obj [("error", Str "model not loaded")]))
  = false
  /\ modelStatus
       (run (Original.onload Samples.engine
               (Answer (Samples.json_response 500
                          (Obj [("error", Str "model not loaded")])))
               NetworkError) Samples.fresh)
     = InnerText "none (loaded=undefined)".
Proof. split; reflexivity. Qed.

(** ** The recent list of the original script grows without bound *)

(** A successful [appendRecent] of the original script lengthens the list
    by one, whatever its length was. *)
Lemma Original_appendRecent_grows (E : Engine) item d (p : Page) :
  Original_row_entry E (previewImg_src p) item = Some d ->
  List.length (recentList (run (Original.appendRecent E item) p))
  = S (List.length (recentList p)).
Proof.
  intros D. unfold run.
  rewrite (Original_appendRecent_prepends E item d) by assumption.
  reflexivity.
Qed.

(** C1.  In the original script the list is not bounded: the page loads the
    ten most recent log rows, and the first detection after that leaves
    eleven entries, the new one first and none evicted. *)
Theorem original_list_outgrows_ten :
  let loaded :=
    run (Original.onload Samples.engine NetworkError (Answer Samples.ten_rows))
        Samples.fresh in
  let detected :=
    run (Original.autoDetect Samples.engine "data:image/jpeg;base64,AAAA"
           "camera" (Answer (Samples.json_200
                               [("prediction", Str "spoof");
                                ("attack_type", Str "print");
                                ("confidence", Num (8 # 10));
                                ("processing_time_ms", Num 35)])))
        loaded in
  List.length (recentList loaded) = 10%nat
  /\ List.length (recentList detected) = 11%nat
  /\ tl (recentList detected) = recentList loaded.
Proof. vm_compute. repeat split. Qed.

(** In [app-fixed.js] and [app.js] the same insertion keeps ten entries:
    the new one first, then the former list without its last entry. *)
Lemma later_scripts_evict_the_oldest (E : Engine) (p : Page) :
  List.length (recentList p) = 10%nat ->
  (forall label conf imgSrc,
      recentList (run (Pages.appendRecent E label conf imgSrc) p)
      = Pages.recent_entry E label conf imgSrc :: removelast (recentList p))
  /\ (forall item imgSrc,
      recentList (run (Fixed.appendRecent E item imgSrc) p)
      = Fixed.recent_entry E item imgSrc :: removelast (recentList p)).
Proof.
  intros H. split; intros.
  - rewrite Pages_appendRecent_list, <- keep_last_10_firstn.
    apply keep_last_10_evicts_oldest, H.
  - rewrite Fixed_appendRecent_list, <- keep_last_10_firstn.
    apply keep_last_10_evicts_oldest, H.
Qed.

(** Below ten entries nothing is evicted. *)
Lemma later_scripts_prepend (E : Engine) (p : Page) :
  (List.length (recentList p) < 10)%nat ->
  (forall label conf imgSrc,
      recentList (run (Pages.appendRecent E label conf imgSrc) p)
      = Pages.recent_entry E label conf imgSrc :: recentList p)
  /\ (forall item imgSrc,
      recentList (run (Fixed.appendRecent E item imgSrc) p)
      = Fixed.recent_entry E item imgSrc :: recentList p).
Proof.
  intros H. split; intros.
  - rewrite Pages_appendRecent_list. apply firstn_all2. simpl. lia.
  - rewrite Fixed_appendRecent_list. apply firstn_all2. simpl. lia.
Qed.

(** ** A non-success status *)

(** In [app-fixed.js] and [app.js] a non-success status makes the handler
    read the body as text and show it escaped; the body is not read as
    JSON and the recent list is left alone. *)
Lemma later_scripts_surface_error_text (E : Engine) (r : Response) (p : Page) :
  ok r = false ->
  (forall blob,
      let p' := run (Pages.sendToBackend E blob (Answer r)) p in
      resultBox p'
      = InnerHTML ("<span style=" ++ dq ++ "color:red" ++ dq
                   ++ ">Server error:</span><pre>"
                   ++ escape (body_text r) ++ "</pre>")
      /\ count is_text_read (trace p') = S (count is_text_read (trace p))
      /\ count is_json_read (trace p') = count is_json_read (trace p)
      /\ recentList p' = recentList p)
  /\ (forall blob now,
      let p' := run (Fixed.sendToBackend E blob now (Answer r)) p in
      resultBox p'
      = InnerHTML ("<span style=" ++ dq ++ "color:red" ++ dq
                   ++ ">Server error " ++ show_Z (status r)
                   ++ ":</span><pre style=" ++ dq ++ "white-space:pre-wrap"
                   ++ dq ++ ">" ++ escape (body_text r) ++ "</pre>")
      /\ count is_text_read (trace p') = S (count is_text_read (trace p))
      /\ count is_json_read (trace p') = count is_json_read (trace p)
      /\ recentList p' = recentList p).
Proof.
  intros H. split; intros; subst p'; unfold run.
  - rewrite Pages_send_status by assumption. cbn [snd].
    repeat split; cbn [trace set_resultBox]; rewrite ?count_log; cbn; lia.
  - rewrite Fixed_send_status by assumption. cbn [snd].
    repeat split; cbn [trace set_resultBox]; rewrite ?count_log; cbn; lia.
Qed.

(** C3.  The original script does not look at the status: on a 500 whose
    body is the plain text [Internal Server Error] it reads the body as
    JSON, and what it shows is the fixed failure text, not the body. *)
Theorem original_parses_error_bodies :
  let p' :=
    run (Original.autoDetect Samples.engine "data:image/jpeg;base64,AAAA"
           "camera" (Answer Samples.internal_server_error)) Samples.fresh in
  ok Samples.internal_server_error = false
  /\ resultBox p' = InnerHTML "Detection failed. Is backend running?"
  /\ count is_json_read (trace p') = 1%nat
  /\ count is_text_read (trace p') = 0%nat.
Proof. vm_compute. repeat split. Qed.

(** The same response in the two later scripts: the text of the body. *)
Example later_scripts_show_internal_server_error :
  resultBox (run (Pages.sendToBackend Samples.engine "jpeg"
                    (Answer Samples.internal_server_error)) Samples.fresh)
  = InnerHTML ("<span style=" ++ dq ++ "color:red" ++ dq
               ++ ">Server error:</span><pre>Internal Server Error</pre>")
  /\ resultBox (run (Fixed.sendToBackend Samples.engine "jpeg" "10:00:00"
                       (Answer Samples.internal_server_error)) Samples.fresh)
     = InnerHTML ("<span style=" ++ dq ++ "color:red" ++ dq
                  ++ ">Server error 500:</span><pre style=" ++ dq
                  ++ "white-space:pre-wrap" ++ dq
                  ++ ">Internal Server Error</pre>").
Proof. split; reflexivity. Qed.

(** ** Capturing a frame *)

(** In [app-fixed.js] and [app.js] a snap without a stream only writes the
    hint: no frame is drawn and nothing is sent. *)
Lemma later_scripts_guard_the_snap (E : Engine) (p : Page) :
  video_srcObject p = None ->
  (forall width height blob url net,
      Pages.snapBtn_onclick E width height blob url net p
      = (Some tt, set_resultBox (InnerText "Start the camera first.") p))
  /\ (forall width height blob url now net,
      Fixed.snapBtn_onclick E width height blob url now net p
      = (Some tt, set_resultBox (InnerText "Start the camera first.") p)).
Proof.
  intros H. split; intros.
  - unfold Pages.snapBtn_onclick. handler_simpl. rewrite H. reflexivity.
  - unfold Fixed.snapBtn_onclick. handler_simpl. rewrite H. reflexivity.
Qed.

(** C8.  The original script has no such guard: a snap on a page whose
    video has no stream draws the (empty) frame, previews it and posts it to
    the detection endpoint, and the hint is never shown. *)
Theorem original_snaps_without_stream :
  let p' :=
    run (Original.snapBtn_onclick Samples.engine 0 0 "data:," NetworkError)
        Samples.fresh in
  video_srcObject Samples.fresh = None
  /\ trace p'
     = [DrawImage 0 0;
        Fetch "POST" "http://127.0.0.1:5000/api/detect"
              (Some (TextBody ("{" ++ dq ++ "image" ++ dq ++ ":" ++ dq
                               ++ "data:," ++ dq ++ "," ++ dq ++ "source"
                               ++ dq ++ ":" ++ dq ++ "camera" ++ dq ++ "}")))]
  /\ previewImg_src p' = "data:,"
  /\ resultBox p' = InnerHTML "Detection failed. Is backend running?".
Proof. vm_compute. repeat split. Qed.

(** The frame is drawn and posted whatever the page holds and whatever the
    network answers. *)
Lemma Original_snap_always_captures (E : Engine) width height data net
    (p : Page) :
  count is_capture
    (trace (run (Original.snapBtn_onclick E width height data net) p))
  = S (count is_capture (trace p))
  /\ count is_fetch
       (trace (run (Original.snapBtn_onclick E width height data net) p))
     = S (count is_fetch (trace p)).
Proof.
  unfold Original.snapBtn_onclick, run, bind, emit, write.
  cbn [fst snd].
  match goal with
  | |- context [Original.autoDetect E ?src ?ty ?n ?q] =>
      destruct (Original_detect_shape E src ty n q)
        as [c [l [t [S [Q _]]]]]; rewrite S
  end.
  cbn [snd trace set_recentList set_resultBox set_preview].
  rewrite trace_logged. unfold count.
  rewrite !filter_app, (quiet_filter _ t quiet_not_capture Q),
    (quiet_filter _ t quiet_not_fetch Q), !length_app.
  cbn. rewrite !filter_app, !length_app. cbn. lia.
Qed.

(** ** What reaches the document unescaped *)

(** C4.  [app.js] escapes the body of a failed request only: the label of a
    rendered result and of the recent entry is interpolated as it came, so
    a prediction that holds a tag reaches the document as a tag. *)
Theorem pages_label_is_not_escaped :
  let p' :=
    run (Pages.uploadInput_onchange Samples.engine (Some "jpeg")
           "blob:https://pages.example/1" (Answer tagged_prediction))
        Samples.fresh in
  resultBox p'
  = InnerHTML
      (nl ++ "      <div><b>Prediction:</b> <IMG SRC=X ONERROR=ALERT(1)></div>"
       ++ nl ++ "      <div><b>Confidence:</b> 90%</div>"
       ++ nl ++ "      <div><b>Time:</b> 42 ms</div>"
       ++ nl ++ "    ")
  /\ recentList p'
     = [Html [("display", "flex"); ("gap", "8px")]
          (nl ++ "    <img src=" ++ dq ++ "blob:https://pages.example/1" ++ dq
              ++ " width=" ++ dq ++ "80" ++ dq
              ++ " style=" ++ dq ++ "border-radius:6px" ++ dq ++ "/>"
           ++ nl ++ "    <div>"
           ++ nl ++ "      <div><b><IMG SRC=X ONERROR=ALERT(1)></b></div>"
           ++ nl ++ "      <div style=" ++ dq ++ "font-size:12px" ++ dq
              ++ ">90%</div>"
           ++ nl ++ "    </div>"
           ++ nl ++ "  ")].
Proof. vm_compute. split; reflexivity. Qed.

(** The same response in [app-fixed.js]: the tag is shown as text. *)
Example fixed_label_is_escaped :
  resultBox (run (Fixed.sendToBackend Samples.engine "jpeg" "10:00:00"
                    (Answer tagged_prediction)) Samples.fresh)
  = InnerHTML
      (nl ++ "      <div><strong>Prediction:</strong> "
          ++ "&lt;IMG SRC=X ONERROR=ALERT(1)&gt;</div>"
       ++ nl ++ "      <div><strong>Confidence:</strong> 90.0%</div>"
       ++ nl ++ "      <div><strong>Processing time:</strong> 42 ms</div>"
       ++ nl ++ "    ").
Proof. reflexivity. Qed.

(** The original script escapes nothing either. *)
Example original_label_is_not_escaped :
  resultBox (run (Original.autoDetect Samples.engine "data:," "upload"
                    (Answer tagged_prediction)) Samples.fresh)
  = InnerHTML
      (nl ++ "      <div><strong>Result:</strong> "
          ++ "<IMG SRC=X ONERROR=ALERT(1)> (undefined)</div>"
       ++ nl ++ "      <div><strong>Confidence:</strong> 90%</div>"
       ++ nl ++ "      <div><strong>Time:</strong> 42 ms</div>").
Proof. reflexivity. Qed.

(** ** The confidence shown *)

Lemma pow2_inverse (e : Z) :
  (e <= 0)%Z -> pow2 e * inject_Z (2 ^ (- e)) == 1.
Proof.
  intros H. unfold pow2. destruct (Z.leb_spec 0 e) as [L | L].
  - assert (e = 0%Z) by lia. subst e. reflexivity.
  - assert (P : (0 < 2 ^ (- e))%Z) by (apply Z.pow_pos_nonneg; lia).
    unfold Qeq, Qmult, inject_Z. cbn [Qnum Qden].
    rewrite Pos.mul_1_r, Z2Pos.id by exact P. lia.
Qed.

Lemma pow2_positive (e : Z) : 0 < pow2 e.
Proof.
  unfold pow2. destruct (Z.leb_spec 0 e) as [L | L].
  - assert (P : (0 < 2 ^ e)%Z) by (apply Z.pow_pos_nonneg; lia).
    unfold Qlt, inject_Z. cbn [Qnum Qden]. lia.
  - reflexivity.
Qed.

(** Rounding to the nearest integer stays within integer bounds. *)
Lemma round_half_even_bounds (lo hi : Z) (q : Q) :
  inject_Z lo <= q <= inject_Z hi ->
  (lo <= round_half_even q <= hi)%Z.
Proof.
  destruct q as [n d]. unfold Qle, inject_Z. cbn [Qnum Qden].
  intros [L U]. unfold round_half_even.
  set (f := Qfloor (n # d)).
  assert (F : (Z.pos d * f <= n < Z.pos d * (f + 1))%Z).
  { subst f. unfold Qfloor.
    pose proof (Z.div_mod n (Z.pos d) ltac:(lia)) as D.
    pose proof (Z.mod_pos_bound n (Z.pos d) ltac:(lia)) as B.
    nia. }
  destruct (((n # d) - inject_Z f ?= 1 # 2)%Q) eqn:C.
  - apply Qeq_alt in C. revert C.
    unfold Qeq, Qminus, Qplus, Qopp, inject_Z. cbn [Qnum Qden].
    rewrite ?Pos.mul_1_r. intros C.
    destruct (Z.even f); nia.
  - nia.
  - apply Qgt_alt in C. revert C.
    unfold Qlt, Qminus, Qplus, Qopp, inject_Z. cbn [Qnum Qden].
    rewrite ?Pos.mul_1_r. intros C. nia.
Qed.

Lemma Qabs_nonneg_eq (q : Q) : 0 <= q -> Qabs q = q.
Proof.
  destruct q as [n d]. unfold Qle. cbn [Qnum Qden]. intros H.
  unfold Qabs. rewrite Z.abs_eq by lia. reflexivity.
Qed.

Lemma floor_log2_percent (a : Q) :
  0 < a -> a <= 100 -> (floor_log2 a <= 7)%Z.
Proof.
  destruct a as [n d]. unfold Qlt, Qle. cbn [Qnum Qden]. intros P U.
  assert (K : (Z.log2 n - Z.log2 (Z.pos d) <= 7)%Z).
  { assert (M : (Z.log2 n <= Z.log2 (Z.pos d * 2 ^ 7))%Z)
      by (apply Z.log2_le_mono; lia).
    rewrite Z.log2_mul_pow2 in M by lia. lia. }
  unfold floor_log2. cbn [Qnum Qden].
  destruct (Qle_bool _ _); lia.
Qed.

(** The binary64 value nearest to a number between 0 and 100 lies between
    0 and 100: both bounds are binary64 numbers. *)
Lemma binary64_percent (x : Q) :
  0 <= x <= 100 -> exists y, binary64 x = Fin y /\ 0 <= y <= 100.
Proof.
  intros [L U]. unfold binary64.
  destruct (Qeq_bool x 0) eqn:Z.
  { exists 0. split; [reflexivity | split; discriminate]. }
  assert (P : 0 < x).
  { apply Qle_lteq in L. destruct L as [L | L]; [exact L|].
    apply Qeq_bool_neq in Z. exfalso. apply Z. symmetry. exact L. }
  rewrite (Qabs_nonneg_eq x L).
  set (e := Z.max (floor_log2 x - 52) (-1074)).
  assert (E0 : (e <= 0)%Z)
    by (subst e; pose proof (floor_log2_percent x P U); lia).
  pose proof (pow2_inverse e E0) as I.
  pose proof (pow2_positive e) as Pe.
  set (N := (2 ^ (- e))%Z) in *.
  assert (B : inject_Z 0 <= x / pow2 e <= inject_Z (100 * N)).
  { split.
    - apply Qle_shift_div_l; [exact Pe|]. change (inject_Z 0) with 0.
      rewrite Qmult_0_l. exact L.
    - apply Qle_shift_div_r; [exact Pe|].
      rewrite inject_Z_mult, <- Qmult_assoc, (Qmult_comm (inject_Z N)), I,
        Qmult_1_r.
      exact U. }
  pose proof (round_half_even_bounds 0 (100 * N) _ B) as [M0 M1].
  set (m := round_half_even (x / pow2 e)) in *.
  assert (R0 : 0 <= inject_Z m * pow2 e).
  { apply Qmult_le_0_compat; [|apply Qlt_le_weak, Pe].
    unfold Qle, inject_Z. cbn [Qnum Qden]. lia. }
  assert (R1 : inject_Z m * pow2 e <= 100).
  { apply Qle_trans with (inject_Z (100 * N) * pow2 e).
    - apply Qmult_le_compat_r; [|apply Qlt_le_weak, Pe].
      rewrite <- Zle_Qle. exact M1.
    - rewrite inject_Z_mult, <- Qmult_assoc, (Qmult_comm (inject_Z N)), I,
        Qmult_1_r.
      apply Qle_refl. }
  assert (O : Qle_bool (pow2 1024) (inject_Z m * pow2 e) = false).
  { destruct (Qle_bool (pow2 1024) (inject_Z m * pow2 e)) eqn:O;
      [|reflexivity].
    apply Qle_bool_iff in O. exfalso.
    assert (T : 100 < pow2 1024) by (vm_compute; reflexivity).
    apply (Qlt_irrefl 100). eapply Qlt_le_trans; [exact T|].
    eapply Qle_trans; [exact O | exact R1]. }
  rewrite O.
  assert (S : Qle_bool 0 x = true) by (apply Qle_bool_iff; exact L).
  rewrite S. eexists. split; [reflexivity | split; assumption].
Qed.

Lemma round_half_up_percent (y : Q) :
  0 <= y <= 100 -> (0 <= round_half_up y <= 100)%Z.
Proof.
  intros [L U]. unfold round_half_up. split.
  - change 0%Z with (Qfloor 0). apply Qfloor_resp_le.
    apply Qle_trans with (0 + (1 # 2)); [discriminate|].
    apply Qplus_le_l. assumption.
  - change 100%Z with (Qfloor (100 + (1 # 2))). apply Qfloor_resp_le.
    apply Qplus_le_l. assumption.
Qed.

(** The percentage of a confidence between 0 and 1: the product rounds to
    a binary64 number between 0 and 100, and [Math.round] of it is a whole
    number between 0 and 100. *)
Lemma percent_in_range (c : Q) :
  0 <= c <= 1 ->
  exists n, Math_round (mul (Fin c) (Fin 100)) = Fin (inject_Z n)
            /\ (0 <= n <= 100)%Z.
Proof.
  intros [L U]. cbn [mul].
  destruct (binary64_percent (c * 100)) as [y [B Y]].
  { split.
    - apply Qle_trans with (0 * 100); [discriminate|].
      apply Qmult_le_compat_r; [assumption | discriminate].
    - apply Qle_trans with (1 * 100); [|discriminate].
      apply Qmult_le_compat_r; [assumption | discriminate]. }
  rewrite B. cbn [Math_round]. eexists. split; [reflexivity|].
  apply round_half_up_percent, Y.
Qed.

(** An integer of magnitude up to 2^53 is written with all its digits,
    whatever the engine. *)
Lemma number_toString_integer (E : Engine) (n : Z) :
  (Z.abs n <= 2 ^ 53)%Z -> number_toString E (Fin (inject_Z n)) = show_Z n.
Proof.
  intros H. unfold number_toString, Number_toString, is_integer.
  rewrite Qfloor_Z. cbn [Qnum Qden inject_Z].
  rewrite Z.mod_1_r. cbn [Z.eqb andb].
  destruct (Z.leb_spec (Z.abs n) (2 ^ 53)); [reflexivity | lia].
Qed.

(** [(confidence || 0) * 100] of [app.js] on a number. *)
Lemma Pages_conf_of_number (E : Engine) (c : Q) :
  exists n,
    ToNumber E (or_else (Num c) (Num 0)) = Some n
    /\ mul n (Fin 100) = mul (Fin c) (Fin 100).
Proof.
  unfold or_else. cbn [truthy].
  destruct (Qeq_bool c 0) eqn:Z; cbn [negb ToNumber];
    (eexists; split; [reflexivity|]); [|reflexivity].
  apply Qeq_bool_eq in Z. cbn [mul]. unfold binary64.
  assert (A : Qeq_bool (0 * 100) 0 = true) by reflexivity.
  assert (B : Qeq_bool (c * 100) 0 = true).
  { apply Qeq_bool_iff. rewrite Z. reflexivity. }
  rewrite A, B. reflexivity.
Qed.

Lemma field_readable (v : value) (k : string) (x : value) :
  field v k = x -> x <> Undefined -> readable v = true.
Proof.
  intros F N. destruct v; try reflexivity; cbn in F; congruence.
Qed.

(** C2, as the code has it.  For a 2xx response whose JSON body has a
    numeric confidence [c] and is rendered (no conversion of another value
    throws): the original script and [app.js] show [Math.round(c * 100)]
    followed by [%]; [app-fixed.js] shows [(c * 100).toFixed(1)] followed
    by [%], one digit after the point.  The product is the binary64 one.
    No script clamps the number: the rounded percentage is a whole number
    in 0..100 when [c] lies in 0..1, and is then written with all its
    digits. *)
Theorem confidence_shown (E : Engine) (r : Response) (result : value) (c : Q)
    (p : Page) :
  ok r = true -> body_json r = Some result ->
  field result "confidence" = Num c ->
  (forall blob label time,
      call_toUpperCase E (or_else (field result "prediction") (Str "unknown"))
      = Some label ->
      ToString E (nullish (field result "processing_time_ms") (Str "N/A"))
      = Some time ->
      resultBox (run (Pages.sendToBackend E blob (Answer r)) p)
      = InnerHTML
          (Pages.result_markup E label
             (Math_round (mul (Fin c) (Fin 100))) time))
  /\ (forall src sourceType label attack_type time thumb timestamp,
      call_toUpperCase E (field result "prediction") = Some label ->
      ToString E (field result "attack_type") = Some attack_type ->
      ToString E (field result "processing_time_ms") = Some time ->
      Original.thumbnail (field result "image_path") (previewImg_src p)
      = Some thumb ->
      ToString E (field result "timestamp") = Some timestamp ->
      resultBox (run (Original.autoDetect E src sourceType (Answer r)) p)
      = InnerHTML
          (Original.result_markup E label attack_type
             (Math_round (mul (Fin c) (Fin 100))) time))
  /\ (forall blob now label time,
      truthy (field result "error") = false ->
      ToString E (Fixed_label_value result) = Some label ->
      ToString E (Fixed_timeMs result) = Some time ->
      resultBox (run (Fixed.sendToBackend E blob now (Answer r)) p)
      = InnerHTML
          (Fixed.result_markup E label
             (toFixed1 E (mul (Fin c) (Fin 100)) ++ "%") time))
  /\ (0 <= c <= 1 ->
      exists n,
        Math_round (mul (Fin c) (Fin 100)) = Fin (inject_Z n)
        /\ (0 <= n <= 100)%Z
        /\ number_toString E (Fin (inject_Z n)) = show_Z n).
Proof.
  intros H J F.
  assert (R : readable result = true)
    by (apply (field_readable result "confidence" (Num c)); congruence).
  split; [|split; [|split]].
  - intros blob label time L T. unfold run.
    rewrite (Pages_send_rendered E blob r result label
               (Math_round (mul (Fin c) (Fin 100))) time); auto.
    unfold Pages_rendering. rewrite L, F, T.
    destruct (Pages_conf_of_number E c) as [n [N M]]. rewrite N, M.
    reflexivity.
  - intros src sourceType label attack_type time thumb timestamp L A T Th Ts.
    unfold run.
    rewrite (Original_detect_rendered E src sourceType r result label
               attack_type (Math_round (mul (Fin c) (Fin 100))) time
               (Original.recent_entry E thumb label attack_type timestamp
                  (Math_round (mul (Fin c) (Fin 100))) time)); auto.
    + unfold Original_rendering. rewrite L, A, F, T. reflexivity.
    + unfold Original_row_entry. rewrite R, Th, L, A, Ts, F, T. reflexivity.
  - intros blob now label time T L Tm. unfold run.
    rewrite (Fixed_send_rendered E blob now r result label
               (toFixed1 E (mul (Fin c) (Fin 100)) ++ "%") time); auto.
    unfold Fixed_rendering, Fixed_confidence. rewrite L, F, Tm. reflexivity.
  - intros C. destruct (percent_in_range c C) as [n [N B]].
    exists n. split; [exact N|]. split; [exact B|].
    apply number_toString_integer. lia.
Qed.

Lemma confidence_shown_witness :
  resultBox (run (Pages.sendToBackend Samples.engine "jpeg" (Answer spoof_873))
                 Samples.fresh)
  = InnerHTML (nl ++ "      <div><b>Prediction:</b> SPOOF</div>"
               ++ nl ++ "      <div><b>Confidence:</b> 87%</div>"
               ++ nl ++ "      <div><b>Time:</b> 42 ms</div>"
               ++ nl ++ "    ")
  /\ resultBox (run (Fixed.sendToBackend Samples.engine "jpeg" "10:00:00"
                       (Answer spoof_873)) Samples.fresh)
     = InnerHTML
         (nl ++ "      <div><strong>Prediction:</strong> SPOOF</div>"
          ++ nl ++ "      <div><strong>Confidence:</strong> 87.3%</div>"
          ++ nl ++ "      <div><strong>Processing time:</strong> 42 ms</div>"
          ++ nl ++ "    ")
  /\ resultBox (run (Original.autoDetect Samples.engine "data:," "upload"
                       (Answer spoof_873)) Samples.fresh)
     = InnerHTML
         (nl ++ "      <div><strong>Result:</strong> SPOOF (undefined)</div>"
          ++ nl ++ "      <div><strong>Confidence:</strong> 87%</div>"
          ++ nl ++ "      <div><strong>Time:</strong> 42 ms</div>")
  /\ (exists n,
        Math_round (mul (Fin confidence_873) (Fin 100)) = Fin (inject_Z n)
        /\ (0 <= n <= 100)%Z
        /\ number_toString Samples.engine (Fin (inject_Z n)) = show_Z n)
  /\ resultBox (run (Pages.sendToBackend Samples.engine "jpeg" (Answer real_285))
                    Samples.fresh)
     = InnerHTML (nl ++ "      <div><b>Prediction:</b> REAL</div>"
                  ++ nl ++ "      <div><b>Confidence:</b> 28%</div>"
                  ++ nl ++ "      <div><b>Time:</b> N/A ms</div>"
                  ++ nl ++ "    ").
Proof.
  destruct (confidence_shown Samples.engine spoof_873
              (Obj [("confidence", Num confidence_873);
                    ("prediction", Str "spoof");
                    ("processing_time_ms", Num 42)])
              confidence_873 Samples.fresh eq_refl eq_refl eq_refl)
    as [HP [HO [HF HR]]].
  destruct (confidence_shown Samples.engine real_285
              (Obj [("prediction", Str "real");
                    ("confidence", Num confidence_285)])
              confidence_285 Samples.fresh eq_refl eq_refl eq_refl)
    as [HP' _].
  split; [|split; [|split; [|split]]].
  - exact (HP "jpeg" "SPOOF" "42" eq_refl eq_refl).
  - exact (HF "jpeg" "10:00:00" "spoof" "42" eq_refl eq_refl eq_refl).
  - exact (HO "data:," "upload" "SPOOF" "undefined" "42" "" "undefined"
              eq_refl eq_refl eq_refl eq_refl eq_refl).
  - apply HR. split; discriminate.
  - exact (HP' "jpeg" "REAL" "N/A" eq_refl eq_refl).
Defined.

(** C2 as stated fails twice: [app-fixed.js] shows one digit after the
    point instead of the rounded percentage (12.5% for 0.125, which rounds
    to 13), and a confidence above 1 is shown as it is (200% for 2). *)
Lemma confidence_shown_counterexample :
  resultBox (run (Fixed.sendToBackend Samples.engine "jpeg" "10:00:00"
                    (Answer (Samples.json_200
                               [("prediction", Str "real");
                                ("confidence", Num (1 # 8))])))
                 Samples.fresh)
  = InnerHTML
      (nl ++ "      <div><strong>Prediction:</strong> REAL</div>"
       ++ nl ++ "      <div><strong>Confidence:</strong> 12.5%</div>"
       ++ nl ++ "      <div><strong>Processing time:</strong> N/A ms</div>"
       ++ nl ++ "    ")
  /\ Math_round (mul (Fin (1 # 8)) (Fin 100)) = Fin (inject_Z 13)
  /\ resultBox (run (Pages.sendToBackend Samples.engine "jpeg"
                       (Answer (Samples.json_200
                                  [("prediction", Str "real");
                                   ("confidence", Num 2)])))
                    Samples.fresh)
     = InnerHTML (nl ++ "      <div><b>Prediction:</b> REAL</div>"
                  ++ nl ++ "      <div><b>Confidence:</b> 200%</div>"
                  ++ nl ++ "      <div><b>Time:</b> N/A ms</div>"
                  ++ nl ++ "    ")
  /\ Math_round (mul (Fin 2) (Fin 100)) = Fin (inject_Z 200).
Proof. vm_compute. repeat split. Qed.

(** The percentage is that of the binary64 product.  For the numeral
    0.285 it is 28, where the exact product of the numeral, 28.5, rounds to
    29; for the numeral 0.015 it is 2, where the exact product of the
    number read, just below 1.5, rounds to 1. *)
Example binary64_percentages :
  match Samples.numeral (285 # 1000), Samples.numeral (15 # 1000) with
  | Num a, Num b =>
      Math_round (mul (Fin a) (Fin 100)) = Fin (inject_Z 28)
      /\ round_half_up ((285 # 1000) * 100) = 29%Z
      /\ Math_round (mul (Fin b) (Fin 100)) = Fin (inject_Z 2)
      /\ round_half_up (b * 100) = 1%Z
  | _, _ => False
  end.
Proof. vm_compute. repeat split. Qed.

(** ** The names of the keys *)

(** C5, as the code has it.  For a 2xx response whose JSON body is not
    [null] and that is rendered: [app-fixed.js] shows as label the text of
    the first truthy value among [prediction], [label] and ["unknown"] (so
    a prediction that is absent, [null], empty, 0 or [false] gives way to
    [label]), in upper case, and as time the text of the first value among
    [processing_time_ms] and [processing_time] that is neither absent nor
    [null], else [N/A]; [app.js] reads [prediction] and
    [processing_time_ms] only, with the same two defaults, and needs the
    prediction to be a string.  A conversion that throws is not a
    rendering: the failure text is shown. *)
Theorem key_names_accepted (E : Engine) (r : Response) (result : value)
    (p : Page) :
  ok r = true -> body_json r = Some result -> readable result = true ->
  (forall blob now label confidence timeMs,
      truthy (field result "error") = false ->
      ToString E (or_else (or_else (field result "prediction")
                                   (field result "label")) (Str "unknown"))
      = Some label ->
      ToString E (Fixed_confidence E result) = Some confidence ->
      ToString E (nullish (nullish (field result "processing_time_ms")
                                   (field result "processing_time"))
                          (Str "N/A"))
      = Some timeMs ->
      resultBox (run (Fixed.sendToBackend E blob now (Answer r)) p)
      = InnerHTML (Fixed.result_markup E label confidence timeMs))
  /\ (forall blob label confidence time,
      call_toUpperCase E (or_else (field result "prediction") (Str "unknown"))
      = Some label ->
      ToNumber E (or_else (field result "confidence") (Num 0))
      = Some confidence ->
      ToString E (nullish (field result "processing_time_ms") (Str "N/A"))
      = Some time ->
      resultBox (run (Pages.sendToBackend E blob (Answer r)) p)
      = InnerHTML (Pages.result_markup E label
                     (Math_round (mul confidence (Fin 100))) time))
  /\ (forall blob now,
      truthy (field result "error") = false ->
      (ToString E (or_else (or_else (field result "prediction")
                                    (field result "label")) (Str "unknown"))
       = None
       \/ ToString E (Fixed_confidence E result) = None
       \/ ToString E (nullish (nullish (field result "processing_time_ms")
                                       (field result "processing_time"))
                              (Str "N/A")) = None) ->
      resultBox (run (Fixed.sendToBackend E blob now (Answer r)) p)
      = InnerText ("Detection failed. Is backend running? "
                   ++ "See console for details."))
  /\ (forall blob,
      (call_toUpperCase E (or_else (field result "prediction") (Str "unknown"))
       = None
       \/ ToNumber E (or_else (field result "confidence") (Num 0)) = None
       \/ ToString E (nullish (field result "processing_time_ms") (Str "N/A"))
          = None) ->
      resultBox (run (Pages.sendToBackend E blob (Answer r)) p)
      = InnerText "Network error. Backend unreachable.").
Proof.
  intros H J R. split; [|split; [|split]].
  - intros blob now label confidence timeMs T L C M. unfold run.
    rewrite (Fixed_send_rendered E blob now r result label confidence timeMs);
      auto.
    unfold Fixed_rendering, Fixed_label_value, Fixed_timeMs.
    rewrite L, C, M. reflexivity.
  - intros blob label confidence time L C T. unfold run.
    rewrite (Pages_send_rendered E blob r result label
               (Math_round (mul confidence (Fin 100))) time); auto.
    unfold Pages_rendering. rewrite L, C, T. reflexivity.
  - intros blob now T N. unfold run.
    rewrite (Fixed_send_render_throws E blob now r result); auto.
    unfold Fixed_rendering, Fixed_label_value, Fixed_timeMs.
    destruct N as [-> | [N | N]]; [reflexivity| |].
    + rewrite N. destruct (ToString E (or_else _ _)); reflexivity.
    + rewrite N. destruct (ToString E (or_else _ _)); [|reflexivity].
      destruct (ToString E (Fixed_confidence E result)); reflexivity.
  - intros blob N. unfold run.
    rewrite (Pages_send_type_error E blob r result); auto.
    right. unfold Pages_rendering.
    destruct N as [-> | [N | N]]; [reflexivity| |].
    + rewrite N. destruct (call_toUpperCase E _); reflexivity.
    + rewrite N. destruct (call_toUpperCase E _); [|reflexivity].
      destruct (ToNumber E _); reflexivity.
Qed.

Lemma key_names_accepted_witness :
  resultBox (run (Fixed.sendToBackend Samples.engine "jpeg" "10:00:00"
                    (Answer (Samples.json_200
                               [("prediction", Str "");
                                ("label", Str "spoof");
                                ("processing_time_ms", Null);
                                ("processing_time", Num 12)])))
                 Samples.fresh)
  = InnerHTML
      (nl ++ "      <div><strong>Prediction:</strong> SPOOF</div>"
       ++ nl ++ "      <div><strong>Confidence:</strong> N/A</div>"
       ++ nl ++ "      <div><strong>Processing time:</strong> 12 ms</div>"
       ++ nl ++ "    ")
  /\ resultBox (run (Fixed.sendToBackend Samples.engine "jpeg" "10:00:00"
                       (Answer (Samples.json_200 [])))
                    Samples.fresh)
     = InnerHTML
         (nl ++ "      <div><strong>Prediction:</strong> UNKNOWN</div>"
          ++ nl ++ "      <div><strong>Confidence:</strong> N/A</div>"
          ++ nl ++ "      <div><strong>Processing time:</strong> N/A ms</div>"
          ++ nl ++ "    ")
  /\ resultBox (run (Pages.sendToBackend Samples.engine "jpeg"
                       (Answer (Samples.json_200
                                  [("prediction", Str "real");
                                   ("processing_time_ms",
                                    Obj [("toString", Num 1)])])))
                    Samples.fresh)
     = InnerText "Network error. Backend unreachable.".
Proof.
  split; [|split].
  - exact (proj1 (key_names_accepted Samples.engine
                    (Samples.json_200 [("prediction", Str "");
                                       ("label", Str "spoof");
                                       ("processing_time_ms", Null);
                                       ("processing_time", Num 12)])
                    (Obj [("prediction", Str "");
                          ("label", Str "spoof");
                          ("processing_time_ms", Null);
                          ("processing_time", Num 12)])
                    Samples.fresh eq_refl eq_refl eq_refl)
                 "jpeg" "10:00:00" "spoof" "N/A" "12"
                 eq_refl eq_refl eq_refl eq_refl).
  - exact (proj1 (key_names_accepted Samples.engine (Samples.json_200 [])
                    (Obj []) Samples.fresh eq_refl eq_refl eq_refl)
                 "jpeg" "10:00:00" "unknown" "N/A" "N/A"
                 eq_refl eq_refl eq_refl eq_refl).
  - apply (proj2 (proj2 (proj2
             (key_names_accepted Samples.engine
                (Samples.json_200
                   [("prediction", Str "real");
                    ("processing_time_ms", Obj [("toString", Num 1)])])
                (Obj [("prediction", Str "real");
                      ("processing_time_ms", Obj [("toString", Num 1)])])
                Samples.fresh eq_refl eq_refl eq_refl)))).
    right. right. reflexivity.
Defined.

(** C5 as stated fails on [app.js]: a body that names the prediction
    [label] and the time [processing_time] is rendered with both
    defaults. *)
Lemma key_names_accepted_counterexample :
  resultBox (run (Pages.sendToBackend Samples.engine "jpeg"
                    (Answer (Samples.json_200
                               [("label", Str "spoof");
                                ("confidence", Samples.numeral (9 # 10));
                                ("processing_time", Num 12)])))
                 Samples.fresh)
  = InnerHTML (nl ++ "      <div><b>Prediction:</b> UNKNOWN</div>"
               ++ nl ++ "      <div><b>Confidence:</b> 90%</div>"
               ++ nl ++ "      <div><b>Time:</b> N/A ms</div>"
               ++ nl ++ "    ").
Proof. reflexivity. Qed.

(** ** An [error] field in a 2xx body *)

(** C6, as the code has it.  In [app-fixed.js], for a 2xx response whose
    JSON body is not [null]: when its [error] field is truthy the handler
    returns without rendering a result and leaves the recent list alone;
    it shows [String(error)], escaped, in a red span, or, when
    [String(error)] throws (an object with a key [toString]), the failure
    text of the [catch].  A falsy field ([null], [false], [0], the empty
    string) is no error: the result is rendered and appended as usual,
    when its three values have a text. *)
Theorem truthy_error_is_surfaced (E : Engine) (blob : Blob) (now : string)
    (r : Response) (result : value) (p : Page) :
  ok r = true -> body_json r = Some result -> readable result = true ->
  (truthy (field result "error") = true ->
   returns (Fixed.sendToBackend E blob now (Answer r)) p = true
   /\ recentList (run (Fixed.sendToBackend E blob now (Answer r)) p)
      = recentList p
   /\ (forall text,
         ToString E (field result "error") = Some text ->
         resultBox (run (Fixed.sendToBackend E blob now (Answer r)) p)
         = InnerHTML ("<span style=" ++ dq ++ "color:red" ++ dq ++ ">"
                      ++ escape text ++ "</span>"))
   /\ (ToString E (field result "error") = None ->
       resultBox (run (Fixed.sendToBackend E blob now (Answer r)) p)
       = InnerText ("Detection failed. Is backend running? "
                    ++ "See console for details.")))
  /\ (truthy (field result "error") = false ->
      forall label confidence timeMs,
        ToString E (Fixed_label_value result) = Some label ->
        ToString E (Fixed_confidence E result) = Some confidence ->
        ToString E (Fixed_timeMs result) = Some timeMs ->
        resultBox (run (Fixed.sendToBackend E blob now (Answer r)) p)
        = InnerHTML (Fixed.result_markup E label confidence timeMs)
        /\ recentList (run (Fixed.sendToBackend E blob now (Answer r)) p)
           = firstn 10 (Fixed.recent_entry E (Fixed_item label result now)
                          (previewImg_src p) :: recentList p)).
Proof.
  intros H J R. split; intros T.
  - destruct (escapeHtml E (field result "error")) as [escaped|] eqn:S.
    + unfold run, returns.
      rewrite (Fixed_send_error_field E blob now r result escaped)
        by assumption.
      split; [reflexivity|]. split; [reflexivity|]. split.
      * intros text X. revert S. unfold escapeHtml. rewrite X.
        intros S. injection S as <-. reflexivity.
      * intros X. revert S. unfold escapeHtml. rewrite X. discriminate.
    + unfold run, returns.
      rewrite (Fixed_send_error_throws E blob now r result) by assumption.
      split; [reflexivity|]. split; [reflexivity|]. split.
      * intros text X. revert S. unfold escapeHtml. rewrite X. discriminate.
      * reflexivity.
  - intros label confidence timeMs L C M. unfold run.
    rewrite (Fixed_send_rendered E blob now r result label confidence timeMs);
      auto.
    + cbn [snd]. split; [reflexivity|].
      rewrite Fixed_appendRecent_list. reflexivity.
    + unfold Fixed_rendering. rewrite L, C, M. reflexivity.
Qed.

Lemma truthy_error_is_surfaced_witness :
  resultBox (run (Fixed.sendToBackend Samples.engine "jpeg" "10:00:00"
                    (Answer (Samples.json_200
                               [("error", Str "No <face> detected")])))
                 Samples.fresh)
  = InnerHTML ("<span style=" ++ dq ++ "color:red" ++ dq
               ++ ">No &lt;face&gt; detected</span>")
  /\ recentList (run (Fixed.sendToBackend Samples.engine "jpeg" "10:00:00"
                        (Answer (Samples.json_200
                                   [("error", Str "No <face> detected")])))
                     Samples.fresh)
     = []
  /\ resultBox (run (Fixed.sendToBackend Samples.engine "jpeg" "10:00:00"
                       (Answer (Samples.json_200
                                  [("error", Obj [("toString", Num 1)])])))
                    Samples.fresh)
     = InnerText "Detection failed. Is backend running? See console for details.".
Proof.
  destruct (proj1 (truthy_error_is_surfaced Samples.engine "jpeg" "10:00:00"
                     (Samples.json_200 [("error", Str "No <face> detected")])
                     (Obj [("error", Str "No <face> detected")]) Samples.fresh
                     eq_refl eq_refl eq_refl) eq_refl)
    as [_ [L [B _]]].
  destruct (proj1 (truthy_error_is_surfaced Samples.engine "jpeg" "10:00:00"
                     (Samples.json_200 [("error", Obj [("toString", Num 1)])])
                     (Obj [("error", Obj [("toString", Num 1)])]) Samples.fresh
                     eq_refl eq_refl eq_refl) eq_refl)
    as [_ [_ [_ T]]].
  exact (conj (B "No <face> detected" eq_refl) (conj L (T eq_refl))).
Defined.

(** C6 as stated fails twice: in [app-fixed.js] an [error] field that is
    the empty string is passed over, and [app.js] never looks at the field;
    either way the result is rendered and an entry appended. *)
Lemma truthy_error_is_surfaced_counterexample :
  (let p' :=
     run (Fixed.sendToBackend Samples.engine "jpeg" "10:00:00"
            (Answer (Samples.json_200 [("error", Str "");
                                       ("prediction", Str "real");
                                       ("confidence", Num (1 # 2))])))
         Samples.fresh in
   resultBox p'
   = InnerHTML
       (nl ++ "      <div><strong>Prediction:</strong> REAL</div>"
        ++ nl ++ "      <div><strong>Confidence:</strong> 50.0%</div>"
        ++ nl ++ "      <div><strong>Processing time:</strong> N/A ms</div>"
        ++ nl ++ "    ")
   /\ List.length (recentList p') = 1%nat)
  /\ (let p' :=
        run (Pages.sendToBackend Samples.engine "jpeg"
               (Answer (Samples.json_200 [("error", Str "No face detected")])))
            Samples.fresh in
      resultBox p'
      = InnerHTML (nl ++ "      <div><b>Prediction:</b> UNKNOWN</div>"
                   ++ nl ++ "      <div><b>Confidence:</b> 0%</div>"
                   ++ nl ++ "      <div><b>Time:</b> N/A ms</div>"
                   ++ nl ++ "    ")
      /\ List.length (recentList p') = 1%nat).
Proof. repeat split. Qed.

(** ** Failures and the recent list *)

(** Every run of a detection either leaves the recent list as it was or
    ends with a rendered result in the box. *)
Lemma Pages_send_cases (E : Engine) blob net (p : Page) :
  recentList (run (Pages.sendToBackend E blob net) p) = recentList p
  \/ exists label conf time,
       resultBox (run (Pages.sendToBackend E blob net) p)
       = InnerHTML (Pages.result_markup E label conf time).
Proof.
  unfold run. destruct net as [|r]; [left; reflexivity|].
  destruct (ok r) eqn:H.
  - destruct (body_json r) as [result|] eqn:J.
    + destruct (readable result) eqn:R.
      * destruct (Pages_rendering E result) as [[[label conf] time]|] eqn:L.
        -- right.
           rewrite (Pages_send_rendered E blob r result label conf time)
             by assumption.
           do 3 eexists. reflexivity.
        -- left. rewrite (Pages_send_type_error E blob r result) by auto.
           reflexivity.
      * left. rewrite (Pages_send_type_error E blob r result) by auto.
        reflexivity.
    + left. rewrite Pages_send_not_json by assumption. reflexivity.
  - left. rewrite Pages_send_status by assumption. reflexivity.
Qed.

Lemma Fixed_send_cases (E : Engine) blob now net (p : Page) :
  recentList (run (Fixed.sendToBackend E blob now net) p) = recentList p
  \/ exists label confidence timeMs,
       resultBox (run (Fixed.sendToBackend E blob now net) p)
       = InnerHTML (Fixed.result_markup E label confidence timeMs).
Proof.
  unfold run. destruct net as [|r]; [left; reflexivity|].
  destruct (ok r) eqn:H.
  - destruct (body_json r) as [result|] eqn:J.
    + destruct (readable result) eqn:R.
      * destruct (truthy (field result "error")) eqn:T.
        -- left.
           destruct (escapeHtml E (field result "error")) as [escaped|] eqn:S.
           ++ rewrite (Fixed_send_error_field E blob now r result escaped)
                by assumption.
              reflexivity.
           ++ rewrite (Fixed_send_error_throws E blob now r result)
                by assumption.
              reflexivity.
        -- destruct (Fixed_rendering E result) as [[[label c] t]|] eqn:L.
           ++ right.
              rewrite (Fixed_send_rendered E blob now r result label c t)
                by assumption.
              do 3 eexists. reflexivity.
           ++ left.
              rewrite (Fixed_send_render_throws E blob now r result)
                by assumption.
              reflexivity.
      * left. rewrite (Fixed_send_type_error E blob now r result)
          by assumption.
        reflexivity.
    + left. rewrite Fixed_send_not_json by assumption. reflexivity.
  - left. rewrite Fixed_send_status by assumption. reflexivity.
Qed.

Lemma Original_detect_cases (E : Engine) src sourceType net (p : Page) :
  recentList (run (Original.autoDetect E src sourceType net) p) = recentList p
  \/ exists label attack_type conf time,
       resultBox (run (Original.autoDetect E src sourceType net) p)
       = InnerHTML (Original.result_markup E label attack_type conf time).
Proof.
  unfold run. destruct net as [|r]; [left; reflexivity|].
  destruct (body_json r) as [data|] eqn:J.
  - destruct (readable data) eqn:R.
    + destruct (Original_rendering E data) as [[[[label a] conf] time]|]
        eqn:L.
      * destruct (Original_row_entry E (previewImg_src p) data) as [d|] eqn:T.
        -- right.
           rewrite (Original_detect_rendered E src sourceType r data label
                      a conf time d) by assumption.
           do 4 eexists. reflexivity.
        -- left.
           rewrite (Original_detect_entry_throws E src sourceType r data
                      label a conf time) by assumption.
           reflexivity.
      * left. rewrite (Original_detect_type_error E src sourceType r data)
          by auto.
        reflexivity.
    + left. rewrite (Original_detect_type_error E src sourceType r data)
        by auto.
      reflexivity.
  - left. rewrite Original_detect_not_json by assumption. reflexivity.
Qed.

(** C10, as the code has it.  In all three scripts [appendRecent] runs only
    after the result was rendered: a detection that changes the recent list
    ends with the rendered result in the box.  The list is left as it was
    when the request fails or the body is not valid JSON (all three
    scripts), when the status is not 2xx ([app-fixed.js] and [app.js]) and
    when the body has a truthy [error] field ([app-fixed.js]). *)
Theorem failures_leave_recent_list (E : Engine) (p : Page) :
  (forall blob net,
      (net = NetworkError
       \/ exists r, net = Answer r /\ (ok r = false \/ body_json r = None)) ->
      recentList (run (Pages.sendToBackend E blob net) p) = recentList p)
  /\ (forall blob now net,
      (net = NetworkError
       \/ exists r,
            net = Answer r
            /\ (ok r = false \/ body_json r = None
                \/ exists props,
                     body_json r = Some (Obj props)
                     /\ truthy (lookup "error" props) = true)) ->
      recentList (run (Fixed.sendToBackend E blob now net) p) = recentList p)
  /\ (forall src sourceType net,
      (net = NetworkError \/ exists r, net = Answer r /\ body_json r = None) ->
      recentList (run (Original.autoDetect E src sourceType net) p)
      = recentList p)
  /\ (forall blob net,
      recentList (run (Pages.sendToBackend E blob net) p) <> recentList p ->
      exists label conf time,
        resultBox (run (Pages.sendToBackend E blob net) p)
        = InnerHTML (Pages.result_markup E label conf time))
  /\ (forall blob now net,
      recentList (run (Fixed.sendToBackend E blob now net) p) <> recentList p ->
      exists label confidence timeMs,
        resultBox (run (Fixed.sendToBackend E blob now net) p)
        = InnerHTML (Fixed.result_markup E label confidence timeMs))
  /\ (forall src sourceType net,
      recentList (run (Original.autoDetect E src sourceType net) p)
      <> recentList p ->
      exists label attack_type conf time,
        resultBox (run (Original.autoDetect E src sourceType net) p)
        = InnerHTML (Original.result_markup E label attack_type conf time)).
Proof.
  repeat split.
  - intros blob net [-> | [r [-> [H | J]]]]; unfold run.
    + reflexivity.
    + rewrite Pages_send_status by assumption. reflexivity.
    + destruct (ok r) eqn:H.
      * rewrite Pages_send_not_json by assumption. reflexivity.
      * rewrite Pages_send_status by assumption. reflexivity.
  - intros blob now net [-> | [r [-> [H | [J | [props [J T]]]]]]]; unfold run.
    + reflexivity.
    + rewrite Fixed_send_status by assumption. reflexivity.
    + destruct (ok r) eqn:H.
      * rewrite Fixed_send_not_json by assumption. reflexivity.
      * rewrite Fixed_send_status by assumption. reflexivity.
    + destruct (ok r) eqn:H.
      * destruct (escapeHtml E (field (Obj props) "error")) as [escaped|]
          eqn:S.
        -- rewrite (Fixed_send_error_field E blob now r (Obj props) escaped)
             by auto.
           reflexivity.
        -- rewrite (Fixed_send_error_throws E blob now r (Obj props)) by auto.
           reflexivity.
      * rewrite Fixed_send_status by assumption. reflexivity.
  - intros src sourceType net [-> | [r [-> J]]]; unfold run.
    + reflexivity.
    + rewrite Original_detect_not_json by assumption. reflexivity.
  - intros blob net N.
    destruct (Pages_send_cases E blob net p); [contradiction | assumption].
  - intros blob now net N.
    destruct (Fixed_send_cases E blob now net p); [contradiction | assumption].
  - intros src sourceType net N.
    destruct (Original_detect_cases E src sourceType net p);
      [contradiction | assumption].
Qed.

Lemma failures_leave_recent_list_witness :
  recentList (run (Pages.sendToBackend Samples.engine "jpeg"
                     (Answer Samples.internal_server_error)) Samples.fresh)
  = []
  /\ recentList (run (Fixed.sendToBackend Samples.engine "jpeg" "10:00:00"
                        (Answer (Samples.json_200
                                   [("error", Str "No face detected")])))
                     Samples.fresh)
     = []
  /\ recentList (run (Original.autoDetect Samples.engine "data:," "upload"
                        NetworkError) Samples.fresh)
     = [].
Proof.
  destruct (failures_leave_recent_list Samples.engine Samples.fresh)
    as [P [F [O _]]].
  split; [|split].
  - apply P. right. exists Samples.internal_server_error.
    split; [reflexivity | left; reflexivity].
  - apply F. right.
    exists (Samples.json_200 [("error", Str "No face detected")]).
    split; [reflexivity|]. right. right.
    exists [("error", Str "No face detected")]. split; reflexivity.
  - apply O. left. reflexivity.
Defined.

(** C10 as stated fails three times: [app-fixed.js] appends an entry for
    a 2xx body whose [error] field is the empty string, [app.js] for a 2xx
    body that only holds an [error] message, and the original script for a
    500 whose body is a well-formed detection. *)
Lemma failures_leave_recent_list_counterexample :
  recentList Samples.fresh = []
  /\ List.length
       (recentList (run (Fixed.sendToBackend Samples.engine "jpeg" "10:00:00"
                           (Answer (Samples.json_200
                                      [("error", Str "");
                                       ("prediction", Str "real");
                                       ("confidence", Num (1 # 2))])))
                        Samples.fresh)) = 1%nat
  /\ List.length
       (recentList (run (Pages.sendToBackend Samples.engine "jpeg"
                           (Answer (Samples.json_200
                                      [("error", Str "No face detected")])))
                        Samples.fresh)) = 1%nat
  /\ ok (Samples.json_response 500 Samples.row) = false
  /\ List.length
       (recentList (run (Original.autoDetect Samples.engine "data:," "upload"
                           (Answer (Samples.json_response 500 Samples.row)))
                        Samples.fresh)) = 1%nat.
Proof. repeat split. Qed.

(** ** What [escapeHtml] guarantees *)

Lemma escape_app (a b : string) : escape (a ++ b) = escape a ++ escape b.
Proof.
  induction a as [|c a IH]; simpl; [reflexivity|].
  rewrite IH.
  generalize (escape_char c) as x. intros x.
  induction x as [|d x IHx]; simpl; [reflexivity | rewrite IHx; reflexivity].
Qed.

Lemma escape_char_cases (c : ascii) :
  (kept_char c = true /\ escape_char c = String c EmptyString)
  \/ (kept_char c = false
      /\ (c = "&"%char /\ escape_char c = "&amp;"
          \/ c = "<"%char /\ escape_char c = "&lt;"
          \/ c = ">"%char /\ escape_char c = "&gt;"
          \/ c = quote /\ escape_char c = "&quot;"
          \/ c = "'"%char /\ escape_char c = "&#39;")).
Proof.
  unfold kept_char, escape_char.
  destruct (Ascii.eqb_spec c "&"); [subst; right; split; auto|].
  destruct (Ascii.eqb_spec c "<"); [subst; right; split; auto|].
  destruct (Ascii.eqb_spec c ">"); [subst; right; split; auto|].
  destruct (Ascii.eqb_spec c quote);
    [subst; right; split; [reflexivity | do 3 right; left; split; reflexivity]|].
  destruct (Ascii.eqb_spec c "'");
    [subst; right; split; [reflexivity | do 4 right; split; reflexivity]|].
  left. split; reflexivity.
Qed.

(** X1.  [escapeHtml] throws exactly when [String] throws on its argument,
    so never on a text; and whatever it is given, the text it returns has
    no [<], [>], double or single quote, and every ampersand in it starts
    one of the five entities it writes. *)
Theorem escapeHtml_returns_inert_text (E : Engine) (v : value) :
  (escapeHtml E v = None <-> ToString E v = None)
  /\ (forall s, escapeHtml E (Str s) = Some (escape s))
  /\ (forall escaped,
        escapeHtml E v = Some escaped ->
        markup_chars escaped = 0%nat
        /\ ampersands_start_entities escaped = true).
Proof.
  split; [|split; [reflexivity|]].
  { unfold escapeHtml. destruct (ToString E v); split; intros H;
      try discriminate; reflexivity. }
  intros escaped.
  unfold escapeHtml. destruct (ToString E v) as [s|]; [|discriminate].
  intros H. injection H as <-. split.
  - induction s as [|c s IH]; simpl; [reflexivity|].
    rewrite markup_chars_app, IH.
    destruct (escape_char_cases c)
      as [[K ->] | [_ [[-> ->] | [[-> ->] | [[-> ->] | [[-> ->] | [-> ->]]]]]]];
      try reflexivity.
    simpl. unfold kept_char in K. unfold is_markup_char.
    destruct (Ascii.eqb c "&"); [discriminate|].
    destruct (Ascii.eqb c "<"); [discriminate|].
    destruct (Ascii.eqb c ">"); [discriminate|].
    destruct (Ascii.eqb c quote); [discriminate|].
    destruct (Ascii.eqb c "'"); [discriminate|]. reflexivity.
  - induction s as [|c s IH]; simpl; [reflexivity|].
    destruct (escape_char_cases c)
      as [[K ->] | [_ [[-> ->] | [[-> ->] | [[-> ->] | [[-> ->] | [-> ->]]]]]]];
      simpl; rewrite ?IH; try reflexivity;
      try (unfold entity_follows; simpl; reflexivity).
    unfold kept_char in K.
    destruct (Ascii.eqb c "&"); [discriminate | reflexivity].
Qed.

Lemma escapeHtml_returns_inert_text_witness :
  escapeHtml Samples.engine (Arr [Str "<b>"; Null; Str "R&D"])
  = Some "&lt;b&gt;,,R&amp;D"
  /\ markup_chars "&lt;b&gt;,,R&amp;D" = 0%nat
  /\ ampersands_start_entities "&lt;b&gt;,,R&amp;D" = true.
Proof.
  split; [reflexivity|].
  exact (proj2 (proj2 (escapeHtml_returns_inert_text Samples.engine
                         (Arr [Str "<b>"; Null; Str "R&D"])))
           "&lt;b&gt;,,R&amp;D" eq_refl).
Defined.

Lemma unescape_escape (s : string) : unescape_from 0 (escape s) = s.
Proof.
  induction s as [|c s IH]; simpl; [reflexivity|].
  destruct (escape_char_cases c)
    as [[K ->] | [_ [[-> ->] | [[-> ->] | [[-> ->] | [[-> ->] | [-> ->]]]]]]];
    simpl; rewrite ?IH; try reflexivity.
  unfold kept_char in K.
  destruct (Ascii.eqb c "&"); [discriminate|]. rewrite ?IH. reflexivity.
Qed.

(** X2.  Escaping loses nothing: two texts that escape to the same text are
    the same text. *)
Theorem escape_is_injective (s t : string) : escape s = escape t -> s = t.
Proof.
  intros H. rewrite <- (unescape_escape s), <- (unescape_escape t), H.
  reflexivity.
Qed.

Lemma escape_is_injective_witness :
  escape "a<b" = escape "a<b" /\ "a<b" = "a<b".
Proof.
  split; [reflexivity|].
  apply (escape_is_injective "a<b" "a<b"). reflexivity.
Defined.

Lemma escape_length (s : string) :
  (String.length s <= String.length (escape s))%nat
  /\ (plain s = false -> String.length s < String.length (escape s))%nat.
Proof.
  assert (L : forall a b, String.length (a ++ b)
                          = (String.length a + String.length b)%nat).
  { induction a as [|d a IHa]; simpl; intros; [reflexivity|].
    rewrite IHa. reflexivity. }
  induction s as [|c s [IH1 IH2]]; simpl; [split; [lia | discriminate]|].
  rewrite L.
  destruct (escape_char_cases c)
    as [[K ->] | [K [[_ ->] | [[_ ->] | [[_ ->] | [[_ ->] | [_ ->]]]]]]];
    rewrite K; simpl; split; try lia; intros P; specialize (IH2 P); lia.
Qed.

(** X3.  A text is returned as it is exactly when it holds none of the five
    characters: for instance a plain-text error body is shown verbatim. *)
Theorem escape_keeps_plain_text (s : string) :
  plain s = true <-> escape s = s.
Proof.
  split.
  - induction s as [|c s IH]; simpl; [reflexivity|].
    intros H. apply andb_prop in H. destruct H as [K P].
    destruct (escape_char_cases c) as [[_ ->] | [K' _]]; [|congruence].
    simpl. rewrite IH by assumption. reflexivity.
  - intros H. destruct (plain s) eqn:P; [reflexivity|].
    pose proof (proj2 (escape_length s) P) as L. rewrite H in L. lia.
Qed.

(** ** The recent list over many insertions *)

Lemma firstn_app_firstn {A : Type} (n : nat) (a b : list A) :
  firstn n (a ++ firstn n b) = firstn n (a ++ b).
Proof.
  rewrite !firstn_app, firstn_firstn. f_equal. f_equal. lia.
Qed.

Lemma Pages_insertions_list (E : Engine)
    (l : list (string * number * string)) (p : Page) :
  (List.length (recentList p) <= 10)%nat ->
  recentList (Pages_insertions E l p)
  = firstn 10 (rev (map (fun '(label, conf, imgSrc) =>
                           Pages.recent_entry E label conf imgSrc) l)
               ++ recentList p).
Proof.
  revert p. induction l as [|[[label conf] imgSrc] rest IH]; intros p H.
  - unfold Pages_insertions. cbn [fold_left map rev app].
    symmetry. apply firstn_all2, H.
  - unfold Pages_insertions in *. cbn [fold_left map rev].
    rewrite IH by apply (later_scripts_bound_the_list E p).
    rewrite Pages_appendRecent_list, firstn_app_firstn, <- app_assoc.
    reflexivity.
Qed.

Lemma Fixed_insertions_list (E : Engine) (l : list (Fixed.Item * string))
    (p : Page) :
  (List.length (recentList p) <= 10)%nat ->
  recentList (Fixed_insertions E l p)
  = firstn 10 (rev (map (fun '(item, imgSrc) =>
                           Fixed.recent_entry E item imgSrc) l)
               ++ recentList p).
Proof.
  revert p. induction l as [|[item imgSrc] rest IH]; intros p H.
  - unfold Fixed_insertions. cbn [fold_left map rev app].
    symmetry. apply firstn_all2, H.
  - unfold Fixed_insertions in *. cbn [fold_left map rev].
    rewrite IH by apply (later_scripts_bound_the_list E p).
    rewrite Fixed_appendRecent_list, firstn_app_firstn, <- app_assoc.
    reflexivity.
Qed.

(** X4.  In [app.js] and in [app-fixed.js], after any number of insertions
    into a list of at most ten entries, the recent list is the first ten of:
    the inserted entries, the last inserted first, followed by the entries
    that were there.  So it never holds more than ten, the newest entry is
    on top, and what is evicted is always the oldest. *)
Theorem recent_list_is_the_ten_newest (E : Engine) (p : Page) :
  (List.length (recentList p) <= 10)%nat ->
  (forall l,
      recentList (Pages_insertions E l p)
      = firstn 10 (rev (map (fun '(label, conf, imgSrc) =>
                               Pages.recent_entry E label conf imgSrc) l)
                   ++ recentList p))
  /\ (forall l,
      recentList (Fixed_insertions E l p)
      = firstn 10 (rev (map (fun '(item, imgSrc) =>
                               Fixed.recent_entry E item imgSrc) l)
                   ++ recentList p)).
Proof.
  intros H. split; intros l.
  - apply Pages_insertions_list, H.
  - apply Fixed_insertions_list, H.
Qed.

Lemma recent_list_is_the_ten_newest_witness :
  recentList
    (Pages_insertions Samples.engine
       (map (fun n => (show_Z (Z.of_nat n), Fin 1, "blob:1"))
            (seq 1 12)) Samples.fresh)
  = map (fun n => Pages.recent_entry Samples.engine (show_Z (Z.of_nat n))
                    (Fin 1) "blob:1")
        (rev (seq 3 10)).
Proof.
  rewrite (proj1 (recent_list_is_the_ten_newest Samples.engine Samples.fresh
                    (Nat.le_0_l 10))).
  reflexivity.
Defined.

(** ** The logs of the original script *)

Lemma Original_row_appended (E : Engine) (item : value) (p : Page) :
  Original.appendRecent E item p
  = match Original_row_entry E (previewImg_src p) item with
    | Some d => (Some tt, set_recentList (d :: recentList p) p)
    | None => (None, p)
    end.
Proof.
  destruct (Original_row_entry E (previewImg_src p) item) as [d|] eqn:D.
  - apply Original_appendRecent_prepends; assumption.
  - apply Original_appendRecent_throws; assumption.
Qed.

Lemma Original_forEach_rows (E : Engine) (rows : list value) (p : Page) :
  snd (Original.forEach (Original.appendRecent E) rows p)
  = set_recentList
      (rev (shown_rows E (previewImg_src p) rows) ++ recentList p)%list p.
Proof.
  revert p. induction rows as [|item rest IH]; intros p.
  - destruct p; reflexivity.
  - cbn [Original.forEach shown_rows]. unfold bind.
    rewrite Original_row_appended.
    destruct (Original_row_entry E (previewImg_src p) item) as [d|].
    + rewrite IH. cbn [rev previewImg_src set_recentList recentList].
      rewrite <- app_assoc. reflexivity.
    + destruct p; reflexivity.
Qed.

(** X5.  When the logs arrive as a JSON body whose [rows] is an array, the
    original script puts the rows on top of the recent list in the reverse
    of the order of the response (each is prepended in turn), up to the
    first row [appendRecent] throws on (a [null] row, a truthy image path
    that is not a string, a prediction that is not a string, a value that
    has no text): that row and the rows after it are dropped in silence.
    Nothing is evicted. *)
Theorem logs_are_listed_in_reverse (E : Engine) (r : Response) (j : value)
    (rows : list value) (p : Page) :
  body_json r = Some j -> field j "rows" = Arr rows ->
  returns (Original.loadRecent E (Answer r)) p = true
  /\ recentList (run (Original.loadRecent E (Answer r)) p)
     = (rev (shown_rows E (previewImg_src p) rows) ++ recentList p)%list
  /\ resultBox (run (Original.loadRecent E (Answer r)) p) = resultBox p.
Proof.
  intros J F.
  assert (R : readable j = true)
    by (apply (field_readable j "rows" (Arr rows)); congruence).
  unfold Original.loadRecent. handler_simpl. handler_rewrite J.
  rewrite (get_readable j) by assumption. handler_simpl. rewrite F.
  match goal with
  | |- context [Original.forEach ?f ?l ?q] =>
      pose proof (Original_forEach_rows E l q) as S;
      destruct (Original.forEach f l q) as [[[]|] q']
  end; cbn [snd] in S; subst q'; repeat split.
Qed.

Lemma logs_are_listed_in_reverse_witness :
  body_json (Samples.json_200
               [("rows", Arr [Samples.row; unprintable_row; Samples.row])])
  = Some (Obj [("rows", Arr [Samples.row; unprintable_row; Samples.row])])
  /\ List.length
       (recentList
          (run (Original.loadRecent Samples.engine
                  (Answer (Samples.json_200
                             [("rows",
                               Arr [Samples.row; unprintable_row;
                                    Samples.row])])))
               Samples.fresh)) = 1%nat.
Proof.
  split; [reflexivity|].
  rewrite (proj1 (proj2 (logs_are_listed_in_reverse Samples.engine
                           (Samples.json_200
                              [("rows", Arr [Samples.row; unprintable_row;
                                             Samples.row])])
                           (Obj [("rows",
                                  Arr [Samples.row; unprintable_row;
                                       Samples.row])])
                           [Samples.row; unprintable_row; Samples.row]
                           Samples.fresh eq_refl eq_refl))).
  reflexivity.
Defined.

(** X6.  A failed load of the logs is silent in the original script:
    whatever the network answers, the loader returns without throwing,
    alerts nothing and writes neither the result box, the status line, the
    preview nor the camera's state; and when the request fails, the body is
    not JSON, or its [rows] is not an array, the recent list is left as it
    was too. *)
Theorem failed_logs_are_silent (E : Engine) (net : fetch_outcome) (p : Page) :
  returns (Original.loadRecent E net) p = true
  /\ resultBox (run (Original.loadRecent E net) p) = resultBox p
  /\ modelStatus (run (Original.loadRecent E net) p) = modelStatus p
  /\ previewImg_src (run (Original.loadRecent E net) p) = previewImg_src p
  /\ video_srcObject (run (Original.loadRecent E net) p) = video_srcObject p
  /\ startBtn_disabled (run (Original.loadRecent E net) p)
     = startBtn_disabled p
  /\ count is_alert (trace (run (Original.loadRecent E net) p))
     = count is_alert (trace p)
  /\ (net = NetworkError
      \/ (exists r, net = Answer r
                    /\ (body_json r = None
                        \/ exists j, body_json r = Some j
                                     /\ (forall rows,
                                            field j "rows" <> Arr rows))) ->
      recentList (run (Original.loadRecent E net) p) = recentList p).
Proof.
  assert (Ret : returns (Original.loadRecent E net) p = true).
  { unfold returns, Original.loadRecent, try_catch, ret.
    destruct (bind _ _ p) as [[[]|] q]; reflexivity. }
  destruct (Original_loadRecent_frame E net p) as [l [t [H Ht]]].
  rewrite H. split; [exact Ret|].
  do 5 (split; [destruct Ht as [-> | ->]; reflexivity|]).
  split.
  - destruct Ht as [-> | ->]; cbn [fold_left trace set_recentList];
      rewrite ?count_log; cbn; lia.
  - rewrite <- H. clear H Ht l t.
    intros [-> | [r [-> [J | [j [J N]]]]]]; unfold Original.loadRecent;
      handler_simpl.
    + reflexivity.
    + handler_rewrite J. reflexivity.
    + handler_rewrite J. destruct (readable j) eqn:R.
      * rewrite (get_readable j) by assumption. handler_simpl.
        destruct (field j "rows") as [| | | | | |rows] eqn:F;
          try reflexivity.
        exfalso. apply (N rows). reflexivity.
      * rewrite (get_unreadable j) by assumption. reflexivity.
Qed.

(** ** One request for every detection *)

(** X7.  A detection sends exactly one request, whatever comes back: the
    two later scripts a POST of a multipart form whose field [image] holds
    the image under the file name [image.jpg], the original script a POST
    of the JSON text of [{image, source}].  Nothing is sent again after a
    failure. *)
Theorem one_request_per_detection (E : Engine) (net : fetch_outcome)
    (p : Page) :
  (forall blob,
      filter is_fetch (trace (run (Pages.sendToBackend E blob net) p))
      = (filter is_fetch (trace p)
         ++ [Fetch "POST" Pages.DETECT_ENDPOINT
                   (Some (FormData "image" blob "image.jpg"))])%list)
  /\ (forall blob now,
      filter is_fetch (trace (run (Fixed.sendToBackend E blob now net) p))
      = (filter is_fetch (trace p)
         ++ [Fetch "POST" Fixed.DETECT_ENDPOINT
                   (Some (FormData "image" blob "image.jpg"))])%list)
  /\ (forall src sourceType,
      filter is_fetch
        (trace (run (Original.autoDetect E src sourceType net) p))
      = (filter is_fetch (trace p)
         ++ [Fetch "POST" Original.DETECT_URL
                   (Some (TextBody
                            (JSON_stringify E
                               (Obj [("image", Str src);
                                     ("source", Str sourceType)]))))])%list).
Proof.
  split; [|split]; intros.
  - destruct (Pages_send_shape E blob net p) as [c [l [t [S [Q _]]]]].
    unfold run. rewrite S. cbn [snd trace set_recentList set_resultBox].
    rewrite trace_logged, filter_app, (quiet_filter _ t quiet_not_fetch Q).
    cbn [trace log]. rewrite filter_app, app_nil_r. reflexivity.
  - destruct (Fixed_send_shape E blob now net p) as [c [l [t [S [Q _]]]]].
    unfold run. rewrite S. cbn [snd trace set_recentList set_resultBox].
    rewrite trace_logged, filter_app, (quiet_filter _ t quiet_not_fetch Q).
    cbn [trace log]. rewrite filter_app, app_nil_r. reflexivity.
  - destruct (Original_detect_shape E src sourceType net p)
      as [c [l [t [S [Q _]]]]].
    unfold run. rewrite S. cbn [snd trace set_recentList set_resultBox].
    rewrite trace_logged, filter_app, (quiet_filter _ t quiet_not_fetch Q).
    cbn [trace log]. rewrite filter_app, app_nil_r. reflexivity.
Qed.

(** X8.  In [app-fixed.js] no response can bring markup of its own into the
    result box: whatever the network answers, the box is either written
    through [innerText] or holds exactly the tag and quote characters of one
    of the three templates (6 for an error field, 12 for a failed status,
    24 for a result). *)
Theorem fixed_result_box_takes_no_markup (E : Engine) (blob : Blob)
    (now : string) (net : fetch_outcome) (p : Page) :
  (content_markup (resultBox (run (Fixed.sendToBackend E blob now net) p))
   = 0
   \/ content_markup (resultBox (run (Fixed.sendToBackend E blob now net) p))
      = 6
   \/ content_markup (resultBox (run (Fixed.sendToBackend E blob now net) p))
      = 12
   \/ content_markup (resultBox (run (Fixed.sendToBackend E blob now net) p))
      = 24)%nat.
Proof.
  destruct (Fixed_send_shape E blob now net p) as [c [l [t [S [_ [_ [_ M]]]]]]].
  unfold run. rewrite S. exact M.
Qed.

(** ** Sessions *)

Lemma logged_video (t : list event) (p : Page) :
  video_srcObject (logged t p) = video_srcObject p.
Proof.
  revert p. unfold logged.
  induction t as [|e t IH]; intros p; cbn [fold_left]; [reflexivity|].
  rewrite IH. reflexivity.
Qed.

Lemma logged_disabled (t : list event) (p : Page) :
  startBtn_disabled (logged t p) = startBtn_disabled p.
Proof.
  revert p. unfold logged.
  induction t as [|e t IH]; intros p; cbn [fold_left]; [reflexivity|].
  rewrite IH. reflexivity.
Qed.

Lemma logged_preview (t : list event) (p : Page) :
  previewImg_src (logged t p) = previewImg_src p.
Proof.
  revert p. unfold logged.
  induction t as [|e t IH]; intros p; cbn [fold_left]; [reflexivity|].
  rewrite IH. reflexivity.
Qed.

Lemma logged_status (t : list event) (p : Page) :
  modelStatus (logged t p) = modelStatus p.
Proof.
  revert p. unfold logged.
  induction t as [|e t IH]; intros p; cbn [fold_left]; [reflexivity|].
  rewrite IH. reflexivity.
Qed.

Lemma logged_list (t : list event) (p : Page) :
  recentList (logged t p) = recentList p.
Proof.
  revert p. unfold logged.
  induction t as [|e t IH]; intros p; cbn [fold_left]; [reflexivity|].
  rewrite IH. reflexivity.
Qed.

Lemma count_app (f : event -> bool) (a b : list event) :
  count f (a ++ b) = (count f a + count f b)%nat.
Proof. unfold count. rewrite filter_app, length_app. reflexivity. Qed.

Lemma count_quiet (t : list event) :
  forallb quiet t = true ->
  count is_fetch t = 0%nat /\ count is_capture t = 0%nat
  /\ count is_alert t = 0%nat.
Proof.
  intros Q. unfold count.
  rewrite (quiet_filter _ t quiet_not_fetch Q),
    (quiet_filter _ t quiet_not_capture Q),
    (quiet_filter _ t quiet_not_alert Q).
  repeat split.
Qed.

Lemma count_quiet_frames (t : list event) :
  forallb quiet t = true -> count empty_frame t = 0%nat.
Proof.
  intros Q. unfold count.
  rewrite (quiet_filter _ t quiet_not_empty_frame Q). reflexivity.
Qed.

Lemma drawn_frame_is_not_empty (width height : Z) :
  empty_frame (DrawImage (if (width =? 0)%Z then 640%Z else width)
                         (if (height =? 0)%Z then 480%Z else height))
  = false.
Proof.
  cbn [empty_frame].
  destruct (width =? 0)%Z eqn:W; destruct (height =? 0)%Z eqn:H;
    rewrite ?W, ?H; reflexivity.
Qed.

(** What one action does to a page, in each of the three scripts: the
    events it adds, the fields it leaves alone, and how far the recent list
    can move. *)
Lemma handle_step (s : script) (E : Engine) (a : action) (p : Page) :
  exists t,
    trace (run (handle s E a) p) = (trace p ++ t)%list
    /\ modelStatus (run (handle s E a) p) = modelStatus p
    /\ match granted a with
       | Some stream =>
           video_srcObject (run (handle s E a) p) = Some stream
           /\ startBtn_disabled (run (handle s E a) p) = true
       | None =>
           video_srcObject (run (handle s E a) p) = video_srcObject p
           /\ startBtn_disabled (run (handle s E a) p) = startBtn_disabled p
       end
    /\ (count is_capture t <= count is_fetch t)%nat
    /\ (count is_fetch t <= 1)%nat
    /\ (count is_capture t = 1%nat ->
        s = original \/ video_srcObject p <> None)
    /\ (count is_alert t <= 1)%nat
    /\ (recentList (run (handle s E a) p) = recentList p
        \/ count is_fetch t = 1%nat
           /\ exists d,
                recentList (run (handle s E a) p)
                = match s with
                  | original => d :: recentList p
                  | _ => firstn 10 (d :: recentList p)
                  end).
Proof.
  destruct a as [[stream|] | width height frame preview now net
                | [file|] preview now net].
  - (* a granted start *)
    exists [GetUserMedia].
    destruct s; cbn -[count]; repeat split; cbn; try lia;
      try (left; reflexivity); discriminate.
  - (* a refused start *)
    destruct s;
      [ exists [GetUserMedia; Alert "Camera access denied or unavailable."]
      | eexists [GetUserMedia; Alert _; ConsoleError ""]
      | eexists [GetUserMedia; Alert _; ConsoleError ""] ].
    all: cbn -[count]; repeat split; cbn; try lia;
      try (left; repeat split; reflexivity); try discriminate.
    all: rewrite <- ?app_assoc; reflexivity.
  - (* a snap *)
    destruct s; cbn [handle].
    + unfold Original.snapBtn_onclick, run. handler_simpl.
      match goal with
      | |- context [Original.autoDetect E ?src ?ty ?n ?q] =>
          destruct (Original_detect_shape E src ty n q)
            as [c [l [t [S [Q [L A]]]]]]; rewrite S
      end.
      destruct (count_quiet t Q) as [Qf [Qc Qa]].
      eexists (DrawImage width height :: Original_request E frame "camera"
                 :: t).
      cbn [snd trace set_recentList set_resultBox set_preview recentList
           modelStatus video_srcObject startBtn_disabled].
      rewrite trace_logged. cbn [trace log set_resultBox set_preview].
      rewrite <- !app_assoc. cbn [app].
      split; [reflexivity|].
      rewrite ?logged_video, ?logged_disabled, ?logged_status, ?logged_list. cbn [modelStatus video_srcObject
        startBtn_disabled log set_resultBox set_preview].
      change (DrawImage width height :: Original_request E frame "camera" :: t)
        with ([DrawImage width height; Original_request E frame "camera"]
              ++ t)%list.
      rewrite !count_app, Qf, Qc, Qa. cbn.
      repeat split; try lia; auto.
      destruct L as [-> | [d ->]]; [left; reflexivity|].
      right. split; [reflexivity|]. exists d. reflexivity.
    + unfold Fixed.snapBtn_onclick, run. handler_simpl.
      destruct (video_srcObject p) as [st|] eqn:V.
      * handler_simpl.
        match goal with
        | |- context [Fixed.sendToBackend E ?b ?w ?n ?q] =>
            destruct (Fixed_send_shape E b w n q)
              as [c [l [t [S [Q [L A]]]]]]; rewrite S
        end.
        destruct (count_quiet t Q) as [Qf [Qc Qa]].
        eexists (DrawImage _ _ :: Fixed_request frame :: t).
        cbn [snd trace set_recentList set_resultBox set_preview recentList
             modelStatus video_srcObject startBtn_disabled].
        rewrite trace_logged. cbn [trace log set_resultBox set_preview].
        rewrite <- !app_assoc. cbn [app].
        split; [reflexivity|].
        rewrite ?logged_video, ?logged_disabled, ?logged_status, ?logged_list. cbn [modelStatus video_srcObject
          startBtn_disabled log set_resultBox set_preview].
        match goal with
        | |- context [DrawImage ?w ?h :: Fixed_request frame :: t] =>
            change (DrawImage w h :: Fixed_request frame :: t)
              with ([DrawImage w h; Fixed_request frame] ++ t)%list
        end.
        rewrite !count_app, Qf, Qc, Qa. cbn.
        repeat split; try lia; auto.
        -- intros _. right. congruence.
        -- destruct L as [-> | [d ->]]; [left; reflexivity|].
           right. split; [reflexivity|]. exists d. reflexivity.
      * handler_simpl. exists []. rewrite app_nil_r. cbn.
        repeat split; try lia; auto; discriminate.
    + unfold Pages.snapBtn_onclick, run. handler_simpl.
      destruct (video_srcObject p) as [st|] eqn:V.
      * handler_simpl.
        match goal with
        | |- context [Pages.sendToBackend E ?b ?n ?q] =>
            destruct (Pages_send_shape E b n q)
              as [c [l [t [S [Q [L A]]]]]]; rewrite S
        end.
        destruct (count_quiet t Q) as [Qf [Qc Qa]].
        eexists (DrawImage _ _ :: Pages_request frame :: t).
        cbn [snd trace set_recentList set_resultBox set_preview recentList
             modelStatus video_srcObject startBtn_disabled].
        rewrite trace_logged. cbn [trace log set_resultBox set_preview].
        rewrite <- !app_assoc. cbn [app].
        split; [reflexivity|].
        rewrite ?logged_video, ?logged_disabled, ?logged_status, ?logged_list. cbn [modelStatus video_srcObject
          startBtn_disabled log set_resultBox set_preview].
        match goal with
        | |- context [DrawImage ?w ?h :: Pages_request frame :: t] =>
            change (DrawImage w h :: Pages_request frame :: t)
              with ([DrawImage w h; Pages_request frame] ++ t)%list
        end.
        rewrite !count_app, Qf, Qc, Qa. cbn.
        repeat split; try lia; auto.
        -- intros _. right. congruence.
        -- destruct L as [-> | [d ->]]; [left; reflexivity|].
           right. split; [reflexivity|]. exists d. reflexivity.
      * handler_simpl. exists []. rewrite app_nil_r. cbn.
        repeat split; try lia; auto; discriminate.
  - (* a file was chosen *)
    destruct s; cbn [handle].
    + unfold Original.uploadInput_onchange, run. handler_simpl.
      match goal with
      | |- context [Original.autoDetect E ?src ?ty ?n ?q] =>
          destruct (Original_detect_shape E src ty n q)
            as [c [l [t [S [Q [L A]]]]]]; rewrite S
      end.
      destruct (count_quiet t Q) as [Qf [Qc Qa]].
      eexists (Original_request E preview "upload" :: t).
      cbn [snd trace set_recentList set_resultBox set_preview recentList
           modelStatus video_srcObject startBtn_disabled].
      rewrite trace_logged. cbn [trace log set_resultBox set_preview].
      rewrite <- !app_assoc. cbn [app].
      split; [reflexivity|].
      rewrite ?logged_video, ?logged_disabled, ?logged_status, ?logged_list. cbn [modelStatus video_srcObject
        startBtn_disabled log set_resultBox set_preview].
      change (Original_request E preview "upload" :: t)
        with ([Original_request E preview "upload"] ++ t)%list.
      rewrite !count_app, Qf, Qc, Qa. cbn.
      repeat split; try lia; auto; try discriminate.
      destruct L as [-> | [d ->]]; [left; reflexivity|].
      right. split; [reflexivity|]. exists d. reflexivity.
    + unfold Fixed.uploadInput_onchange, run. handler_simpl.
      match goal with
      | |- context [Fixed.sendToBackend E ?b ?w ?n ?q] =>
          destruct (Fixed_send_shape E b w n q)
            as [c [l [t [S [Q [L A]]]]]]; rewrite S
      end.
      destruct (count_quiet t Q) as [Qf [Qc Qa]].
      eexists (Fixed_request file :: t).
      cbn [snd trace set_recentList set_resultBox set_preview recentList
           modelStatus video_srcObject startBtn_disabled].
      rewrite trace_logged. cbn [trace log set_resultBox set_preview].
      rewrite <- !app_assoc. cbn [app].
      split; [reflexivity|].
      rewrite ?logged_video, ?logged_disabled, ?logged_status, ?logged_list. cbn [modelStatus video_srcObject
        startBtn_disabled log set_resultBox set_preview].
      change (Fixed_request file :: t) with ([Fixed_request file] ++ t)%list.
      rewrite !count_app, Qf, Qc, Qa. cbn.
      repeat split; try lia; auto; try discriminate.
      destruct L as [-> | [d ->]]; [left; reflexivity|].
      right. split; [reflexivity|]. exists d. reflexivity.
    + unfold Pages.uploadInput_onchange, run. handler_simpl.
      match goal with
      | |- context [Pages.sendToBackend E ?b ?n ?q] =>
          destruct (Pages_send_shape E b n q)
            as [c [l [t [S [Q [L A]]]]]]; rewrite S
      end.
      destruct (count_quiet t Q) as [Qf [Qc Qa]].
      eexists (Pages_request file :: t).
      cbn [snd trace set_recentList set_resultBox set_preview recentList
           modelStatus video_srcObject startBtn_disabled].
      rewrite trace_logged. cbn [trace log set_resultBox set_preview].
      rewrite <- !app_assoc. cbn [app].
      split; [reflexivity|].
      rewrite ?logged_video, ?logged_disabled, ?logged_status, ?logged_list. cbn [modelStatus video_srcObject
        startBtn_disabled log set_resultBox set_preview].
      change (Pages_request file :: t) with ([Pages_request file] ++ t)%list.
      rewrite !count_app, Qf, Qc, Qa. cbn.
      repeat split; try lia; auto; try discriminate.
      destruct L as [-> | [d ->]]; [left; reflexivity|].
      right. split; [reflexivity|]. exists d. reflexivity.
  - (* no file was chosen *)
    exists []. rewrite app_nil_r.
    destruct s; cbn; repeat split; try lia; auto; discriminate.
Qed.

Lemma session_cons (s : script) (E : Engine) (a : action)
    (actions : list action) (p : Page) :
  session s E (a :: actions) p = session s E actions (run (handle s E a) p).
Proof. reflexivity. Qed.

(** X9.  In [app-fixed.js] and [app.js] no frame is ever drawn on a page
    that was never granted a camera: over any sequence of clicks and file
    choices in which no start is granted, the number of drawn frames stays
    what it was and the video keeps no stream. *)
Theorem no_frame_without_a_granted_camera (s : script) (E : Engine)
    (actions : list action) (p : Page) :
  s <> original ->
  video_srcObject p = None ->
  forallb grants_nothing actions = true ->
  count is_capture (trace (session s E actions p))
  = count is_capture (trace p)
  /\ video_srcObject (session s E actions p) = None.
Proof.
  intros S. revert p.
  induction actions as [|a actions IH]; intros p V G; [split; auto|].
  cbn [forallb] in G. apply andb_prop in G. destruct G as [Ga G].
  rewrite session_cons.
  destruct (handle_step s E a p) as [t [T [_ [W [Cf [F [C _]]]]]]].
  assert (N : granted a = None)
    by (destruct a as [[st|]| |]; cbn in *; congruence).
  rewrite N in W. destruct W as [W _]. rewrite V in W.
  destruct (IH _ W G) as [IH1 IH2]. split; [|exact IH2].
  rewrite IH1, T, count_app.
  assert (count is_capture t = 0)%nat; [|lia].
  destruct (count is_capture t) as [|[|n]] eqn:K; [reflexivity| |lia].
  destruct (C eq_refl) as [?|?]; congruence.
Qed.

Lemma no_frame_without_a_granted_camera_witness :
  app_pages <> original
  /\ video_srcObject Samples.fresh = None
  /\ forallb grants_nothing refused_session = true
  /\ count is_capture
       (trace (session app_pages Samples.engine refused_session
                 Samples.fresh))
     = 0%nat.
Proof.
  assert (S : app_pages <> original) by discriminate.
  split; [exact S|]. split; [reflexivity|]. split; [reflexivity|].
  exact (proj1 (no_frame_without_a_granted_camera app_pages Samples.engine
                  refused_session Samples.fresh S eq_refl eq_refl)).
Defined.

(** X10.  In each of the three scripts, after any sequence of actions the
    video shows the stream of the last start that was granted (the one it
    had when none was), and the start button is disabled exactly when it
    was before or some start was granted: no handler releases the stream or
    enables the button again.  No action writes the model status. *)
Theorem camera_follows_the_last_grant (s : script) (E : Engine)
    (actions : list action) (p : Page) :
  video_srcObject (session s E actions p)
  = last_granted actions (video_srcObject p)
  /\ startBtn_disabled (session s E actions p)
     = (startBtn_disabled p || negb (forallb grants_nothing actions))%bool
  /\ modelStatus (session s E actions p) = modelStatus p.
Proof.
  revert p. induction actions as [|a actions IH]; intros p.
  - cbn. rewrite orb_false_r. repeat split.
  - rewrite session_cons.
    destruct (IH (run (handle s E a) p)) as [V [D M]].
    destruct (handle_step s E a p) as [t [_ [M' [W _]]]].
    rewrite V, D, M, M'. split; [|split; [|reflexivity]].
    + unfold last_granted. cbn [fold_left].
      destruct (granted a) as [st|]; destruct W as [-> _]; reflexivity.
    + cbn [forallb].
      destruct a as [[st|]| |]; cbn [granted grants_nothing] in *;
        destruct W as [_ ->]; cbn; try reflexivity.
      rewrite orb_true_r. reflexivity.
Qed.

Lemma session_step (s : script) (E : Engine) (actions : list action)
    (p : Page) :
  exists t,
    trace (session s E actions p) = (trace p ++ t)%list
    /\ (count is_capture t <= count is_fetch t)%nat
    /\ (count is_fetch t <= List.length actions)%nat
    /\ (count is_alert t <= List.length actions)%nat
    /\ (List.length (recentList (session s E actions p))
        <= List.length (recentList p) + count is_fetch t)%nat.
Proof.
  revert p. induction actions as [|a actions IH]; intros p.
  - exists []. rewrite app_nil_r. cbn. repeat split; lia.
  - rewrite session_cons.
    destruct (IH (run (handle s E a) p)) as [u [U [C [F [A L]]]]].
    destruct (handle_step s E a p) as [t [T [_ [_ [C' [F' [_ [A' L']]]]]]]].
    exists (t ++ u)%list. rewrite U, T, <- app_assoc, !count_app.
    cbn [List.length]. split; [reflexivity|]. repeat split; try lia.
    destruct L' as [L' | [K [d L']]].
    + rewrite L' in L. lia.
    + assert (List.length (recentList (run (handle s E a) p))
              <= S (List.length (recentList p)))%nat; [|lia].
      rewrite L'. destruct s; [cbn; lia| |];
        rewrite length_firstn; cbn [List.length]; lia.
Qed.

(** X11.  Over any session, in each of the three scripts: an action sends
    at most one request and shows at most one alert; every frame that is
    drawn is sent (frames drawn never exceed requests sent); and the recent
    list gains at most one entry per request sent. *)
Theorem sessions_send_what_they_draw (s : script) (E : Engine)
    (actions : list action) (p : Page) :
  (count is_fetch (trace (session s E actions p))
   <= count is_fetch (trace p) + List.length actions)%nat
  /\ (count is_alert (trace (session s E actions p))
      <= count is_alert (trace p) + List.length actions)%nat
  /\ (count is_capture (trace (session s E actions p))
      + count is_fetch (trace p)
      <= count is_fetch (trace (session s E actions p))
         + count is_capture (trace p))%nat
  /\ (List.length (recentList (session s E actions p))
      + count is_fetch (trace p)
      <= List.length (recentList p)
         + count is_fetch (trace (session s E actions p)))%nat.
Proof.
  destruct (session_step s E actions p) as [t [T [C [F [A L]]]]].
  rewrite T, !count_app. repeat split; lia.
Qed.

(** X12.  In [app-fixed.js] and [app.js] the recent list stays within ten
    entries over any session: whatever is clicked, chosen and answered, a
    list of at most ten entries is a list of at most ten entries
    afterwards. *)
Theorem sessions_keep_ten_entries (s : script) (E : Engine)
    (actions : list action) (p : Page) :
  s <> original ->
  (List.length (recentList p) <= 10)%nat ->
  (List.length (recentList (session s E actions p)) <= 10)%nat.
Proof.
  intros S. revert p.
  induction actions as [|a actions IH]; intros p B; [exact B|].
  rewrite session_cons. apply IH.
  destruct (handle_step s E a p) as [t [_ [_ [_ [_ [_ [_ [_ L]]]]]]]].
  destruct L as [-> | [_ [d ->]]]; [exact B|].
  destruct s; [congruence| |]; rewrite length_firstn; lia.
Qed.

Lemma sessions_keep_ten_entries_witness :
  app_fixed <> original
  /\ (List.length (recentList Samples.fresh) <= 10)%nat
  /\ (List.length
        (recentList
           (session app_fixed Samples.engine twelve_uploads Samples.fresh))
      <= 10)%nat.
Proof.
  assert (S : app_fixed <> original) by discriminate.
  assert (B : (List.length (recentList Samples.fresh) <= 10)%nat)
    by (cbn; lia).
  split; [exact S|]. split; [exact B|].
  exact (sessions_keep_ten_entries app_fixed Samples.engine twelve_uploads
           Samples.fresh S B).
Defined.

(** X13.  The original script never removes an entry of the recent list:
    after any session the list is the list before with some entries put in
    front, at most one for each action. *)
Theorem original_list_only_grows (E : Engine) (actions : list action)
    (p : Page) :
  exists l,
    recentList (session original E actions p) = (l ++ recentList p)%list
    /\ (List.length l <= List.length actions)%nat.
Proof.
  revert p. induction actions as [|a actions IH]; intros p.
  - exists []. split; [reflexivity | cbn; lia].
  - rewrite session_cons.
    destruct (IH (run (handle original E a) p)) as [l [L B]].
    destruct (handle_step original E a p)
      as [t [_ [_ [_ [_ [_ [_ [_ K]]]]]]]].
    destruct K as [K | [_ [d K]]]; rewrite L, K.
    + exists l. split; [reflexivity | cbn; lia].
    + exists (l ++ [d])%list. rewrite <- app_assoc. split; [reflexivity|].
      rewrite length_app. cbn. lia.
Qed.

(** ** Every detection ends with a message *)

(** X14.  In each of the three scripts, once the request of a snap or of
    a chosen file has settled ([fetch] has rejected, or it has resolved and
    the body was read to its end) and the browser has encoded the canvas or
    read the file, the handler has returned without throwing and the result
    box no longer shows [Analyzing...]: whatever the network answered, the
    box ends with a result, an error or a hint.  A request that never
    settles is no outcome of [fetch_outcome]: the scripts set no timeout,
    and the box then keeps [Analyzing...]. *)
Theorem detections_end_with_a_message (s : script) (E : Engine) (a : action)
    (p : Page) :
  sends_image a = true ->
  returns (handle s E a) p = true
  /\ analyzing (resultBox (run (handle s E a) p)) = false.
Proof.
  destruct a as [o | width height frame preview now net
                | [file|] preview now net]; cbn [sends_image];
    try discriminate; intros _; destruct s; cbn [handle].
  - unfold Original.snapBtn_onclick. handler_simpl.
    match goal with
    | |- context [Original.autoDetect E ?src ?ty ?n ?q] =>
        destruct (Original_detect_shape E src ty n q)
          as [c [l [t [S [_ [_ A]]]]]]; rewrite S
    end.
    split; [reflexivity | exact A].
  - unfold Fixed.snapBtn_onclick. handler_simpl.
    destruct (video_srcObject p); [|split; reflexivity].
    match goal with
    | |- context [Fixed.sendToBackend E ?b ?w ?n ?q] =>
        destruct (Fixed_send_shape E b w n q)
          as [c [l [t [S [_ [_ [A _]]]]]]]; rewrite S
    end.
    split; [reflexivity | exact A].
  - unfold Pages.snapBtn_onclick. handler_simpl.
    destruct (video_srcObject p); [|split; reflexivity].
    match goal with
    | |- context [Pages.sendToBackend E ?b ?n ?q] =>
        destruct (Pages_send_shape E b n q)
          as [c [l [t [S [_ [_ A]]]]]]; rewrite S
    end.
    split; [reflexivity | exact A].
  - unfold Original.uploadInput_onchange. handler_simpl.
    match goal with
    | |- context [Original.autoDetect E ?src ?ty ?n ?q] =>
        destruct (Original_detect_shape E src ty n q)
          as [c [l [t [S [_ [_ A]]]]]]; rewrite S
    end.
    split; [reflexivity | exact A].
  - unfold Fixed.uploadInput_onchange. handler_simpl.
    match goal with
    | |- context [Fixed.sendToBackend E ?b ?w ?n ?q] =>
        destruct (Fixed_send_shape E b w n q)
          as [c [l [t [S [_ [_ [A _]]]]]]]; rewrite S
    end.
    split; [reflexivity | exact A].
  - unfold Pages.uploadInput_onchange. handler_simpl.
    match goal with
    | |- context [Pages.sendToBackend E ?b ?n ?q] =>
        destruct (Pages_send_shape E b n q)
          as [c [l [t [S [_ [_ A]]]]]]; rewrite S
    end.
    split; [reflexivity | exact A].
Qed.

Lemma detections_end_with_a_message_witness :
  sends_image (ChooseFile (Some "png") "blob:1" "10:00:00" NetworkError) = true
  /\ returns (handle original Samples.engine
                (ChooseFile (Some "png") "blob:1" "10:00:00" NetworkError))
             Samples.fresh = true
  /\ analyzing
       (resultBox
          (run (handle original Samples.engine
                  (ChooseFile (Some "png") "blob:1" "10:00:00" NetworkError))
               Samples.fresh)) = false.
Proof.
  split; [reflexivity|].
  exact (detections_end_with_a_message original Samples.engine
           (ChooseFile (Some "png") "blob:1" "10:00:00" NetworkError)
           Samples.fresh eq_refl).
Defined.

(** ** Bodies that are JSON but not a detection *)

(** X15.  A body that is the JSON value [null] is a failure in all three
    scripts: reading a key of it throws, the [catch] shows the script's
    failure text and the recent list is left alone.  The two later scripts
    get there on a success status only. *)
Theorem null_body_is_a_failure (E : Engine) (r : Response) (p : Page) :
  body_json r = Some Null ->
  (forall src sourceType,
      resultBox (run (Original.autoDetect E src sourceType (Answer r)) p)
      = InnerHTML "Detection failed. Is backend running?"
      /\ recentList (run (Original.autoDetect E src sourceType (Answer r)) p)
         = recentList p)
  /\ (ok r = true ->
      (forall blob,
          resultBox (run (Pages.sendToBackend E blob (Answer r)) p)
          = InnerText "Network error. Backend unreachable."
          /\ recentList (run (Pages.sendToBackend E blob (Answer r)) p)
             = recentList p)
      /\ (forall blob now,
          resultBox (run (Fixed.sendToBackend E blob now (Answer r)) p)
          = InnerText ("Detection failed. Is backend running? "
                       ++ "See console for details.")
          /\ recentList (run (Fixed.sendToBackend E blob now (Answer r)) p)
             = recentList p)).
Proof.
  intros J. split; [|intros H; split]; intros; unfold run.
  - rewrite (Original_detect_type_error E src sourceType r Null) by auto.
    split; reflexivity.
  - rewrite (Pages_send_type_error E blob r Null) by auto.
    split; reflexivity.
  - rewrite (Fixed_send_type_error E blob now r Null) by auto.
    split; reflexivity.
Qed.

Lemma null_body_is_a_failure_witness :
  body_json (Samples.json_response 200 Null) = Some Null
  /\ resultBox (run (Original.autoDetect Samples.engine "data:," "upload"
                       (Answer (Samples.json_response 200 Null)))
                    Samples.fresh)
     = InnerHTML "Detection failed. Is backend running?".
Proof.
  split; [reflexivity|].
  exact (proj1 (proj1 (null_body_is_a_failure Samples.engine
                         (Samples.json_response 200 Null) Samples.fresh
                         eq_refl) "data:," "upload")).
Defined.



(** X17.  A success whose JSON body has none of the keys a script reads
    (for instance an object that only holds a status) is no failure in the
    two later scripts: [app.js], which reads [prediction], [confidence] and
    [processing_time_ms], renders [UNKNOWN], 0 % and [N/A]; [app-fixed.js],
    which reads [error], [prediction], [label], [confidence],
    [processing_time_ms] and [processing_time], renders [unknown] (shown in
    upper case), [N/A] and [N/A]; both add the entry to the recent list.
    The original script calls [toUpperCase] on the missing prediction and
    shows its failure text. *)
Theorem keyless_body_is_rendered_as_unknown (E : Engine) (r : Response)
    (result : value) (p : Page) :
  ok r = true ->
  body_json r = Some result ->
  readable result = true ->
  (field result "prediction" = Undefined ->
   field result "confidence" = Undefined ->
   field result "processing_time_ms" = Undefined ->
   forall blob,
     resultBox (run (Pages.sendToBackend E blob (Answer r)) p)
     = InnerHTML (Pages.result_markup E "UNKNOWN" (Fin 0) "N/A")
     /\ recentList (run (Pages.sendToBackend E blob (Answer r)) p)
        = firstn 10 (Pages.recent_entry E "UNKNOWN" (Fin 0) (previewImg_src p)
                       :: recentList p))
  /\ (field result "error" = Undefined ->
      field result "prediction" = Undefined ->
      field result "label" = Undefined ->
      field result "confidence" = Undefined ->
      field result "processing_time_ms" = Undefined ->
      field result "processing_time" = Undefined ->
      forall blob now,
        resultBox (run (Fixed.sendToBackend E blob now (Answer r)) p)
        = InnerHTML (Fixed.result_markup E "unknown" "N/A" "N/A")
        /\ recentList (run (Fixed.sendToBackend E blob now (Answer r)) p)
           = firstn 10
               (Fixed.recent_entry E
                  {| Fixed.label := "unknown"; Fixed.confidence := 0;
                     Fixed.timestamp := now |} (previewImg_src p)
                  :: recentList p))
  /\ (field result "prediction" = Undefined ->
      forall src sourceType,
        resultBox (run (Original.autoDetect E src sourceType (Answer r)) p)
        = InnerHTML "Detection failed. Is backend running?"
        /\ recentList
             (run (Original.autoDetect E src sourceType (Answer r)) p)
           = recentList p).
Proof.
  intros H J R. split; [|split].
  - intros P C T blob. unfold run.
    assert (X : Pages_rendering E result = Some ("UNKNOWN", Fin 0, "N/A"))
      by (unfold Pages_rendering; rewrite P, C, T; reflexivity).
    rewrite (Pages_send_rendered E blob r result "UNKNOWN" (Fin 0) "N/A")
      by assumption.
    cbn [snd]. split; [reflexivity|].
    rewrite Pages_appendRecent_list. reflexivity.
  - intros Er P L C T T' blob now. unfold run.
    assert (X : Fixed_rendering E result = Some ("unknown", "N/A", "N/A"))
      by (unfold Fixed_rendering, Fixed_label_value, Fixed_confidence,
            Fixed_timeMs; rewrite P, L, C, T, T'; reflexivity).
    assert (Y : truthy (field result "error") = false)
      by (rewrite Er; reflexivity).
    rewrite (Fixed_send_rendered E blob now r result "unknown" "N/A" "N/A")
      by assumption.
    cbn [snd]. split; [reflexivity|].
    rewrite Fixed_appendRecent_list. unfold Fixed_item. rewrite C.
    reflexivity.
  - intros P src sourceType. unfold run.
    assert (X : Original_rendering E result = None)
      by (unfold Original_rendering; rewrite P; reflexivity).
    rewrite (Original_detect_type_error E src sourceType r result) by auto.
    split; reflexivity.
Qed.

Lemma keyless_body_is_rendered_as_unknown_witness :
  ok (Samples.json_200 [("status", Str "ok")]) = true
  /\ readable (Obj [("status", Str "ok")]) = true
  /\ resultBox (run (Pages.sendToBackend Samples.engine "jpeg"
                       (Answer (Samples.json_200 [("status", Str "ok")])))
                    Samples.fresh)
     = InnerHTML (nl ++ "      <div><b>Prediction:</b> UNKNOWN</div>"
                  ++ nl ++ "      <div><b>Confidence:</b> 0%</div>"
                  ++ nl ++ "      <div><b>Time:</b> N/A ms</div>"
                  ++ nl ++ "    ").
Proof.
  split; [reflexivity|]. split; [reflexivity|].
  exact (proj1 (proj1 (keyless_body_is_rendered_as_unknown Samples.engine
                         (Samples.json_200 [("status", Str "ok")])
                         (Obj [("status", Str "ok")]) Samples.fresh
                         eq_refl eq_refl eq_refl)
                  eq_refl eq_refl eq_refl "jpeg")).
Defined.

(** X18.  In [app-fixed.js] a confidence that is not a number is shown in
    the result box by its text ([N/A] when it is falsy), but the recent
    entry is built from the number 0 and reads [conf 0.0%].  This is for a
    result that is rendered: the label, the confidence and the time have a
    text. *)
Theorem worded_confidence_is_recorded_as_zero (E : Engine) (blob : Blob)
    (now : string) (r : Response) (result : value) (label confidence
    timeMs : string) (p : Page) :
  ok r = true ->
  body_json r = Some result ->
  readable result = true ->
  truthy (field result "error") = false ->
  is_number (field result "confidence") = false ->
  ToString E (Fixed_label_value result) = Some label ->
  ToString E (or_else (field result "confidence") (Str "N/A"))
  = Some confidence ->
  ToString E (Fixed_timeMs result) = Some timeMs ->
  resultBox (run (Fixed.sendToBackend E blob now (Answer r)) p)
  = InnerHTML (Fixed.result_markup E label confidence timeMs)
  /\ recentList (run (Fixed.sendToBackend E blob now (Answer r)) p)
     = firstn 10
         (Fixed.recent_entry E
            {| Fixed.label := label; Fixed.confidence := 0;
               Fixed.timestamp := now |} (previewImg_src p)
            :: recentList p)
  /\ toFixed1 E (mul (Fin 0) (Fin 100)) = "0.0".
Proof.
  intros H J R T N L C M. unfold run.
  assert (P : Fixed_rendering E result = Some (label, confidence, timeMs)).
  { unfold Fixed_rendering, Fixed_confidence. rewrite L.
    destruct (field result "confidence"); try discriminate N;
      rewrite C, M; reflexivity. }
  rewrite (Fixed_send_rendered E blob now r result label confidence timeMs)
    by assumption.
  cbn [snd]. split; [reflexivity|]. split; [|reflexivity].
  rewrite Fixed_appendRecent_list. unfold Fixed_item.
  destruct (field result "confidence"); try discriminate N; reflexivity.
Qed.

Lemma worded_confidence_is_recorded_as_zero_witness :
  is_number (field worded_confidence "confidence") = false
  /\ resultBox
       (run (Fixed.sendToBackend Samples.engine "jpeg" "10:00:00"
               (Answer (Samples.json_response 200 worded_confidence)))
            Samples.fresh)
     = InnerHTML
         (nl ++ "      <div><strong>Prediction:</strong> REAL</div>"
          ++ nl ++ "      <div><strong>Confidence:</strong> high</div>"
          ++ nl ++ "      <div><strong>Processing time:</strong> N/A ms</div>"
          ++ nl ++ "    ").
Proof.
  split; [reflexivity|].
  exact (proj1 (worded_confidence_is_recorded_as_zero Samples.engine "jpeg"
                  "10:00:00" (Samples.json_response 200 worded_confidence)
                  worded_confidence "real" "high" "N/A" Samples.fresh
                  eq_refl eq_refl eq_refl eq_refl eq_refl eq_refl eq_refl
                  eq_refl)).
Defined.

(** ** The thumbnail of the original script *)

(** X19.  In the original script an [image_path] that is truthy but not a
    string makes [appendRecent] throw after the result was written: the
    [catch] of [autoDetect] replaces the rendered result by the failure
    text and no entry is added. *)
Theorem bad_image_path_discards_the_result (E : Engine) (src sourceType : string)
    (r : Response) (data : value) (label : string) (p : Page) :
  body_json r = Some data ->
  call_toUpperCase E (field data "prediction") = Some label ->
  truthy (field data "image_path") = true ->
  (forall path, field data "image_path" <> Str path) ->
  returns (Original.autoDetect E src sourceType (Answer r)) p = true
  /\ resultBox (run (Original.autoDetect E src sourceType (Answer r)) p)
     = InnerHTML "Detection failed. Is backend running?"
  /\ recentList (run (Original.autoDetect E src sourceType (Answer r)) p)
     = recentList p.
Proof.
  intros J L T N.
  assert (R : readable data = true).
  { apply (field_readable data "image_path" _ eq_refl).
    intros U. rewrite U in T. discriminate T. }
  assert (B : Original_row_entry E (previewImg_src p) data = None).
  { unfold Original_row_entry, Original.thumbnail. rewrite R, T.
    destruct (field data "image_path"); try reflexivity.
    exfalso. eapply N. reflexivity. }
  unfold run, returns.
  destruct (Original_rendering E data) as [[[[l a] conf] time]|] eqn:P.
  - rewrite (Original_detect_entry_throws E src sourceType r data l a conf
               time) by assumption.
    repeat split.
  - rewrite (Original_detect_type_error E src sourceType r data) by auto.
    repeat split.
Qed.

Lemma bad_image_path_discards_the_result_witness :
  truthy (field numeric_image_path "image_path") = true
  /\ resultBox
       (run (Original.autoDetect Samples.engine "data:," "upload"
               (Answer (Samples.json_response 200 numeric_image_path)))
            Samples.fresh)
     = InnerHTML "Detection failed. Is backend running?".
Proof.
  split; [reflexivity|].
  assert (N : forall path, field numeric_image_path "image_path" <> Str path)
    by (intros path; discriminate).
  exact (proj1 (proj2 (bad_image_path_discards_the_result Samples.engine
                         "data:," "upload"
                         (Samples.json_response 200 numeric_image_path)
                         numeric_image_path "REAL" Samples.fresh
                         eq_refl eq_refl eq_refl N))).
Defined.

Lemma has_slash_cons (c : ascii) (s : string) :
  has_slash (String c s) = ((c =? "/")%char || has_slash s)%bool.
Proof.
  unfold has_slash. cbn [list_ascii_of_string existsb].
  rewrite Ascii.eqb_sym. reflexivity.
Qed.

Lemma last_segment_splits (path : string) :
  has_slash (last_segment path) = false
  /\ exists dir,
       path = dir ++ last_segment path
       /\ (dir = "" \/ exists d, dir = d ++ "/").
Proof.
  induction path as [|c rest [S [dir [P D]]]].
  - split; [reflexivity|]. exists "". split; [reflexivity | left; reflexivity].
  - cbn [last_segment].
    destruct (Ascii.eqb_spec c "/") as [-> | C].
    + split; [exact S|]. exists (String "/" dir). split.
      * cbn [append]. rewrite <- P. reflexivity.
      * right. destruct D as [-> | [d ->]];
          [exists ""; reflexivity | exists (String "/" d); reflexivity].
    + fold (has_slash rest). destruct (has_slash rest) eqn:H.
      * split; [exact S|]. exists (String c dir). split.
        -- cbn [append]. rewrite <- P. reflexivity.
        -- right. destruct D as [-> | [d ->]].
           ++ cbn [append] in P. rewrite <- P in S. congruence.
           ++ exists (String c d). reflexivity.
      * split.
        -- rewrite has_slash_cons, H.
           destruct (Ascii.eqb_spec c "/"); [contradiction | reflexivity].
        -- exists "". split; [reflexivity | left; reflexivity].
Qed.

(** X20.  The thumbnail of a recent entry of the original script: for a
    path that is a non-empty string it is the uploads URL followed by what
    comes after the last slash of the path, which holds no slash, so no
    directory of the path reaches the URL; for an empty or missing path it
    is the preview. *)
Theorem thumbnail_is_the_file_name (path preview : string) :
  path <> "" ->
  Original.thumbnail (Str path) preview
  = Some ("http://127.0.0.1:5000/uploads/" ++ last_segment path)
  /\ has_slash (last_segment path) = false
  /\ (exists dir,
        path = dir ++ last_segment path
        /\ (dir = "" \/ exists d, dir = d ++ "/"))
  /\ Original.thumbnail (Str "") preview = Some preview
  /\ Original.thumbnail Undefined preview = Some preview.
Proof.
  intros N. split.
  - unfold Original.thumbnail. cbn [truthy].
    destruct (String.eqb_spec path ""); [contradiction | reflexivity].
  - destruct (last_segment_splits path) as [S D].
    split; [exact S|]. split; [exact D|]. split; reflexivity.
Qed.

Lemma thumbnail_is_the_file_name_witness :
  "uploads/2026/face.jpg" <> ""
  /\ Original.thumbnail (Str "uploads/2026/face.jpg") "data:,"
     = Some "http://127.0.0.1:5000/uploads/face.jpg".
Proof.
  assert (N : "uploads/2026/face.jpg" <> "") by discriminate.
  split; [exact N|].
  exact (proj1 (thumbnail_is_the_file_name "uploads/2026/face.jpg" "data:,"
                  N)).
Defined.

(** ** The entry a detection adds *)

Lemma toFixed1_has_no_markup (E : Engine) (n : number) :
  written_by_toFixed n = true -> markup_chars (toFixed1 E n) = 0%nat.
Proof.
  destruct n as [|x|[|]]; cbn [written_by_toFixed toFixed1 number_toString];
    try reflexivity.
  destruct (Qle_bool (inject_Z (10 ^ 21)) (Qabs x)); [discriminate|].
  intros _. rewrite !markup_chars_app, !show_Z_has_no_markup.
  destruct (Qle_bool 0 x); reflexivity.
Qed.

(** X21.  In [app-fixed.js] the text of a recent entry takes no markup
    from the detection: whatever the label and the timestamp hold, and for
    any confidence whose percentage, as the script computes it, is not a
    finite number of magnitude 10^21 or more (which [toFixed] hands to the
    engine), the markup holds exactly the tag and quote characters of its
    three [div] elements. *)
Theorem fixed_entry_takes_no_markup (E : Engine) (item : Fixed.Item) :
  written_by_toFixed (mul (Fin (Fixed.confidence item)) (Fin 100)) = true ->
  markup_chars (Fixed.info_markup E item) = 18%nat.
Proof.
  intros B. unfold Fixed.info_markup.
  rewrite !markup_chars_app, !escape_has_no_markup,
    (toFixed1_has_no_markup E _ B).
  reflexivity.
Qed.

Lemma fixed_entry_takes_no_markup_witness :
  written_by_toFixed
    (mul (Fin (Fixed.confidence
                 {| Fixed.label := "<b>spoof</b>";
                    Fixed.confidence := confidence_873;
                    Fixed.timestamp := "10:00:00" |})) (Fin 100)) = true
  /\ markup_chars
       (Fixed.info_markup Samples.engine
          {| Fixed.label := "<b>spoof</b>"; Fixed.confidence := confidence_873;
             Fixed.timestamp := "10:00:00" |}) = 18%nat.
Proof.
  split; [reflexivity|].
  exact (fixed_entry_takes_no_markup Samples.engine
           {| Fixed.label := "<b>spoof</b>"; Fixed.confidence := confidence_873;
              Fixed.timestamp := "10:00:00" |} eq_refl).
Defined.



(** ** What the later scripts draw and show *)

Lemma handle_draws_no_empty_frame (s : script) (E : Engine) (a : action)
    (p : Page) :
  s <> original ->
  count empty_frame (trace (run (handle s E a) p))
  = count empty_frame (trace p).
Proof.
  intros S.
  destruct a as [[stream|] | width height frame preview now net
                | [file|] preview now net];
    (destruct s; [congruence| |]); cbn [handle].
  1-4: cbn -[count]; rewrite ?count_app; unfold count; cbn; lia.
  - unfold Fixed.snapBtn_onclick, run. handler_simpl.
    destruct (video_srcObject p); [|reflexivity].
    match goal with
    | |- context [Fixed.sendToBackend E ?b ?w ?n ?q] =>
        destruct (Fixed_send_shape E b w n q)
          as [c [l [t [R [Q _]]]]]; rewrite R
    end.
    cbn [trace set_recentList set_resultBox set_preview].
    rewrite trace_logged, count_app, (count_quiet_frames t Q), !count_log.
    cbn [trace set_resultBox set_preview].
    rewrite count_log, drawn_frame_is_not_empty.
    cbn [empty_frame Fixed_request Pages_request]. lia.
  - unfold Pages.snapBtn_onclick, run. handler_simpl.
    destruct (video_srcObject p); [|reflexivity].
    match goal with
    | |- context [Pages.sendToBackend E ?b ?n ?q] =>
        destruct (Pages_send_shape E b n q)
          as [c [l [t [R [Q _]]]]]; rewrite R
    end.
    cbn [trace set_recentList set_resultBox set_preview].
    rewrite trace_logged, count_app, (count_quiet_frames t Q), !count_log.
    cbn [trace set_resultBox set_preview].
    rewrite count_log, drawn_frame_is_not_empty.
    cbn [empty_frame Fixed_request Pages_request]. lia.
  - unfold Fixed.uploadInput_onchange, run. handler_simpl.
    match goal with
    | |- context [Fixed.sendToBackend E ?b ?w ?n ?q] =>
        destruct (Fixed_send_shape E b w n q)
          as [c [l [t [R [Q _]]]]]; rewrite R
    end.
    cbn [trace set_recentList set_resultBox set_preview].
    rewrite trace_logged, count_app, (count_quiet_frames t Q), !count_log.
    cbn [trace set_resultBox set_preview empty_frame Fixed_request
         Pages_request]. lia.
  - unfold Pages.uploadInput_onchange, run. handler_simpl.
    match goal with
    | |- context [Pages.sendToBackend E ?b ?n ?q] =>
        destruct (Pages_send_shape E b n q)
          as [c [l [t [R [Q _]]]]]; rewrite R
    end.
    cbn [trace set_recentList set_resultBox set_preview].
    rewrite trace_logged, count_app, (count_quiet_frames t Q), !count_log.
    cbn [trace set_resultBox set_preview empty_frame Fixed_request
         Pages_request]. lia.
  - reflexivity.
  - reflexivity.
Qed.

(** X23.  [app-fixed.js] and [app.js] never draw on an empty canvas: a
    video that reports no width or no height is drawn on 640 by 480, so
    over any session the number of frames without width or height stays
    what it was. *)
Theorem later_scripts_draw_no_empty_frame (s : script) (E : Engine)
    (actions : list action) (p : Page) :
  s <> original ->
  count empty_frame (trace (session s E actions p))
  = count empty_frame (trace p).
Proof.
  intros S. revert p.
  induction actions as [|a actions IH]; intros p; [reflexivity|].
  rewrite session_cons, IH. apply handle_draws_no_empty_frame, S.
Qed.

Lemma later_scripts_draw_no_empty_frame_witness :
  app_fixed <> original
  /\ count is_capture
       (trace (session app_fixed Samples.engine granted_session
                 Samples.fresh)) = 1%nat
  /\ count empty_frame
       (trace (session app_fixed Samples.engine granted_session
                 Samples.fresh))
     = count empty_frame (trace Samples.fresh).
Proof.
  assert (S : app_fixed <> original) by discriminate.
  split; [exact S|]. split; [reflexivity|].
  exact (later_scripts_draw_no_empty_frame app_fixed Samples.engine
           granted_session Samples.fresh S).
Defined.



